(** * Worker-health simulation engine: a shallow embedding

    The development follows [src/aegis/lib/simulation.ts] (the [useSimulation]
    hook and [getSimulationProgress]), [src/aegis/lib/modelLoader.ts] (the
    Python-bridge loader) and the [JSModelLoader] class.

    Numbers.  A JavaScript [number] is read as an exact rational ([Q]): the
    code only adds and multiplies by decimal constants, takes [Math.min] /
    [Math.max] and rounds, and every statement below is about order and
    bounds, which rounding to the nearest double preserves.  [NaN] and the
    infinities are outside the model; the one division whose divisor the
    code does not keep away from zero is pointed out where it occurs.  At a
    half-way case the rational model can round the other way than the
    double does (35 * 0.97 is 33.95 exactly and rounds to 34.0, the double
    is just below and rounds to 33.9); bounds are stated with that margin.
    The few later statements that rest on exact arithmetic (progress values
    adding up, the scaling round trip of the mock model) are equalities
    over the rationals.

    Effects.  The hook keeps its data in refs; they are gathered in one
    record [Refs] that every operation takes and returns.  What the hook
    sends outwards (console lines that carry a stop reason, the
    [onWorkerUpdate] and [onError] callbacks, the oracle request, timer
    creation) is returned next to the new refs as a list of [Event]s.
    [async]/[await] is modelled by cutting [performSimulationStep] at its
    single [await]: the part before it runs when the timer fires, the part
    after it runs when the oracle call settles. *)

From Stdlib Require Import QArith Qround Qminmax Lqa Lia ZArith Bool.
From Stdlib Require Import String DecimalString List.
Import ListNotations.

Open Scope Q_scope.

(** ** JavaScript arithmetic used by the sources *)

Module Js.

(** [Math.round]: the nearest integer, halves going up. *)
Definition round (x : Q) : Q := inject_Z (Qfloor (x + 0.5)).

(** [Math.min] and [Math.max] on two arguments. *)
Definition min (a b : Q) : Q := Qmin a b.
Definition max (a b : Q) : Q := Qmax a b.

(** [a < b] and [a > b] as booleans. *)
Definition ltb (a b : Q) : bool := negb (Qle_bool b a).
Definition gtb (a b : Q) : bool := ltb b a.

(** Truthiness of a string: only the empty string is falsy. *)
Definition truthy (s : string) : bool :=
  match s with EmptyString => false | String _ _ => true end.

End Js.

(** ** The data model ([@/types], as far as the sources use it) *)

Inductive SimulationType : Type := heatup | cooldown.

(** [Worker]: the fields the sources read or write.  Fields of the
    interface that no source file mentions travel in [other]. *)
Record Worker : Type := mkWorker {
  id : string;
  name : string;
  temperature : Q;
  humidity : Q;
  hrv_mean_hr : Q;
  hrv_rmssd : Q;
  hrv_sdnn : Q;
  hrv_mean_nni : Q;
  hrv_pnni_50 : Q;
  hrv_total_power : Q;
  hrv_lf : Q;
  hrv_hf : Q;
  hrv_min_hr : Q;
  hrv_max_hr : Q;
  hrv_std_hr : Q;
  hrv_lf_hf_ratio : Q;
  hrv_median_nni : Q;
  hrv_range_nni : Q;
  hrv_cvnni : Q;
  riskScore : option Q;
  predictedClass : option string;
  confidence : option Q;
  other : list (string * Q)
}.

(** [Partial<Worker>]: [None] is an absent key.  The three optional risk
    fields can also be present with the value [undefined], hence the second
    [option]. *)
Record PartialWorker : Type := mkPartial {
  p_temperature : option Q;
  p_humidity : option Q;
  p_hrv_mean_hr : option Q;
  p_hrv_rmssd : option Q;
  p_hrv_sdnn : option Q;
  p_hrv_mean_nni : option Q;
  p_hrv_pnni_50 : option Q;
  p_hrv_total_power : option Q;
  p_hrv_lf : option Q;
  p_hrv_hf : option Q;
  p_hrv_min_hr : option Q;
  p_hrv_max_hr : option Q;
  p_hrv_std_hr : option Q;
  p_hrv_lf_hf_ratio : option Q;
  p_hrv_median_nni : option Q;
  p_hrv_range_nni : option Q;
  p_hrv_cvnni : option Q;
  p_riskScore : option (option Q);
  p_predictedClass : option (option string);
  p_confidence : option (option Q)
}.

(** The empty object literal. *)
Definition emptyPartial : PartialWorker :=
  mkPartial None None None None None None None None None None
            None None None None None None None None None None.

(** A key of the right operand of a spread wins when it is present. *)
Definition over {A : Type} (old : A) (upd : option A) : A :=
  match upd with Some v => v | None => old end.

(** [{ ...w, ...u }] for a worker [w] and a partial worker [u]. *)
Definition spread (w : Worker) (u : PartialWorker) : Worker :=
  {| id := id w;
     name := name w;
     temperature := over (temperature w) (p_temperature u);
     humidity := over (humidity w) (p_humidity u);
     hrv_mean_hr := over (hrv_mean_hr w) (p_hrv_mean_hr u);
     hrv_rmssd := over (hrv_rmssd w) (p_hrv_rmssd u);
     hrv_sdnn := over (hrv_sdnn w) (p_hrv_sdnn u);
     hrv_mean_nni := over (hrv_mean_nni w) (p_hrv_mean_nni u);
     hrv_pnni_50 := over (hrv_pnni_50 w) (p_hrv_pnni_50 u);
     hrv_total_power := over (hrv_total_power w) (p_hrv_total_power u);
     hrv_lf := over (hrv_lf w) (p_hrv_lf u);
     hrv_hf := over (hrv_hf w) (p_hrv_hf u);
     hrv_min_hr := over (hrv_min_hr w) (p_hrv_min_hr u);
     hrv_max_hr := over (hrv_max_hr w) (p_hrv_max_hr u);
     hrv_std_hr := over (hrv_std_hr w) (p_hrv_std_hr u);
     hrv_lf_hf_ratio := over (hrv_lf_hf_ratio w) (p_hrv_lf_hf_ratio u);
     hrv_median_nni := over (hrv_median_nni w) (p_hrv_median_nni u);
     hrv_range_nni := over (hrv_range_nni w) (p_hrv_range_nni u);
     hrv_cvnni := over (hrv_cvnni w) (p_hrv_cvnni u);
     riskScore := over (riskScore w) (p_riskScore u);
     predictedClass := over (predictedClass w) (p_predictedClass u);
     confidence := over (confidence w) (p_confidence u);
     other := other w |}.

(** [PredictionResponse], what the Risk Oracle answers. *)
Record PredictionResponse : Type := mkPrediction {
  risk_score : Q;
  predicted_class : string;
  confidence_of : Q
}.

(** ** Constants of [simulation.ts] *)

Definition DEFAULT_SIMULATION_INTERVAL : nat := 500.
Definition TEMPERATURE_INCREMENT : Q := 1.2.
Definition HUMIDITY_INCREMENT : Q := 3.5.
Definition MAX_TEMPERATURE : Q := 34.
Definition MIN_TEMPERATURE : Q := 10.
Definition MAX_HUMIDITY : Q := 90.
Definition MIN_HUMIDITY : Q := 20.

Definition HRV_INCREASE_RMSSD : Q := 1.04.
Definition HRV_INCREASE_SDNN : Q := 1.03.
Definition HRV_INCREASE_PNN50 : Q := 1.05.
Definition HRV_INCREASE_POWER : Q := 1.06.
Definition HRV_INCREASE_LF : Q := 1.03.
Definition HRV_INCREASE_HF : Q := 1.08.

Definition HRV_DECREASE_RMSSD : Q := 0.96.
Definition HRV_DECREASE_SDNN : Q := 0.97.
Definition HRV_DECREASE_PNN50 : Q := 0.93.
Definition HRV_DECREASE_POWER : Q := 0.92.
Definition HRV_DECREASE_LF : Q := 0.94.
Definition HRV_DECREASE_HF : Q := 0.90.
Definition HEART_RATE_STRESS_INCREMENT : Q := 1.5.
Definition HEART_RATE_RECOVERY_DECREMENT : Q := 1.2.

Definition MAX_SIMULATION_STEPS : nat := 100.

(** ** The Signal Generator: [calculateNextSimulationValues] *)

(** The ten [let new...] variables of the function, after the mode branch
    and before rounding. *)
Record NewValues : Type := mkNew {
  newTemp : Q;
  newHumidity : Q;
  newMeanHR : Q;
  newRMSSD : Q;
  newSDNN : Q;
  newMeanNNI : Q;
  newPNN50 : Q;
  newTotalPower : Q;
  newLF : Q;
  newHF : Q
}.

(** The [if (simulationType === 'heatup') ... else if (... 'cooldown')]
    block. *)
Definition perturb (currentWorker : Worker) (simulationType : SimulationType)
  : NewValues :=
  let currentTemp := temperature currentWorker in
  let currentHumidity := humidity currentWorker in
  let currentMeanHR := hrv_mean_hr currentWorker in
  let currentRMSSD := hrv_rmssd currentWorker in
  let currentSDNN := hrv_sdnn currentWorker in
  let currentMeanNNI := hrv_mean_nni currentWorker in
  let currentPNN50 := hrv_pnni_50 currentWorker in
  let currentTotalPower := hrv_total_power currentWorker in
  let currentLF := hrv_lf currentWorker in
  let currentHF := hrv_hf currentWorker in
  match simulationType with
  | heatup =>
      {| newTemp := Js.min MAX_TEMPERATURE (currentTemp + TEMPERATURE_INCREMENT);
         newHumidity := Js.min MAX_HUMIDITY (currentHumidity + HUMIDITY_INCREMENT);
         newMeanHR := Js.min 110 (currentMeanHR + HEART_RATE_STRESS_INCREMENT);
         newRMSSD := Js.min 120 (currentRMSSD * HRV_INCREASE_RMSSD);
         newSDNN := Js.min 150 (currentSDNN * HRV_INCREASE_SDNN);
         newMeanNNI := Js.min 1200 (currentMeanNNI * 1.04);
         newPNN50 := Js.min 50 (currentPNN50 * HRV_INCREASE_PNN50);
         newTotalPower := Js.min 5000 (currentTotalPower * HRV_INCREASE_POWER);
         newLF := Js.min 1500 (currentLF * HRV_INCREASE_LF);
         newHF := Js.min 1000 (currentHF * HRV_INCREASE_HF) |}
  | cooldown =>
      {| newTemp := Js.max MIN_TEMPERATURE (currentTemp - TEMPERATURE_INCREMENT);
         newHumidity := Js.max MIN_HUMIDITY (currentHumidity - HUMIDITY_INCREMENT);
         newMeanHR := Js.max 50 (currentMeanHR - HEART_RATE_RECOVERY_DECREMENT);
         newRMSSD := Js.max 15 (currentRMSSD * HRV_DECREASE_RMSSD);
         newSDNN := Js.max 20 (currentSDNN * HRV_DECREASE_SDNN);
         newMeanNNI := Js.min 1200 (currentMeanNNI * 1.04);
         newPNN50 := Js.max 5 (currentPNN50 * HRV_DECREASE_PNN50);
         newTotalPower := Js.max 800 (currentTotalPower * HRV_DECREASE_POWER);
         newLF := Js.max 200 (currentLF * HRV_DECREASE_LF);
         newHF := Js.max 100 (currentHF * HRV_DECREASE_HF) |}
  end.

(** The returned object literal.  [newLF / newHF] and [newSDNN / newMeanNNI]
    are rational divisions: the first divisor is at least 100 on every
    state whose HF is at least 100, the second has no floor in the code. *)
Definition roundValues (n : NewValues) : PartialWorker :=
  {| p_temperature := Some (Js.round (newTemp n * 10) / 10);
     p_humidity := Some (Js.round (newHumidity n * 10) / 10);
     p_hrv_mean_hr := Some (Js.round (newMeanHR n * 10) / 10);
     p_hrv_rmssd := Some (Js.round (newRMSSD n * 10) / 10);
     p_hrv_sdnn := Some (Js.round (newSDNN n * 10) / 10);
     p_hrv_mean_nni := Some (Js.round (newMeanNNI n));
     p_hrv_pnni_50 := Some (Js.round (newPNN50 n * 10) / 10);
     p_hrv_total_power := Some (Js.round (newTotalPower n));
     p_hrv_lf := Some (Js.round (newLF n));
     p_hrv_hf := Some (Js.round (newHF n));
     p_hrv_min_hr := Some (Js.round ((newMeanHR n - 15) * 10) / 10);
     p_hrv_max_hr := Some (Js.round ((newMeanHR n + 25) * 10) / 10);
     p_hrv_std_hr := Some (Js.round ((newSDNN n * 0.3) * 10) / 10);
     p_hrv_lf_hf_ratio := Some (Js.round ((newLF n / newHF n) * 100) / 100);
     p_hrv_median_nni := Some (Js.round (newMeanNNI n * 0.98));
     p_hrv_range_nni := Some (Js.round (newSDNN n * 8));
     p_hrv_cvnni := Some (Js.round ((newSDNN n / newMeanNNI n) * 1000) / 1000);
     p_riskScore := None;
     p_predictedClass := None;
     p_confidence := None |}.

Definition calculateNextSimulationValues
  (currentWorker : Worker) (simulationType : SimulationType) : PartialWorker :=
  roundValues (perturb currentWorker simulationType).

(** ** The Termination Policy: [shouldContinueSimulation]

    The source reads the step count from [stepCountRef.current]; here it is
    the third argument, and the loop below passes the ref's value. *)
Definition shouldContinueSimulation
  (currentWorker : Worker) (simulationType : SimulationType) (stepCount : nat)
  : bool :=
  if (MAX_SIMULATION_STEPS <=? stepCount)%nat then false
  else
    let temp := temperature currentWorker in
    let humidity := humidity currentWorker in
    match simulationType with
    | heatup => Js.ltb temp MAX_TEMPERATURE || Js.ltb humidity MAX_HUMIDITY
    | cooldown => Js.gtb temp MIN_TEMPERATURE || Js.gtb humidity MIN_HUMIDITY
    end.

(** ** The Progress Reporter: [getSimulationProgress] *)
Definition getSimulationProgress
  (currentTemp currentHumidity : Q) (simulationType : SimulationType) : Q :=
  match simulationType with
  | heatup =>
      let tempProgress :=
        Js.min 100 (((currentTemp - MIN_TEMPERATURE)
                     / (MAX_TEMPERATURE - MIN_TEMPERATURE)) * 100) in
      let humidityProgress :=
        Js.min 100 (((currentHumidity - MIN_HUMIDITY)
                     / (MAX_HUMIDITY - MIN_HUMIDITY)) * 100) in
      (tempProgress + humidityProgress) / 2
  | cooldown =>
      let tempProgress :=
        Js.min 100 (((MAX_TEMPERATURE - currentTemp)
                     / (MAX_TEMPERATURE - MIN_TEMPERATURE)) * 100) in
      let humidityProgress :=
        Js.min 100 (((MAX_HUMIDITY - currentHumidity)
                     / (MAX_HUMIDITY - MIN_HUMIDITY)) * 100) in
      (tempProgress + humidityProgress) / 2
  end.

(** ** The Simulation Loop: state of the [useSimulation] hook *)

(** [SimulationState], the React state kept for display.  [currentValues]
    is either the empty object ([None]) or a whole worker. *)
Record SimulationState : Type := mkSimulationState {
  isActive : bool;
  type : option SimulationType;
  targetWorker : string;
  currentValues : option Worker
}.

(** A timer handle as [setInterval] returns it; handles are truthy. *)
Definition Timer : Type := positive.

(** The refs of the hook, with the React state next to them. *)
Record Refs : Type := mkRefs {
  intervalRef : option Timer;
  stepCountRef : nat;
  baselineValuesRef : PartialWorker;
  errorCountRef : nat;
  consecutiveErrorsRef : nat;
  simulationTypeRef : option SimulationType;
  isActiveRef : bool;
  workersRef : list Worker;
  currentWorkerValuesRef : option Worker;
  simulationState : SimulationState
}.

(** What the hook sends to its surroundings. *)
Inductive Event : Type :=
| ClearInterval (h : Timer)
| SetInterval (h : Timer) (ms : nat)
| StopLogged (reason : string)
| OracleCall (w : Worker)
| WorkerUpdate (workerId : string) (updates : PartialWorker)
| ErrorLogged (message : string) (step : nat)
| OnError (message : string) (step : nat) (simulationType : SimulationType)
          (errorCount consecutiveErrors : nat).

(** The parameters of the hook that the loop uses besides [workers]. *)
Record Props : Type := mkProps {
  onError : bool;              (* was the optional callback passed *)
  simulationInterval : nat
}.

(** How the awaited [predictWorkerRisk] call settles. *)
Inductive OracleOutcome : Type :=
| Fulfilled (prediction : PredictionResponse)
| Rejected (message : string).

(** The state of a freshly mounted hook. *)
Definition initialRefs (workers : list Worker) : Refs :=
  {| intervalRef := None;
     stepCountRef := 0;
     baselineValuesRef := emptyPartial;
     errorCountRef := 0;
     consecutiveErrorsRef := 0;
     simulationTypeRef := None;
     isActiveRef := false;
     workersRef := workers;
     currentWorkerValuesRef := None;
     simulationState :=
       {| isActive := false; type := None;
          targetWorker := "John Doe"; currentValues := None |} |}.

(** [workersRef.current = workers], done on every render. *)
Definition render (workers : list Worker) (r : Refs) : Refs :=
  {| intervalRef := intervalRef r;
     stepCountRef := stepCountRef r;
     baselineValuesRef := baselineValuesRef r;
     errorCountRef := errorCountRef r;
     consecutiveErrorsRef := consecutiveErrorsRef r;
     simulationTypeRef := simulationTypeRef r;
     isActiveRef := isActiveRef r;
     workersRef := workers;
     currentWorkerValuesRef := currentWorkerValuesRef r;
     simulationState := simulationState r |}.

(** [clearSimulationInterval]. *)
Definition clearSimulationInterval (r : Refs) : Refs * list Event :=
  match intervalRef r with
  | Some h =>
      ({| intervalRef := None;
          stepCountRef := stepCountRef r;
          baselineValuesRef := baselineValuesRef r;
          errorCountRef := errorCountRef r;
          consecutiveErrorsRef := consecutiveErrorsRef r;
          simulationTypeRef := simulationTypeRef r;
          isActiveRef := isActiveRef r;
          workersRef := workersRef r;
          currentWorkerValuesRef := currentWorkerValuesRef r;
          simulationState := simulationState r |},
       [ClearInterval h])
  | None => (r, [])
  end.

(** [reason || 'Manual stop']. *)
Definition reasonOrDefault (reason : option string) : string :=
  match reason with
  | Some s => if Js.truthy s then s else "Manual stop"%string
  | None => "Manual stop"%string
  end.

(** [stopSimulation]. *)
Definition stopSimulation (reason : option string) (r : Refs)
  : Refs * list Event :=
  let '(r1, cleared) := clearSimulationInterval r in
  ({| intervalRef := intervalRef r1;
      stepCountRef := 0;
      baselineValuesRef := baselineValuesRef r1;
      errorCountRef := 0;
      consecutiveErrorsRef := 0;
      simulationTypeRef := None;
      isActiveRef := false;
      workersRef := workersRef r1;
      currentWorkerValuesRef := None;
      simulationState :=
        {| isActive := false;
           type := None;
           targetWorker := targetWorker (simulationState r1);
           currentValues := currentValues (simulationState r1) |} |},
   StopLogged (reasonOrDefault reason) :: cleared).

(** [findTargetWorker]. *)
Definition findTargetWorker (r : Refs) : option Worker :=
  find (fun worker => String.eqb (name worker) "John Doe") (workersRef r).

(** ** One tick: [performSimulationStep] *)

(** [{ ...u, ...v }] on two partial workers. *)
Definition overP {A : Type} (old upd : option A) : option A :=
  match upd with Some _ => upd | None => old end.

Definition spreadPartial (u v : PartialWorker) : PartialWorker :=
  {| p_temperature := overP (p_temperature u) (p_temperature v);
     p_humidity := overP (p_humidity u) (p_humidity v);
     p_hrv_mean_hr := overP (p_hrv_mean_hr u) (p_hrv_mean_hr v);
     p_hrv_rmssd := overP (p_hrv_rmssd u) (p_hrv_rmssd v);
     p_hrv_sdnn := overP (p_hrv_sdnn u) (p_hrv_sdnn v);
     p_hrv_mean_nni := overP (p_hrv_mean_nni u) (p_hrv_mean_nni v);
     p_hrv_pnni_50 := overP (p_hrv_pnni_50 u) (p_hrv_pnni_50 v);
     p_hrv_total_power := overP (p_hrv_total_power u) (p_hrv_total_power v);
     p_hrv_lf := overP (p_hrv_lf u) (p_hrv_lf v);
     p_hrv_hf := overP (p_hrv_hf u) (p_hrv_hf v);
     p_hrv_min_hr := overP (p_hrv_min_hr u) (p_hrv_min_hr v);
     p_hrv_max_hr := overP (p_hrv_max_hr u) (p_hrv_max_hr v);
     p_hrv_std_hr := overP (p_hrv_std_hr u) (p_hrv_std_hr v);
     p_hrv_lf_hf_ratio := overP (p_hrv_lf_hf_ratio u) (p_hrv_lf_hf_ratio v);
     p_hrv_median_nni := overP (p_hrv_median_nni u) (p_hrv_median_nni v);
     p_hrv_range_nni := overP (p_hrv_range_nni u) (p_hrv_range_nni v);
     p_hrv_cvnni := overP (p_hrv_cvnni u) (p_hrv_cvnni v);
     p_riskScore := overP (p_riskScore u) (p_riskScore v);
     p_predictedClass := overP (p_predictedClass u) (p_predictedClass v);
     p_confidence := overP (p_confidence u) (p_confidence v) |}.

(** [{ riskScore: prediction.risk_score, predictedClass: ..., confidence: ... }]. *)
Definition riskAnnotation (prediction : PredictionResponse) : PartialWorker :=
  {| p_temperature := None; p_humidity := None; p_hrv_mean_hr := None;
     p_hrv_rmssd := None; p_hrv_sdnn := None; p_hrv_mean_nni := None;
     p_hrv_pnni_50 := None; p_hrv_total_power := None; p_hrv_lf := None;
     p_hrv_hf := None; p_hrv_min_hr := None; p_hrv_max_hr := None;
     p_hrv_std_hr := None; p_hrv_lf_hf_ratio := None;
     p_hrv_median_nni := None; p_hrv_range_nni := None; p_hrv_cvnni := None;
     p_riskScore := Some (Some (risk_score prediction));
     p_predictedClass := Some (Some (predicted_class prediction));
     p_confidence := Some (Some (confidence_of prediction)) |}.

(** The locals a tick keeps across its [await]. *)
Record Pending : Type := mkPending {
  pendingWorker : Worker;            (* [targetWorker] *)
  pendingType : SimulationType       (* [simulationType] *)
}.

(** How far a tick gets before it awaits the oracle. *)
Inductive Began : Type :=
| Halted (r : Refs) (events : list Event)
| Awaiting (r : Refs) (k : Pending) (events : list Event).

(** [currentWorkerValuesRef.current = w]. *)
Definition setCache (w : option Worker) (r : Refs) : Refs :=
  {| intervalRef := intervalRef r;
     stepCountRef := stepCountRef r;
     baselineValuesRef := baselineValuesRef r;
     errorCountRef := errorCountRef r;
     consecutiveErrorsRef := consecutiveErrorsRef r;
     simulationTypeRef := simulationTypeRef r;
     isActiveRef := isActiveRef r;
     workersRef := workersRef r;
     currentWorkerValuesRef := w;
     simulationState := simulationState r |}.

(** [performSimulationStep] up to [await predictWorkerRisk(updatedWorker)]. *)
Definition performSimulationStep_begin (r : Refs) : Began :=
  match isActiveRef r, simulationTypeRef r with
  | true, Some simulationType =>
      let '(found, r1) :=
        match currentWorkerValuesRef r with
        | Some w => (Some w, r)
        | None =>
            match findTargetWorker r with
            | Some w => (Some w, setCache (Some w) r)
            | None => (None, r)
            end
        end in
      match found with
      | None =>
          let '(r2, ev) := stopSimulation (Some "Target worker not found"%string) r1 in
          Halted r2 ev
      | Some targetWorker =>
          let nextValues := calculateNextSimulationValues targetWorker simulationType in
          let updatedWorker := spread targetWorker nextValues in
          Awaiting r1 (mkPending targetWorker simulationType) [OracleCall updatedWorker]
      end
  | _, _ =>
      let '(r1, ev) := stopSimulation (Some "Simulation no longer active"%string) r in
      Halted r1 ev
  end.

(** The assignments of the [try] block after the [await] (lines 297-334). *)
Definition afterSuccess (k : Pending) (prediction : PredictionResponse) (r : Refs)
  : Refs :=
  let target := pendingWorker k in
  let nextValues := calculateNextSimulationValues target (pendingType k) in
  let updatedWorker := spread target nextValues in
  let workerUpdates := spreadPartial nextValues (riskAnnotation prediction) in
  {| intervalRef := intervalRef r;
     stepCountRef := stepCountRef r + 1;
     baselineValuesRef := baselineValuesRef r;
     errorCountRef := errorCountRef r;
     consecutiveErrorsRef := 0;
     simulationTypeRef := simulationTypeRef r;
     isActiveRef := isActiveRef r;
     workersRef := workersRef r;
     currentWorkerValuesRef := Some (spread target workerUpdates);
     simulationState :=
       {| isActive := isActive (simulationState r);
          type := type (simulationState r);
          targetWorker := targetWorker (simulationState r);
          currentValues := Some (spread updatedWorker (riskAnnotation prediction)) |} |}.

(** The assignments of the [catch] block up to the budget tests
    (lines 352-383). *)
Definition afterFailure (k : Pending) (r : Refs) : Refs :=
  let target := pendingWorker k in
  let nextValues := calculateNextSimulationValues target (pendingType k) in
  let updatedWorker := spread target nextValues in
  {| intervalRef := intervalRef r;
     stepCountRef := stepCountRef r;
     baselineValuesRef := baselineValuesRef r;
     errorCountRef := errorCountRef r + 1;
     consecutiveErrorsRef := consecutiveErrorsRef r + 1;
     simulationTypeRef := simulationTypeRef r;
     isActiveRef := isActiveRef r;
     workersRef := workersRef r;
     currentWorkerValuesRef := Some (spread target nextValues);
     simulationState :=
       {| isActive := isActive (simulationState r);
          type := type (simulationState r);
          targetWorker := targetWorker (simulationState r);
          currentValues := Some updatedWorker |} |}.

(** [stepCountRef.current += 1]. *)
Definition bumpStep (r : Refs) : Refs :=
  {| intervalRef := intervalRef r;
     stepCountRef := stepCountRef r + 1;
     baselineValuesRef := baselineValuesRef r;
     errorCountRef := errorCountRef r;
     consecutiveErrorsRef := consecutiveErrorsRef r;
     simulationTypeRef := simulationTypeRef r;
     isActiveRef := isActiveRef r;
     workersRef := workersRef r;
     currentWorkerValuesRef := currentWorkerValuesRef r;
     simulationState := simulationState r |}.

(** [performSimulationStep] from the point where the awaited call settles:
    the rest of the [try] block when it fulfils, the [catch] block when it
    rejects. *)
Definition performSimulationStep_resume
  (P : Props) (k : Pending) (o : OracleOutcome) (r : Refs) : Refs * list Event :=
  let target := pendingWorker k in
  let simulationType := pendingType k in
  let nextValues := calculateNextSimulationValues target simulationType in
  let updatedWorker := spread target nextValues in
  match o with
  | Fulfilled prediction =>
      let workerUpdates := spreadPartial nextValues (riskAnnotation prediction) in
      let r1 := afterSuccess k prediction r in
      let published := [WorkerUpdate (id target) workerUpdates] in
      if negb (shouldContinueSimulation updatedWorker simulationType (stepCountRef r1))
      then
        let '(r2, ev) :=
          stopSimulation (Some "Simulation completed successfully"%string) r1 in
        (r2, published ++ ev)
      else (r1, published)
  | Rejected message =>
      let r1 := afterFailure k r in
      let published :=
        ErrorLogged message (stepCountRef r)
        :: WorkerUpdate (id target) nextValues
        :: (if onError P
            then [OnError message (stepCountRef r1) simulationType
                          (errorCountRef r1) (consecutiveErrorsRef r1)]
            else []) in
      if (3 <=? consecutiveErrorsRef r1)%nat then
        let '(r2, ev) :=
          stopSimulation (Some "Too many consecutive errors"%string) r1 in
        (r2, published ++ ev)
      else if (10 <=? errorCountRef r1)%nat then
        let '(r2, ev) := stopSimulation (Some "Too many total errors"%string) r1 in
        (r2, published ++ ev)
      else
        let r2 := bumpStep r1 in
        if (MAX_SIMULATION_STEPS <=? stepCountRef r2)%nat then
          let '(r3, ev) := stopSimulation (Some "Maximum steps reached"%string) r2 in
          (r3, published ++ ev)
        else (r2, published)
  end.

(** A whole tick whose oracle call settles with [o] before anything else
    happens. *)
Definition performSimulationStep (P : Props) (o : OracleOutcome) (r : Refs)
  : Refs * list Event :=
  match performSimulationStep_begin r with
  | Halted r1 ev => (r1, ev)
  | Awaiting r1 k ev =>
      let '(r2, ev') := performSimulationStep_resume P k o r1 in
      (r2, ev ++ ev')
  end.

(** Ticks one after the other, each oracle call settling as listed. *)
Fixpoint runTicks (P : Props) (outcomes : list OracleOutcome) (r : Refs)
  : Refs * list Event :=
  match outcomes with
  | [] => (r, [])
  | o :: rest =>
      let '(r1, ev) := performSimulationStep P o r in
      let '(r2, ev') := runTicks P rest r1 in
      (r2, ev ++ ev')
  end.

(** ** Starting and resetting *)

(** [{ temperature: w.temperature, humidity: w.humidity }]. *)
Definition environmentOf (w : Worker) : PartialWorker :=
  {| p_temperature := Some (temperature w); p_humidity := Some (humidity w);
     p_hrv_mean_hr := None;
     p_hrv_rmssd := None; p_hrv_sdnn := None; p_hrv_mean_nni := None;
     p_hrv_pnni_50 := None; p_hrv_total_power := None; p_hrv_lf := None;
     p_hrv_hf := None; p_hrv_min_hr := None; p_hrv_max_hr := None;
     p_hrv_std_hr := None; p_hrv_lf_hf_ratio := None;
     p_hrv_median_nni := None; p_hrv_range_nni := None; p_hrv_cvnni := None;
     p_riskScore := None; p_predictedClass := None; p_confidence := None |}.

(** The common body of [startHeatUpSimulation] and
    [startCoolDownSimulation], which differ in the mode they store.  [h] is
    the handle [setInterval] returns. *)
Definition startSimulation
  (simulationType : SimulationType) (P : Props) (h : Timer) (r : Refs)
  : Refs * list Event :=
  match findTargetWorker r with
  | None => (r, [])
  | Some target =>
      let '(r1, ev) := stopSimulation (Some "Starting new simulation"%string) r in
      ({| intervalRef := Some h;
          stepCountRef := 0;
          baselineValuesRef := environmentOf target;
          errorCountRef := 0;
          consecutiveErrorsRef := 0;
          simulationTypeRef := Some simulationType;
          isActiveRef := true;
          workersRef := workersRef r1;
          currentWorkerValuesRef := Some target;
          simulationState :=
            {| isActive := true; type := Some simulationType;
               targetWorker := "John Doe"; currentValues := Some target |} |},
       ev ++ [SetInterval h (simulationInterval P)])
  end.

Definition startHeatUpSimulation := startSimulation heatup.
Definition startCoolDownSimulation := startSimulation cooldown.

(** The object [resetToBaseline] hands to [onWorkerUpdate]. *)
Definition baselineUpdate (freshWorker : Worker) : PartialWorker :=
  {| p_temperature := Some (temperature freshWorker);
     p_humidity := Some (humidity freshWorker);
     p_hrv_mean_hr := None;
     p_hrv_rmssd := None; p_hrv_sdnn := None; p_hrv_mean_nni := None;
     p_hrv_pnni_50 := None; p_hrv_total_power := None; p_hrv_lf := None;
     p_hrv_hf := None; p_hrv_min_hr := None; p_hrv_max_hr := None;
     p_hrv_std_hr := None; p_hrv_lf_hf_ratio := None;
     p_hrv_median_nni := None; p_hrv_range_nni := None; p_hrv_cvnni := None;
     p_riskScore := Some None;
     p_predictedClass := Some None;
     p_confidence := Some None |}.

(** [resetToBaseline].  [generateWorkerWithRiskProfile] is imported from
    [./utils], which this development does not cover; it is taken as an
    argument: any function from name, id and risk tier to a worker. *)
Definition resetToBaseline
  (generateWorkerWithRiskProfile : string -> string -> string -> Worker)
  (r : Refs) : Refs * list Event :=
  match findTargetWorker r with
  | None => (r, [])
  | Some target =>
      let '(r1, ev) := stopSimulation (Some "Resetting to baseline"%string) r in
      let freshWorker :=
        generateWorkerWithRiskProfile "John Doe"%string (id target) "moderate"%string in
      (r1, ev ++ [WorkerUpdate (id target) (baselineUpdate freshWorker)])
  end.

(** ** The timer and the pending oracle calls

    [setInterval] invokes [performSimulationStep] at every period for as
    long as the handle is not cleared; the invocation runs up to the
    [await] and returns.  Each awaited call resumes its own tick when it
    settles.  [inflight] holds the ticks that are waiting. *)
Record World : Type := mkWorld {
  refs : Refs;
  inflight : list Pending;
  trace : list Event
}.

Inductive Stimulus : Type :=
| TimerFires
| OracleSettles (i : nat) (o : OracleOutcome).

(** The list without its [i]-th element. *)
Fixpoint dropNth {A : Type} (i : nat) (l : list A) : list A :=
  match l, i with
  | [], _ => []
  | _ :: t, O => t
  | x :: t, S j => x :: dropNth j t
  end.

Definition react (P : Props) (a : Stimulus) (w : World) : World :=
  match a with
  | TimerFires =>
      match intervalRef (refs w) with
      | None => w
      | Some _ =>
          match performSimulationStep_begin (refs w) with
          | Halted r ev => mkWorld r (inflight w) (trace w ++ ev)
          | Awaiting r k ev => mkWorld r (inflight w ++ [k]) (trace w ++ ev)
          end
      end
  | OracleSettles i o =>
      match nth_error (inflight w) i with
      | None => w
      | Some k =>
          let '(r, ev) := performSimulationStep_resume P k o (refs w) in
          mkWorld r (dropNth i (inflight w)) (trace w ++ ev)
      end
  end.

Definition reactAll (P : Props) (l : list Stimulus) (w : World) : World :=
  fold_left (fun acc a => react P a acc) l w.

(** ** Promises and exceptions of the model loaders *)

(** A thrown value: an [Error] object with its message, or anything else. *)
Inductive Thrown : Type :=
| ErrorObject (message : string)
| OtherValue.

(** How a promise settles. *)
Inductive Settled (A : Type) : Type :=
| Resolves (a : A)
| Rejects (e : Thrown).
Arguments Resolves {A} a.
Arguments Rejects {A} e.

(** The outcome of a [try] body. *)
Inductive Outcome (A : Type) : Type :=
| Returns (a : A)
| Throws (e : Thrown).
Arguments Returns {A} a.
Arguments Throws {A} e.

(** [error instanceof Error ? error.message : 'Unknown error']. *)
Definition messageOf (e : Thrown) : string :=
  match e with
  | ErrorObject message => message
  | OtherValue => "Unknown error"%string
  end.

(** ** [modelLoader.ts]: the Python bridge *)

Module ModelLoader.

(** [PredictionInput]; [None] is a key that is absent or not a number. *)
Record PredictionInput : Type := mkInput {
  Temperature : option Q;
  Humidity : option Q;
  hrv_mean_hr : option Q;
  hrv_rmssd : option Q;
  Gender : option Q;
  Age : option Q
}.

(** The value under the [error] key of a parsed reply.  The interface
    declares a string, but [JSON.parse] returns whatever the script printed.
    [predict] uses two things of a value that is not a string: whether it is
    truthy, in [if (result.error)], and its string form, in
    [new Error(result.error)].  A number other than 0, [true], every array
    and every object are truthy; the string form of an array joins its
    elements with commas and is empty for [[]]. *)
Inductive ErrorField : Type :=
| ErrString (s : string)
| ErrOther (truthy : bool) (shown : string).

Definition truthyField (e : ErrorField) : bool :=
  match e with
  | ErrString s => Js.truthy s
  | ErrOther truthy _ => truthy
  end.

Definition shownField (e : ErrorField) : string :=
  match e with
  | ErrString s => s
  | ErrOther _ shown => shown
  end.

(** An object read from the script's output or built by [predict]: the
    keys of [PredictionResult], each of which may be absent. *)
Record ResultObject : Type := mkResult {
  risk_score : option Q;
  predicted_class : option string;
  confidence : option Q;
  error : option ErrorField
}.

(** What [JSON.parse] can hand back. *)
Inductive Json : Type :=
| JNull
| JObject (o : ResultObject)
| JOther.            (* numbers, strings, booleans, arrays *)

(** How the child process ends, whichever handler settles the promise
    first. *)
Inductive PythonRun : Type :=
| SpawnError (message : string)                       (* 'error' *)
| Closed (code : option Z) (outputData errorData : string)  (* 'close' *)
| TimedOut.                                           (* the 30 s timer *)

(** [`${code}`] for an exit code, [null] when a signal ended the process. *)
Definition showCode (code : option Z) : string :=
  match code with
  | Some z => DecimalString.NilZero.string_of_int (Z.to_int z)
  | None => "null"%string
  end.

(** [callPythonScript(inputData, false)].  [parseJSON] stands for
    [JSON.parse(outputData.trim())]; [None] is a [SyntaxError]. *)
Definition callPythonScript
  (parseJSON : string -> option Json) (run : PythonRun) : Settled Json :=
  match run with
  | Closed code outputData errorData =>
      match code with
      | Some 0%Z =>
          match parseJSON outputData with
          | Some result => Resolves result
          | None =>
              Rejects (ErrorObject
                ("Failed to parse Python output: " ++ outputData)%string)
          end
      | _ =>
          Rejects (ErrorObject
            ("Python script exited with code " ++ showCode code ++ ": "
             ++ errorData)%string)
      end
  | SpawnError message =>
      Rejects (ErrorObject ("Failed to start Python process: " ++ message)%string)
  | TimedOut => Rejects (ErrorObject "Python script timed out"%string)
  end.

(** The [try] block of [predict]. *)
Definition predictBody
  (parseJSON : string -> option Json) (inputData : PredictionInput)
  (run : PythonRun) : Outcome Json :=
  match Temperature inputData, Humidity inputData with
  | Some _, Some _ =>
      match callPythonScript parseJSON run with
      | Rejects e => Throws e
      | Resolves result =>
          match result with
          | JNull =>
              (* reading [.error] of [null] is a [TypeError] *)
              Throws (ErrorObject
                "Cannot read properties of null (reading 'error')"%string)
          | JOther => Returns result
          | JObject o =>
              match error o with
              | Some e =>
                  if truthyField e
                  then Throws (ErrorObject (shownField e))
                  else Returns result
              | None => Returns result
              end
          end
      end
  | _, _ =>
      Throws (ErrorObject "Temperature and Humidity are required fields"%string)
  end.

(** The object literal of the [catch] block. *)
Definition errorResult (e : Thrown) : ResultObject :=
  {| risk_score := Some 0;
     predicted_class := Some "error"%string;
     confidence := Some 0;
     error := Some (ErrString (messageOf e)) |}.

(** [predict]: an [async] function resolves with what its body returns
    and rejects with what escapes it. *)
Definition predict
  (parseJSON : string -> option Json) (inputData : PredictionInput)
  (run : PythonRun) : Settled Json :=
  match predictBody parseJSON inputData run with
  | Returns result => Resolves result
  | Throws e => Resolves (JObject (errorResult e))
  end.

(** The ways [predict] can fail inside. *)
Inductive Fails (parseJSON : string -> option Json)
  : PredictionInput -> PythonRun -> Prop :=
| NoTemperature inputData run :
    Temperature inputData = None -> Fails parseJSON inputData run
| NoHumidity inputData run :
    Humidity inputData = None -> Fails parseJSON inputData run
| SpawnFailed inputData message :
    Fails parseJSON inputData (SpawnError message)
| ExitNonZero inputData code outputData errorData :
    code <> Some 0%Z -> Fails parseJSON inputData (Closed code outputData errorData)
| Unparseable inputData outputData errorData :
    parseJSON outputData = None ->
    Fails parseJSON inputData (Closed (Some 0%Z) outputData errorData)
| Timeout inputData :
    Fails parseJSON inputData TimedOut
| NullReply inputData outputData errorData :
    parseJSON outputData = Some JNull ->
    Fails parseJSON inputData (Closed (Some 0%Z) outputData errorData)
| ErrorReply inputData outputData errorData o e :
    parseJSON outputData = Some (JObject o) ->
    error o = Some e -> truthyField e = true ->
    Fails parseJSON inputData (Closed (Some 0%Z) outputData errorData).

End ModelLoader.

(** ** The [JSModelLoader] class: the in-process mock model *)

Module JSModelLoader.

Record PredictionInput : Type := mkInput {
  Temperature : option Q;
  Humidity : option Q;
  hrv_mean_hr : option Q;
  hrv_rmssd : option Q;
  Gender : option Q;
  Age : option Q
}.

Record PredictionResult : Type := mkResult {
  risk_score : Q;
  predicted_class : option string;   (* [classes_[prediction]] *)
  confidence : Q;
  error : option string
}.

(** The four files [loadModel] reads.  A path is taken to mention only its
    own file name, so that the chain of [filePath.includes] tests picks
    the branch of that file. *)
Inductive ModelFile : Type :=
| feature_columns | label_encoder | scaler | xgboost_model.

(** What [loadModel] stores in [this.components]: the constants of the
    mock objects; their methods are the functions below. *)
Record ModelComponents : Type := mkComponents {
  featureColumns : list string;
  classes_ : list string;
  mean_ : list Q;
  scale_ : list Q
}.

Definition mockComponents : ModelComponents :=
  {| featureColumns :=
       ["Temperature"; "Humidity"; "hrv_mean_hr"; "hrv_rmssd"; "Gender"; "Age"]%string;
     classes_ := ["neutral"; "slightly warm"; "warm"; "hot"]%string;
     mean_ := [25.0; 50.0; 70.0; 30.0; 0.5; 30.0];
     scale_ := [5.0; 20.0; 10.0; 10.0; 0.5; 10.0] |}.

(** [loadModel]: [parseJoblibFile] answers [null] for a file that
    [fs.readFileSync] cannot read, and [loadModel] fails if any of the
    four is [null]. *)
Definition loadModel (readable : ModelFile -> bool) : option ModelComponents :=
  if readable feature_columns && readable label_encoder
     && readable scaler && readable xgboost_model
  then Some mockComponents
  else None.

(** [x || d] on numbers: zero is falsy. *)
Definition orElse (x d : Q) : Q := if Qeq_bool x 0 then d else x.

(** [feature in inputData && inputData[feature] !== undefined]. *)
Definition lookupFeature (inputData : PredictionInput) (feature : string)
  : option Q :=
  if String.eqb feature "Temperature" then Temperature inputData
  else if String.eqb feature "Humidity" then Humidity inputData
  else if String.eqb feature "hrv_mean_hr" then hrv_mean_hr inputData
  else if String.eqb feature "hrv_rmssd" then hrv_rmssd inputData
  else if String.eqb feature "Gender" then Gender inputData
  else if String.eqb feature "Age" then Age inputData
  else None.

(** One row of [scaler.transform]. *)
Fixpoint transformRow (c : ModelComponents) (idx : nat) (row : list Q) : list Q :=
  match row with
  | [] => []
  | val :: rest =>
      (val - orElse (nth idx (mean_ c) 0) 0) / orElse (nth idx (scale_ c) 0) 1
      :: transformRow c (S idx) rest
  end.

(** [model.predict] and [model.predict_proba] on one row. *)
Definition modelPredict (scaledFeatures : list Q) : nat :=
  let temp := (nth 0 scaledFeatures 0 * 5.0) + 25.0 in
  if Js.gtb temp 28 then 3%nat
  else if Js.gtb temp 26 then 2%nat
  else if Js.gtb temp 24 then 1%nat
  else 0%nat.

Definition modelPredictProba (scaledFeatures : list Q) : list Q :=
  let temp := (nth 0 scaledFeatures 0 * 5.0) + 25.0 in
  if Js.gtb temp 28 then [0.05; 0.15; 0.20; 0.60]
  else if Js.gtb temp 26 then [0.10; 0.20; 0.60; 0.10]
  else if Js.gtb temp 24 then [0.20; 0.60; 0.15; 0.05]
  else [0.60; 0.25; 0.10; 0.05].

(** [classToScore[className] || 0.5]; an unknown or missing class name
    reads [undefined]. *)
Definition classScore (className : option string) : Q :=
  match className with
  | Some n =>
      if String.eqb n "neutral" then orElse 0.0 0.5
      else if String.eqb n "slightly warm" then orElse 0.33 0.5
      else if String.eqb n "warm" then orElse 0.67 0.5
      else if String.eqb n "hot" then orElse 1.0 0.5
      else 0.5
  | None => 0.5
  end.

Fixpoint weightedScore (classNames : list string) (i : nat)
  (probabilities : list Q) : Q :=
  match probabilities with
  | [] => 0.0
  | p :: rest =>
      p * classScore (nth_error classNames i)
      + weightedScore classNames (S i) rest
  end.

(** [calculateRiskScore]; the loop adds in index order starting from 0.0,
    and the sum above associates the other way, which is the same number
    over the rationals. *)
Definition calculateRiskScore (c : ModelComponents) (probabilities : list Q) : Q :=
  Js.min 1.0 (weightedScore (classes_ c) 0 probabilities + 0.15).

(** [Math.max(...probs)] on a non-empty list. *)
Definition maxOf (probs : list Q) : Q :=
  match probs with
  | [] => 0
  | p :: rest => fold_left Js.max rest p
  end.

(** The [try] block of [predict], together with the components the
    instance holds afterwards. *)
Definition predictBody
  (readable : ModelFile -> bool) (components : option ModelComponents)
  (inputData : PredictionInput)
  : Outcome PredictionResult * option ModelComponents :=
  let loaded :=
    match components with
    | Some c => Some c
    | None => loadModel readable
    end in
  match loaded with
  | None => (Throws (ErrorObject "Failed to load model components"%string), None)
  | Some c =>
      match Temperature inputData, Humidity inputData with
      | Some _, Some _ =>
          let features :=
            map (fun feature =>
                   match lookupFeature inputData feature with
                   | Some v => v
                   | None => 0.0
                   end) (featureColumns c) in
          let scaledFeatures := transformRow c 0 features in
          let prediction := modelPredict scaledFeatures in
          let probs := modelPredictProba scaledFeatures in
          let riskScore := calculateRiskScore c probs in
          let predictedClass := nth_error (classes_ c) prediction in
          let confidence := maxOf probs in
          (Returns
             {| risk_score := Js.round (riskScore * 10000) / 10000;
                predicted_class := predictedClass;
                confidence := Js.round (confidence * 1000) / 1000;
                error := None |},
           Some c)
      | _, _ =>
          (Throws (ErrorObject
             "Temperature and Humidity are required fields"%string), Some c)
      end
  end.

Definition errorResult (e : Thrown) : PredictionResult :=
  {| risk_score := 0;
     predicted_class := Some "error"%string;
     confidence := 0;
     error := Some (messageOf e) |}.

Definition predict
  (readable : ModelFile -> bool) (components : option ModelComponents)
  (inputData : PredictionInput)
  : Settled PredictionResult * option ModelComponents :=
  match predictBody readable components inputData with
  | (Returns result, c) => (Resolves result, c)
  | (Throws e, c) => (Resolves (errorResult e), c)
  end.

(** The ways [predict] can fail inside. *)
Inductive Fails (readable : ModelFile -> bool)
  : option ModelComponents -> PredictionInput -> Prop :=
| LoadFailed inputData :
    loadModel readable = None -> Fails readable None inputData
| NoTemperature components inputData :
    Temperature inputData = None -> Fails readable components inputData
| NoHumidity components inputData :
    Humidity inputData = None -> Fails readable components inputData.

End JSModelLoader.

(** ** Predicates used in the statements *)

(** A key that is present with a value between [lo] and [hi]. *)
Definition within (lo hi : Q) (o : option Q) : Prop :=
  exists x, o = Some x /\ lo <= x <= hi.

(** A key that is present with a value of at most [hi]. *)
Definition atMost (hi : Q) (o : option Q) : Prop :=
  exists x, o = Some x /\ x <= hi.

(** The ten fields the generator perturbs lie inside the clamps the code
    applies to them.  Mean NNI is only ever capped, in both modes. *)
Definition primaryInRange (w : Worker) : Prop :=
  (MIN_TEMPERATURE <= temperature w <= MAX_TEMPERATURE)
  /\ (MIN_HUMIDITY <= humidity w <= MAX_HUMIDITY)
  /\ (50 <= hrv_mean_hr w <= 110)
  /\ (15 <= hrv_rmssd w <= 120)
  /\ (20 <= hrv_sdnn w <= 150)
  /\ (hrv_mean_nni w <= 1200)
  /\ (5 <= hrv_pnni_50 w <= 50)
  /\ (800 <= hrv_total_power w <= 5000)
  /\ (200 <= hrv_lf w <= 1500)
  /\ (100 <= hrv_hf w <= 1000).

(** The reasons of the stops a list of events records, in order. *)
Fixpoint stopReasons (events : list Event) : list string :=
  match events with
  | [] => []
  | StopLogged reason :: rest => reason :: stopReasons rest
  | _ :: rest => stopReasons rest
  end.

(** The oracle requests a list of events records, in order. *)
Fixpoint oracleCalls (events : list Event) : list Worker :=
  match events with
  | [] => []
  | OracleCall w :: rest => w :: oracleCalls rest
  | _ :: rest => oracleCalls rest
  end.

(** The loop at rest: no timer, no mode, inactive, no cached worker, all
    counters at zero, and the displayed state inactive. *)
Definition Idle (r : Refs) : Prop :=
  intervalRef r = None
  /\ simulationTypeRef r = None
  /\ isActiveRef r = false
  /\ currentWorkerValuesRef r = None
  /\ stepCountRef r = 0%nat
  /\ errorCountRef r = 0%nat
  /\ consecutiveErrorsRef r = 0%nat
  /\ isActive (simulationState r) = false
  /\ type (simulationState r) = None.

(** A run in mode [mode] whose cached worker is [w]. *)
Definition Running (mode : SimulationType) (w : Worker) (r : Refs) : Prop :=
  isActiveRef r = true
  /\ simulationTypeRef r = Some mode
  /\ currentWorkerValuesRef r = Some w.

(** The same refs with another baseline snapshot. *)
Definition withBaseline (b : PartialWorker) (r : Refs) : Refs :=
  {| intervalRef := intervalRef r;
     stepCountRef := stepCountRef r;
     baselineValuesRef := b;
     errorCountRef := errorCountRef r;
     consecutiveErrorsRef := consecutiveErrorsRef r;
     simulationTypeRef := simulationTypeRef r;
     isActiveRef := isActiveRef r;
     workersRef := workersRef r;
     currentWorkerValuesRef := currentWorkerValuesRef r;
     simulationState := simulationState r |}.

(** The same refs with other error counters. *)
Definition withErrors (total consecutive : nat) (r : Refs) : Refs :=
  {| intervalRef := intervalRef r;
     stepCountRef := stepCountRef r;
     baselineValuesRef := baselineValuesRef r;
     errorCountRef := total;
     consecutiveErrorsRef := consecutive;
     simulationTypeRef := simulationTypeRef r;
     isActiveRef := isActiveRef r;
     workersRef := workersRef r;
     currentWorkerValuesRef := currentWorkerValuesRef r;
     simulationState := simulationState r |}.

(** ** Sample data *)

Definition johnDoe : Worker :=
  {| id := "w-001"; name := "John Doe";
     temperature := 22.0; humidity := 45.0;
     hrv_mean_hr := 70.0; hrv_rmssd := 40.0; hrv_sdnn := 50.0;
     hrv_mean_nni := 850; hrv_pnni_50 := 20.0; hrv_total_power := 2000;
     hrv_lf := 600; hrv_hf := 400;
     hrv_min_hr := 55.0; hrv_max_hr := 95.0; hrv_std_hr := 15.0;
     hrv_lf_hf_ratio := 1.5; hrv_median_nni := 833; hrv_range_nni := 400;
     hrv_cvnni := 0.059;
     riskScore := Some 0.25; predictedClass := Some "neutral"%string;
     confidence := Some 0.6;
     other := [("age"%string, 34)] |}.


(** The same worker one heat-up step away from saturation: the next
    candidate has 34 degrees and 90 %. *)
Definition nearlySaturatedDoe : Worker :=
  spread johnDoe
    (mkPartial (Some 33.0) (Some 88.0) None None None None None None None None
               None None None None None None None None None None).

Definition sampleProps : Props :=
  {| onError := true; simulationInterval := DEFAULT_SIMULATION_INTERVAL |}.

Definition samplePrediction : PredictionResponse :=
  {| risk_score := 0.4123; predicted_class := "warm"; confidence_of := 0.6 |}.

(** A heat-up run just started on [johnDoe], and one on [nearlySaturatedDoe]. *)
Definition startedHeatUp : Refs :=
  fst (startHeatUpSimulation sampleProps 1%positive (initialRefs [johnDoe])).

Definition startedNearSaturation : Refs :=
  fst (startHeatUpSimulation sampleProps 1%positive (initialRefs [nearlySaturatedDoe])).

Definition startedWorld : World :=
  {| refs := startedHeatUp; inflight := []; trace := [] |}.

(** A baseline profile generator for the examples. *)
Definition sampleGenerator (n i tier : string) : Worker :=
  {| id := i; name := n;
     temperature := 24.5; humidity := 52.0;
     hrv_mean_hr := 72.0; hrv_rmssd := 35.0; hrv_sdnn := 45.0;
     hrv_mean_nni := 830; hrv_pnni_50 := 15.0; hrv_total_power := 1800;
     hrv_lf := 550; hrv_hf := 350;
     hrv_min_hr := 57.0; hrv_max_hr := 97.0; hrv_std_hr := 13.5;
     hrv_lf_hf_ratio := 1.57; hrv_median_nni := 813; hrv_range_nni := 360;
     hrv_cvnni := 0.054;
     riskScore := None; predictedClass := None; confidence := None;
     other := [] |}.

(** Inputs and environments for the loaders. *)
Definition warmInput : ModelLoader.PredictionInput :=
  {| ModelLoader.Temperature := Some 30.0; ModelLoader.Humidity := Some 60.0;
     ModelLoader.hrv_mean_hr := Some 80.0; ModelLoader.hrv_rmssd := None;
     ModelLoader.Gender := None; ModelLoader.Age := Some 34 |}.

Definition noTemperatureInput : ModelLoader.PredictionInput :=
  {| ModelLoader.Temperature := None; ModelLoader.Humidity := Some 60.0;
     ModelLoader.hrv_mean_hr := None; ModelLoader.hrv_rmssd := None;
     ModelLoader.Gender := None; ModelLoader.Age := None |}.

Definition warmReply : ModelLoader.ResultObject :=
  {| ModelLoader.risk_score := Some 0.67;
     ModelLoader.predicted_class := Some "warm"%string;
     ModelLoader.confidence := Some 0.6;
     ModelLoader.error := None |}.

(** A stand-in for [JSON.parse] that knows five outputs: a prediction, a
    reply with an error message, one whose error is the empty string, one
    whose error is the empty array, and [null]. *)
Definition sampleParse (outputData : string) : option ModelLoader.Json :=
  if String.eqb outputData "warm" then Some (ModelLoader.JObject warmReply)
  else if String.eqb outputData "failed" then
    Some (ModelLoader.JObject
            {| ModelLoader.risk_score := None;
               ModelLoader.predicted_class := None;
               ModelLoader.confidence := None;
               ModelLoader.error :=
                 Some (ModelLoader.ErrString "Model not loaded") |})
  else if String.eqb outputData "blank" then
    Some (ModelLoader.JObject
            {| ModelLoader.risk_score := None;
               ModelLoader.predicted_class := None;
               ModelLoader.confidence := None;
               ModelLoader.error := Some (ModelLoader.ErrString "") |})
  else if String.eqb outputData "array" then
    Some (ModelLoader.JObject
            {| ModelLoader.risk_score := None;
               ModelLoader.predicted_class := None;
               ModelLoader.confidence := None;
               ModelLoader.error := Some (ModelLoader.ErrOther true "") |})
  else if String.eqb outputData "null" then Some ModelLoader.JNull
  else None.

Definition hotInput : JSModelLoader.PredictionInput :=
  {| JSModelLoader.Temperature := Some 30.0; JSModelLoader.Humidity := Some 60.0;
     JSModelLoader.hrv_mean_hr := Some 80.0; JSModelLoader.hrv_rmssd := None;
     JSModelLoader.Gender := None; JSModelLoader.Age := Some 34 |}.

Definition noHumidityInput : JSModelLoader.PredictionInput :=
  {| JSModelLoader.Temperature := Some 30.0; JSModelLoader.Humidity := None;
     JSModelLoader.hrv_mean_hr := None; JSModelLoader.hrv_rmssd := None;
     JSModelLoader.Gender := None; JSModelLoader.Age := None |}.

Definition allReadable (f : JSModelLoader.ModelFile) : bool := true.
Definition scalerMissing (f : JSModelLoader.ModelFile) : bool :=
  match f with JSModelLoader.scaler => false | _ => true end.

(** ** The whole hook: every way its state can change *)

(** The cleanup of the [useEffect]: on unmount only the interval is
    cleared. *)
Definition unmount (r : Refs) : Refs * list Event :=
  clearSimulationInterval r.

(** What can happen to a mounted hook: a call of one of the functions it
    returns, a render with a new [workers] prop, the unmount, a firing of
    the interval, the settling of a pending oracle call. *)
Inductive Action : Type :=
| DoStartHeatUp (h : Timer)
| DoStartCoolDown (h : Timer)
| DoStop (reason : option string)
| DoReset (generate : string -> string -> string -> Worker)
| DoRender (workers : list Worker)
| DoUnmount
| DoFire
| DoSettle (i : nat) (o : OracleOutcome).

(** A call that changes the refs and sends events, inside a world. *)
Definition perform (op : Refs -> Refs * list Event) (w : World) : World :=
  let '(r, ev) := op (refs w) in
  mkWorld r (inflight w) (trace w ++ ev).

Definition act (P : Props) (a : Action) (w : World) : World :=
  match a with
  | DoStartHeatUp h => perform (startHeatUpSimulation P h) w
  | DoStartCoolDown h => perform (startCoolDownSimulation P h) w
  | DoStop reason => perform (stopSimulation reason) w
  | DoReset generate => perform (resetToBaseline generate) w
  | DoRender workers => mkWorld (render workers (refs w)) (inflight w) (trace w)
  | DoUnmount => perform unmount w
  | DoFire => react P TimerFires w
  | DoSettle i o => react P (OracleSettles i o) w
  end.

Definition actAll (P : Props) (l : list Action) (w : World) : World :=
  fold_left (fun acc a => act P a acc) l w.

(** A hook that has just been mounted. *)
Definition mounted (workers : list Worker) : World :=
  mkWorld (initialRefs workers) [] [].

(** The interval handles that have been set and not cleared since, read
    off the events. *)
Definition liveAfter (live : list Timer) (e : Event) : list Timer :=
  match e with
  | SetInterval h _ => live ++ [h]
  | ClearInterval h => filter (fun x => negb (Pos.eqb x h)) live
  | _ => live
  end.

Definition liveTimers (events : list Event) : list Timer :=
  fold_left liveAfter events [].

(** The handle a ref holds, as a list. *)
Definition held (o : option Timer) : list Timer :=
  match o with Some h => [h] | None => [] end.

(** The worker updates a list of events records, in order. *)
Fixpoint workerUpdates (events : list Event) : list (string * PartialWorker) :=
  match events with
  | [] => []
  | WorkerUpdate i u :: rest => (i, u) :: workerUpdates rest
  | _ :: rest => workerUpdates rest
  end.

(** The candidate of a tick: [{ ...targetWorker, ...nextValues }]. *)
Definition advance (mode : SimulationType) (w : Worker) : Worker :=
  spread w (calculateNextSimulationValues w mode).

(** What every reachable state of the hook satisfies (proved below). *)
Record Consistent (w : World) : Prop := mkConsistent {
  timers_held : liveTimers (trace w) = held (intervalRef (refs w));
  shown_active : isActive (simulationState (refs w)) = isActiveRef (refs w);
  shown_type : type (simulationState (refs w)) = simulationTypeRef (refs w);
  armed_active : intervalRef (refs w) <> None -> isActiveRef (refs w) = true;
  active_cached :
    isActiveRef (refs w) = true ->
    exists mode c,
      simulationTypeRef (refs w) = Some mode
      /\ currentWorkerValuesRef (refs w) = Some c;
  shown_cached :
    forall c, currentWorkerValuesRef (refs w) = Some c ->
              currentValues (simulationState (refs w)) = Some c;
  steps_bounded : (stepCountRef (refs w) < MAX_SIMULATION_STEPS)%nat;
  consecutive_bounded : (consecutiveErrorsRef (refs w) < 3)%nat;
  errors_bounded : (errorCountRef (refs w) < 10)%nat;
  consecutive_le_errors :
    (consecutiveErrorsRef (refs w) <= errorCountRef (refs w))%nat
}.

(** ** [modelLoader.ts]: the other members of the class *)

Module ModelLoaderRest.

(** [HealthCheckResult], as the [catch] block of [healthCheck] builds it. *)
Record HealthCheckResult : Type := mkHealth {
  status : string;
  model_loaded : bool;
  error : option string
}.

(** [callPythonScript] for any shape [J] of parsed output; at
    [ModelLoader.Json] it is [ModelLoader.callPythonScript] (proved below).
    A health check passes the argument [health] and writes nothing to the
    script; the promise settles in the same four ways. *)
Definition callPythonScriptAny {J : Type}
  (parseJSON : string -> option J) (run : ModelLoader.PythonRun) : Settled J :=
  match run with
  | ModelLoader.Closed code outputData errorData =>
      match code with
      | Some 0%Z =>
          match parseJSON outputData with
          | Some result => Resolves result
          | None =>
              Rejects (ErrorObject
                ("Failed to parse Python output: " ++ outputData)%string)
          end
      | _ =>
          Rejects (ErrorObject
            ("Python script exited with code " ++ ModelLoader.showCode code
             ++ ": " ++ errorData)%string)
      end
  | ModelLoader.SpawnError message =>
      Rejects (ErrorObject ("Failed to start Python process: " ++ message)%string)
  | ModelLoader.TimedOut => Rejects (ErrorObject "Python script timed out"%string)
  end.

(** [healthCheck]: what the script printed ([inl]), returned as it came,
    or the object of the [catch] block ([inr]). *)
Definition healthCheck {J : Type}
  (parseJSON : string -> option J) (run : ModelLoader.PythonRun)
  : Settled (J + HealthCheckResult) :=
  match callPythonScriptAny parseJSON run with
  | Resolves result => Resolves (inl result)
  | Rejects e =>
      Resolves (inr {| status := "error";
                       model_loaded := false;
                       error := Some (messageOf e) |})
  end.

(** [String.prototype.toLowerCase] on the letters A to Z.  No character
    outside ASCII lower-cases to a letter that occurs in a key of
    [classRiskMap], so the lookup below is the same as with the full
    Unicode mapping. *)
Definition lowerAscii (c : Ascii.ascii) : Ascii.ascii :=
  let n := Ascii.nat_of_ascii c in
  if ((65 <=? n) && (n <=? 90))%nat then Ascii.ascii_of_nat (n + 32) else c.

Fixpoint toLowerCase (s : string) : string :=
  match s with
  | EmptyString => EmptyString
  | String c rest => String (lowerAscii c) (toLowerCase rest)
  end.

(** What reading a key of the object literal [classRiskMap] gives: an own
    number, something inherited from [Object.prototype] (the only
    lower-case names there are [constructor] and [__proto__]), or
    [undefined]. *)
Inductive Lookup : Type :=
| Own (v : Q)
| Inherited
| Missing.

Definition classRiskMap (key : string) : Lookup :=
  if String.eqb key "neutral" then Own 0.0
  else if String.eqb key "slightly warm" then Own 0.33
  else if String.eqb key "warm" then Own 0.67
  else if String.eqb key "hot" then Own 1.0
  else if String.eqb key "constructor" || String.eqb key "__proto__"
  then Inherited
  else Missing.

(** [calculateRiskScore].  [None] is [NaN]: an inherited function or object
    is truthy, so it passes [|| 0.5], and its product with a number is
    [NaN]. *)
Definition calculateRiskScore (predictedClass : string) (confidence : Q)
  : option Q :=
  match classRiskMap (toLowerCase predictedClass) with
  | Own v =>
      let baseRisk := if Qeq_bool v 0 then 0.5 else v in
      Some (Js.min 1.0 (baseRisk * confidence + 0.1))
  | Missing => Some (Js.min 1.0 (0.5 * confidence + 0.1))
  | Inherited => None
  end.

End ModelLoaderRest.

(** ** [JSModelLoader.healthCheck] and the health route *)

Module JSModelLoaderRest.

Record HealthResult : Type := mkHealth {
  status : string;
  model_loaded : bool;
  error : option string
}.

(** [healthCheck], with the components the instance holds afterwards.
    [loadModel] catches its own exceptions, so the [catch] block of
    [healthCheck] is never entered. *)
Definition healthCheck
  (readable : JSModelLoader.ModelFile -> bool)
  (components : option JSModelLoader.ModelComponents)
  : HealthResult * option JSModelLoader.ModelComponents :=
  let healthy := {| status := "healthy"; model_loaded := true; error := None |} in
  match components with
  | Some c => (healthy, Some c)
  | None =>
      match JSModelLoader.loadModel readable with
      | Some c => (healthy, Some c)
      | None =>
          ({| status := "error"; model_loaded := false;
              error := Some "Failed to load model components"%string |}, None)
      end
  end.

End JSModelLoaderRest.

Module HealthRoute.

(** [NextResponse.json(body, { status })]. *)
Record Response : Type := mkResponse {
  body : JSModelLoaderRest.HealthResult;
  statusCode : nat
}.

(** [GET]: [jsModelLoader.healthCheck()] does not reject, so the [catch]
    block of the handler is never entered. *)
Definition GET
  (readable : JSModelLoader.ModelFile -> bool)
  (components : option JSModelLoader.ModelComponents)
  : Response * option JSModelLoader.ModelComponents :=
  let '(healthResult, c) := JSModelLoaderRest.healthCheck readable components in
  ({| body := healthResult;
      statusCode :=
        if String.eqb (JSModelLoaderRest.status healthResult) "healthy"
           && JSModelLoaderRest.model_loaded healthResult
        then 200%nat else 503%nat |}, c).

(** [POST] calls [GET]. *)
Definition POST := GET.

End HealthRoute.

(** The class of the mock model for a temperature, and the risk score
    [predict] rounds for it. *)
Definition classByTemperature (T : Q) : string :=
  if Js.gtb T 28 then "hot"
  else if Js.gtb T 26 then "warm"
  else if Js.gtb T 24 then "slightly warm"
  else "neutral".

Definition riskByTemperature (T : Q) : Q :=
  if Js.gtb T 28 then 0.9585
  else if Js.gtb T 26 then 0.768
  else if Js.gtb T 24 then 0.5985
  else 0.6495.

(** * Properties *)

(** ** Arithmetic lemmas *)

Lemma ltb_true_iff (a b : Q) : Js.ltb a b = true <-> a < b.
Proof.
  unfold Js.ltb. rewrite negb_true_iff.
  split; intro H.
  - apply Qnot_le_lt. intro Hle. apply Qle_bool_iff in Hle. congruence.
  - destruct (Qle_bool b a) eqn:E; [|reflexivity].
    apply Qle_bool_iff in E. exfalso. apply (Qlt_not_le _ _ H E).
Qed.

Lemma gtb_true_iff (a b : Q) : Js.gtb a b = true <-> b < a.
Proof. unfold Js.gtb. apply ltb_true_iff. Qed.

(** Rounding never crosses an integer. *)
Lemma round_between (a b : Z) (x : Q) :
  inject_Z a <= x <= inject_Z b -> inject_Z a <= Js.round x <= inject_Z b.
Proof.
  intros [Ha Hb]. unfold Js.round. split.
  - rewrite <- Zle_Qle. rewrite <- (Qfloor_Z a).
    apply Qfloor_resp_le. lra.
  - rewrite <- Zle_Qle.
    assert (Hx : x + 0.5 < inject_Z (b + 1)).
    { rewrite inject_Z_plus. change (inject_Z 1) with 1. lra. }
    assert (Hf := Qfloor_le (x + 0.5)).
    assert (Hlt : inject_Z (Qfloor (x + 0.5)) < inject_Z (b + 1)) by lra.
    rewrite <- Zlt_Qlt in Hlt. lia.
Qed.

Lemma round_le (b : Z) (x : Q) : x <= inject_Z b -> Js.round x <= inject_Z b.
Proof.
  intro Hb. unfold Js.round. rewrite <- Zle_Qle.
  assert (Hx : x + 0.5 < inject_Z (b + 1)).
  { rewrite inject_Z_plus. change (inject_Z 1) with 1. lra. }
  assert (Hf := Qfloor_le (x + 0.5)).
  assert (Hlt : inject_Z (Qfloor (x + 0.5)) < inject_Z (b + 1)) by lra.
  rewrite <- Zlt_Qlt in Hlt. lia.
Qed.

Lemma min_cases (a b : Q) :
  (a < b /\ Js.min a b == a) \/ (b <= a /\ Js.min a b == b).
Proof. unfold Js.min. apply Q.min_spec. Qed.

Lemma max_cases (a b : Q) :
  (a < b /\ Js.max a b == b) \/ (b <= a /\ Js.max a b == a).
Proof. unfold Js.max. apply Q.max_spec. Qed.

(** Dividing by a positive scale keeps a value between scaled bounds. *)
Lemma div_between (lo hi y s : Q) :
  0 < s -> lo * s <= y <= hi * s -> lo <= y / s <= hi.
Proof.
  intros Hs [Hlo Hhi]. split.
  - now apply Qle_shift_div_l.
  - apply Qle_shift_div_r; [assumption | lra].
Qed.

(** A value rounded at scale [s] stays between bounds that are themselves
    multiples of [1/s]. *)
Lemma within_scaled (lo hi : Z) (s l h x : Q) :
  0 < s -> l * s == inject_Z lo -> h * s == inject_Z hi ->
  l * s <= x <= h * s ->
  within l h (Some (Js.round x / s)).
Proof.
  intros Hs Hl Hh Hx. eexists; split; [reflexivity|].
  apply div_between; [assumption|].
  rewrite Hl, Hh. apply round_between. rewrite <- Hl, <- Hh. exact Hx.
Qed.

Lemma within_units (lo hi : Z) (l h x : Q) :
  l == inject_Z lo -> h == inject_Z hi ->
  l <= x <= h ->
  within l h (Some (Js.round x)).
Proof.
  intros Hl Hh Hx. eexists; split; [reflexivity|].
  rewrite Hl, Hh. apply round_between. rewrite <- Hl, <- Hh. exact Hx.
Qed.

Lemma atMost_units (hi : Z) (h x : Q) :
  h == inject_Z hi -> x <= h -> atMost h (Some (Js.round x)).
Proof.
  intros Hh Hx. eexists; split; [reflexivity|].
  rewrite Hh. apply round_le. now rewrite <- Hh.
Qed.

(** ** The Termination Policy *)

(** C1. [shouldContinueSimulation] answers [false] as soon as the step
    count has reached [MAX_SIMULATION_STEPS]; below the ceiling it answers
    [true] for heat-up exactly when the temperature is below its maximum or
    the humidity is below its maximum, and for cool-down exactly when the
    temperature is above its minimum or the humidity is above its
    minimum. *)
Theorem shouldContinue_policy (w : Worker) (stepCount : nat) :
  ((MAX_SIMULATION_STEPS <= stepCount)%nat ->
     forall mode, shouldContinueSimulation w mode stepCount = false)
  /\ ((stepCount < MAX_SIMULATION_STEPS)%nat ->
        (shouldContinueSimulation w heatup stepCount = true
           <-> temperature w < MAX_TEMPERATURE \/ humidity w < MAX_HUMIDITY)
        /\ (shouldContinueSimulation w cooldown stepCount = true
           <-> MIN_TEMPERATURE < temperature w \/ MIN_HUMIDITY < humidity w)).
Proof.
  unfold shouldContinueSimulation. split.
  - intros Hceil mode.
    apply Nat.leb_le in Hceil. now rewrite Hceil.
  - intro Hbelow.
    apply Nat.leb_gt in Hbelow. rewrite Hbelow.
    split; rewrite orb_true_iff.
    + now rewrite !ltb_true_iff.
    + now rewrite !gtb_true_iff.
Qed.

Lemma shouldContinue_policy_witness :
  shouldContinueSimulation johnDoe heatup 100 = false
  /\ (shouldContinueSimulation johnDoe heatup 3 = true
        <-> temperature johnDoe < MAX_TEMPERATURE
            \/ humidity johnDoe < MAX_HUMIDITY).
Proof.
  split.
  - apply (proj1 (shouldContinue_policy johnDoe 100)).
    unfold MAX_SIMULATION_STEPS. lia.
  - apply (proj2 (shouldContinue_policy johnDoe 3)).
    unfold MAX_SIMULATION_STEPS. lia.
Defined.

(** ** The Signal Generator *)

Ltac unfold_constants :=
  unfold MAX_TEMPERATURE, MIN_TEMPERATURE, MAX_HUMIDITY, MIN_HUMIDITY,
    TEMPERATURE_INCREMENT, HUMIDITY_INCREMENT,
    HEART_RATE_STRESS_INCREMENT, HEART_RATE_RECOVERY_DECREMENT,
    HRV_INCREASE_RMSSD, HRV_INCREASE_SDNN, HRV_INCREASE_PNN50,
    HRV_INCREASE_POWER, HRV_INCREASE_LF, HRV_INCREASE_HF,
    HRV_DECREASE_RMSSD, HRV_DECREASE_SDNN, HRV_DECREASE_PNN50,
    HRV_DECREASE_POWER, HRV_DECREASE_LF, HRV_DECREASE_HF in *.

(** Case analysis on every [Math.min] and [Math.max] of the goal. *)
(** Case analysis on every [Math.min] and [Math.max] of the goal. *)
Ltac minmax :=
  repeat match goal with
  | |- context [Js.min ?a ?b] =>
      destruct (min_cases a b) as [[? ->] | [? ->]]
  | |- context [Js.max ?a ?b] =>
      destruct (max_cases a b) as [[? ->] | [? ->]]
  end.

(** The raw values of the mode branch, before rounding. *)
Lemma perturb_in_range (w : Worker) (mode : SimulationType) :
  primaryInRange w ->
  let n := perturb w mode in
  (10 <= newTemp n <= 34) /\ (20 <= newHumidity n <= 90)
  /\ (50 <= newMeanHR n <= 110) /\ (15 <= newRMSSD n <= 120)
  /\ (20 <= newSDNN n <= 150) /\ (newMeanNNI n <= 1200)
  /\ (5 <= newPNN50 n <= 50) /\ (800 <= newTotalPower n <= 5000)
  /\ (200 <= newLF n <= 1500) /\ (100 <= newHF n <= 1000).
Proof.
  unfold primaryInRange. unfold_constants.
  intros (Ht & Hh & Hr & Hm & Hs & Hn & Hp & Htp & Hl & Hf).
  destruct mode; cbn [perturb newTemp newHumidity newMeanHR newRMSSD newSDNN
    newMeanNNI newPNN50 newTotalPower newLF newHF]; unfold_constants;
    repeat apply conj; minmax; lra.
Qed.

(** C3. From a worker whose perturbed fields lie inside the clamps, and in
    either mode, every field of the object the Signal Generator returns lies
    inside its range: temperature in [10,34], humidity in [20,90], mean HR
    in [50,110], RMSSD in [15,120], SDNN in [20,150]; pNN50 in [5,50],
    total power in [800,5000], LF in [200,1500], HF in [100,1000] and mean
    NNI at most 1200, the clamps the code applies to the other perturbed
    fields.  The fields derived from them inherit bounds: min HR in [35,95],
    max HR in [75,135], std HR in [6,45], LF/HF in [0.2,15], range NNI in
    [160,1200], median NNI at most 1176; CV-NNI is present. *)
Theorem signal_generator_in_range (w : Worker) (mode : SimulationType) :
  primaryInRange w ->
  let v := calculateNextSimulationValues w mode in
  within MIN_TEMPERATURE MAX_TEMPERATURE (p_temperature v)
  /\ within MIN_HUMIDITY MAX_HUMIDITY (p_humidity v)
  /\ within 50 110 (p_hrv_mean_hr v)
  /\ within 15 120 (p_hrv_rmssd v)
  /\ within 20 150 (p_hrv_sdnn v)
  /\ atMost 1200 (p_hrv_mean_nni v)
  /\ within 5 50 (p_hrv_pnni_50 v)
  /\ within 800 5000 (p_hrv_total_power v)
  /\ within 200 1500 (p_hrv_lf v)
  /\ within 100 1000 (p_hrv_hf v)
  /\ within 35 95 (p_hrv_min_hr v)
  /\ within 75 135 (p_hrv_max_hr v)
  /\ within 6 45 (p_hrv_std_hr v)
  /\ within 0.2 15 (p_hrv_lf_hf_ratio v)
  /\ atMost 1176 (p_hrv_median_nni v)
  /\ within 160 1200 (p_hrv_range_nni v)
  /\ (exists x, p_hrv_cvnni v = Some x).
Proof.
  intro Hw.
  destruct (perturb_in_range w mode Hw)
    as (Ht & Hh & Hr & Hm & Hs & Hn & Hp & Htp & Hl & Hf).
  unfold calculateNextSimulationValues.
  remember (perturb w mode) as n eqn:En. clear En Hw.
  unfold MIN_TEMPERATURE, MAX_TEMPERATURE, MIN_HUMIDITY, MAX_HUMIDITY.
  cbn [roundValues p_temperature p_humidity p_hrv_mean_hr p_hrv_rmssd
       p_hrv_sdnn p_hrv_mean_nni p_hrv_pnni_50 p_hrv_total_power p_hrv_lf
       p_hrv_hf p_hrv_min_hr p_hrv_max_hr p_hrv_std_hr p_hrv_lf_hf_ratio
       p_hrv_median_nni p_hrv_range_nni p_hrv_cvnni].
  repeat apply conj.
  - apply (within_scaled 100 340); [reflexivity..|lra].
  - apply (within_scaled 200 900); [reflexivity..|lra].
  - apply (within_scaled 500 1100); [reflexivity..|lra].
  - apply (within_scaled 150 1200); [reflexivity..|lra].
  - apply (within_scaled 200 1500); [reflexivity..|lra].
  - apply (atMost_units 1200); [reflexivity|lra].
  - apply (within_scaled 50 500); [reflexivity..|lra].
  - apply (within_units 800 5000); [reflexivity..|lra].
  - apply (within_units 200 1500); [reflexivity..|lra].
  - apply (within_units 100 1000); [reflexivity..|lra].
  - apply (within_scaled 350 950); [reflexivity..|lra].
  - apply (within_scaled 750 1350); [reflexivity..|lra].
  - apply (within_scaled 60 450); [reflexivity..|lra].
  - apply (within_scaled 20 1500); [reflexivity..|].
    assert (Hpos : 0 < newHF n) by lra.
    assert (Hq : 0.2 <= newLF n / newHF n <= 15)
      by (apply div_between; [assumption | lra]).
    remember (newLF n / newHF n) as q. lra.
  - apply (atMost_units 1176); [reflexivity|lra].
  - apply (within_units 160 1200); [reflexivity..|lra].
  - eexists; reflexivity.
Qed.

Lemma johnDoe_in_range : primaryInRange johnDoe.
Proof.
  unfold primaryInRange, johnDoe. unfold_constants.
  cbn [temperature humidity hrv_mean_hr hrv_rmssd hrv_sdnn hrv_mean_nni
       hrv_pnni_50 hrv_total_power hrv_lf hrv_hf].
  repeat apply conj; lra.
Qed.

Lemma signal_generator_in_range_witness :
  primaryInRange johnDoe
  /\ within MIN_TEMPERATURE MAX_TEMPERATURE
       (p_temperature (calculateNextSimulationValues johnDoe heatup))
  /\ within 20 150 (p_hrv_sdnn (calculateNextSimulationValues johnDoe cooldown)).
Proof.
  split; [exact johnDoe_in_range|].
  split.
  - apply (signal_generator_in_range johnDoe heatup johnDoe_in_range).
  - apply (signal_generator_in_range johnDoe cooldown johnDoe_in_range).
Defined.

(** The first tick of the end-to-end scenario: from 22.0 degrees, 45.0 %
    and 70.0 bpm, heat-up gives 23.2, 48.5 and 71.5. *)
Example heatup_first_tick :
  let v := calculateNextSimulationValues johnDoe heatup in
  option_map Qred (p_temperature v) = Some (Qred 23.2)
  /\ option_map Qred (p_humidity v) = Some (Qred 48.5)
  /\ option_map Qred (p_hrv_mean_hr v) = Some (Qred 71.5).
Proof. vm_compute. repeat split. Qed.

(** ** The Progress Reporter *)

(** Either leg is capped at 100, so the average is at most 100. *)
Lemma progress_at_most_100 (t h : Q) (mode : SimulationType) :
  getSimulationProgress t h mode <= 100.
Proof.
  unfold getSimulationProgress.
  destruct mode; apply Qle_shift_div_r; try reflexivity; minmax; lra.
Qed.

(** Inside the documented environment ranges the result is between 0 and
    100. *)
Lemma progress_in_range (t h : Q) (mode : SimulationType) :
  MIN_TEMPERATURE <= t <= MAX_TEMPERATURE ->
  MIN_HUMIDITY <= h <= MAX_HUMIDITY ->
  0 <= getSimulationProgress t h mode <= 100.
Proof.
  intros Ht Hh. split; [|apply progress_at_most_100].
  unfold getSimulationProgress. unfold_constants.
  assert (D1 : forall y, 0 <= y -> 0 <= y / (34 - 10) * 100).
  { intros y Hy.
    assert (0 <= y / (34 - 10)) by (apply Qle_shift_div_l; [reflexivity | lra]).
    remember (y / (34 - 10)) as q. lra. }
  assert (D2 : forall y, 0 <= y -> 0 <= y / (90 - 20) * 100).
  { intros y Hy.
    assert (0 <= y / (90 - 20)) by (apply Qle_shift_div_l; [reflexivity | lra]).
    remember (y / (90 - 20)) as q. lra. }
  destruct mode; apply Qle_shift_div_l; try reflexivity.
  - assert (H1 := D1 (t - 10)). assert (H2 := D2 (h - 20)).
    remember ((t - 10) / (34 - 10) * 100) as a.
    remember ((h - 20) / (90 - 20) * 100) as b.
    minmax; lra.
  - assert (H1 := D1 (34 - t)). assert (H2 := D2 (90 - h)).
    remember ((34 - t) / (34 - 10) * 100) as a.
    remember ((90 - h) / (90 - 20) * 100) as b.
    minmax; lra.
Qed.

(** C6. The legs are capped at 100 but not floored at 0: above the maximum
    temperature a cool-down progress is negative.  At 36 degrees and 90 %
    humidity the temperature leg is -25/3 and the result is -25/6. *)
Theorem progress_negative_above_maximum :
  getSimulationProgress 36 90 cooldown == - (25 # 6)
  /\ getSimulationProgress 36 90 cooldown < 0
  /\ getSimulationProgress 5 20 heatup < 0.
Proof. vm_compute. repeat split; discriminate. Qed.

(** ** Cool-down *)

(** The six cool-down factors differ from one another, and each differs
    from the heat-up factor of the same statistic; the heart-rate
    decrement differs from the increment. *)
Lemma cooldown_rates_distinct :
  ~ HEART_RATE_RECOVERY_DECREMENT == HEART_RATE_STRESS_INCREMENT
  /\ ~ HRV_DECREASE_RMSSD == HRV_INCREASE_RMSSD
  /\ ~ HRV_DECREASE_SDNN == HRV_INCREASE_SDNN
  /\ ~ HRV_DECREASE_PNN50 == HRV_INCREASE_PNN50
  /\ ~ HRV_DECREASE_POWER == HRV_INCREASE_POWER
  /\ ~ HRV_DECREASE_LF == HRV_INCREASE_LF
  /\ ~ HRV_DECREASE_HF == HRV_INCREASE_HF
  /\ HRV_DECREASE_HF < HRV_DECREASE_POWER
  /\ HRV_DECREASE_POWER < HRV_DECREASE_PNN50
  /\ HRV_DECREASE_PNN50 < HRV_DECREASE_LF
  /\ HRV_DECREASE_LF < HRV_DECREASE_RMSSD
  /\ HRV_DECREASE_RMSSD < HRV_DECREASE_SDNN.
Proof. unfold_constants. repeat apply conj; lra. Qed.

(** Mean NNI gets the heat-up transform in cool-down too. *)
Lemma cooldown_mean_nni_as_heatup (w : Worker) :
  newMeanNNI (perturb w cooldown) = newMeanNNI (perturb w heatup)
  /\ p_hrv_mean_nni (calculateNextSimulationValues w cooldown)
     = p_hrv_mean_nni (calculateNextSimulationValues w heatup).
Proof. split; reflexivity. Qed.

(** No minimum bounds the cool-down value of mean NNI from below. *)
Lemma cooldown_mean_nni_no_floor :
  ~ exists floor : Q, forall w, floor <= newMeanNNI (perturb w cooldown).
Proof.
  intros [floor Hfloor].
  pose (x := Js.min floor 0 - 1).
  specialize (Hfloor
    {| id := ""; name := ""; temperature := 0; humidity := 0;
       hrv_mean_hr := 0; hrv_rmssd := 0; hrv_sdnn := 0; hrv_mean_nni := x;
       hrv_pnni_50 := 0; hrv_total_power := 0; hrv_lf := 0; hrv_hf := 0;
       hrv_min_hr := 0; hrv_max_hr := 0; hrv_std_hr := 0;
       hrv_lf_hf_ratio := 0; hrv_median_nni := 0; hrv_range_nni := 0;
       hrv_cvnni := 0; riskScore := None; predictedClass := None;
       confidence := None; other := [] |}).
  cbn [perturb newMeanNNI hrv_mean_nni] in Hfloor.
  destruct (min_cases 1200 (x * 1.04)) as [[Hc He] | [Hc He]];
    rewrite He in Hfloor; clear He;
    subst x; destruct (min_cases floor 0) as [[Hd He] | [Hd He]];
    rewrite He in *; lra.
Qed.

(** C7, as stated, fails on mean NNI: on [johnDoe] (mean NNI 850) cool-down
    returns 884, the very value heat-up returns, above the current value and
    above it by the heat-up factor 1.04; the other statistics do differ
    between the modes. *)
Lemma cooldown_mean_nni_counterexample :
  p_hrv_mean_nni (calculateNextSimulationValues johnDoe cooldown)
    = p_hrv_mean_nni (calculateNextSimulationValues johnDoe heatup)
  /\ option_map Qred (p_hrv_mean_nni (calculateNextSimulationValues johnDoe cooldown))
     = Some (Qred 884)
  /\ hrv_mean_nni johnDoe < 884
  /\ newMeanNNI (perturb johnDoe cooldown) == hrv_mean_nni johnDoe * 1.04
  /\ option_map Qred (p_hrv_rmssd (calculateNextSimulationValues johnDoe cooldown))
     <> option_map Qred (p_hrv_rmssd (calculateNextSimulationValues johnDoe heatup)).
Proof.
  split; [reflexivity|].
  split; [vm_compute; reflexivity|].
  split; [vm_compute; reflexivity|].
  split; [vm_compute; reflexivity|].
  vm_compute. discriminate.
Qed.

(** C7, amended.  From a state inside the clamps, cool-down lowers heart
    rate, RMSSD, SDNN, pNN50, total power, LF and HF: each stays at or above
    its fixed floor, does not exceed the current value, and is strictly
    below what heat-up gives from the same state.  Mean NNI is the
    exception: cool-down applies the heat-up transform to it, times 1.04 and
    capped at 1200. *)
Theorem cooldown_relaxes_all_but_mean_nni (w : Worker) :
  primaryInRange w ->
  let c := perturb w cooldown in
  let h := perturb w heatup in
  (50 <= newMeanHR c <= hrv_mean_hr w /\ newMeanHR c < newMeanHR h)
  /\ (15 <= newRMSSD c <= hrv_rmssd w /\ newRMSSD c < newRMSSD h)
  /\ (20 <= newSDNN c <= hrv_sdnn w /\ newSDNN c < newSDNN h)
  /\ (5 <= newPNN50 c <= hrv_pnni_50 w /\ newPNN50 c < newPNN50 h)
  /\ (800 <= newTotalPower c <= hrv_total_power w
      /\ newTotalPower c < newTotalPower h)
  /\ (200 <= newLF c <= hrv_lf w /\ newLF c < newLF h)
  /\ (100 <= newHF c <= hrv_hf w /\ newHF c < newHF h)
  /\ newMeanNNI c = newMeanNNI h
  /\ newMeanNNI c = Js.min 1200 (hrv_mean_nni w * 1.04).
Proof.
  unfold primaryInRange. unfold_constants.
  intros (Ht & Hh & Hr & Hm & Hs & Hn & Hp & Htp & Hl & Hf).
  cbn [perturb newTemp newHumidity newMeanHR newRMSSD newSDNN
    newMeanNNI newPNN50 newTotalPower newLF newHF]; unfold_constants.
  repeat apply conj; try reflexivity; minmax; lra.
Qed.

Lemma cooldown_relaxes_all_but_mean_nni_witness :
  primaryInRange johnDoe
  /\ newRMSSD (perturb johnDoe cooldown) < newRMSSD (perturb johnDoe heatup)
  /\ newMeanNNI (perturb johnDoe cooldown) = newMeanNNI (perturb johnDoe heatup).
Proof.
  split; [exact johnDoe_in_range|].
  pose proof (cooldown_relaxes_all_but_mean_nni johnDoe johnDoe_in_range) as H.
  cbv zeta in H.
  split; [apply H | apply H].
Defined.

(** ** Teardown *)

Lemma stopSimulation_refs (reason : option string) (r : Refs) :
  fst (stopSimulation reason r)
  = {| intervalRef := None;
       stepCountRef := 0;
       baselineValuesRef := baselineValuesRef r;
       errorCountRef := 0;
       consecutiveErrorsRef := 0;
       simulationTypeRef := None;
       isActiveRef := false;
       workersRef := workersRef r;
       currentWorkerValuesRef := None;
       simulationState :=
         {| isActive := false; type := None;
            targetWorker := targetWorker (simulationState r);
            currentValues := currentValues (simulationState r) |} |}.
Proof.
  unfold stopSimulation, clearSimulationInterval.
  destruct (intervalRef r) eqn:E; cbn; [reflexivity | now rewrite E].
Qed.

Lemma stopSimulation_events (reason : option string) (r : Refs) :
  snd (stopSimulation reason r)
  = StopLogged (reasonOrDefault reason)
    :: match intervalRef r with Some h => [ClearInterval h] | None => [] end.
Proof.
  unfold stopSimulation, clearSimulationInterval.
  destruct (intervalRef r); reflexivity.
Qed.

Lemma stopSimulation_Idle (reason : option string) (r : Refs) :
  Idle (fst (stopSimulation reason r)).
Proof. rewrite stopSimulation_refs. repeat split. Qed.

Lemma stopSimulation_stopReasons (reason : option string) (r : Refs) :
  stopReasons (snd (stopSimulation reason r)) = [reasonOrDefault reason].
Proof.
  rewrite stopSimulation_events. destruct (intervalRef r); reflexivity.
Qed.

(** C9. [stopSimulation] is idempotent.  On an idle loop it changes nothing
    and clears no timer.  Called twice in a row, the second call leaves the
    refs exactly as the first call left them (timer handle cleared, mode
    null, inactive, cache cleared, all counters zero), and it issues no
    [clearInterval], the handle being already [null]. *)
Theorem stopSimulation_idempotent (reason reason' : option string) (r : Refs) :
  (Idle r ->
     fst (stopSimulation reason r) = r
     /\ snd (stopSimulation reason r) = [StopLogged (reasonOrDefault reason)])
  /\ (let r1 := fst (stopSimulation reason r) in
      fst (stopSimulation reason' r1) = r1
      /\ snd (stopSimulation reason' r1) = [StopLogged (reasonOrDefault reason')]
      /\ Idle r1).
Proof.
  split.
  - intros (Hi & Ht & Ha & Hc & Hs & He & Hce & Hsa & Hst).
    split.
    + rewrite stopSimulation_refs.
      destruct r as [i s b e c t a ws cw [sa st tw cv]]; cbn in *.
      subst. reflexivity.
    + rewrite stopSimulation_events. now rewrite Hi.
  - cbv zeta. split; [|split].
    + rewrite !stopSimulation_refs. reflexivity.
    + rewrite stopSimulation_events, stopSimulation_refs. reflexivity.
    + apply stopSimulation_Idle.
Qed.

Lemma initialRefs_Idle (workers : list Worker) : Idle (initialRefs workers).
Proof. repeat split. Qed.

Lemma stopSimulation_idempotent_witness :
  Idle (initialRefs [johnDoe])
  /\ fst (stopSimulation None (initialRefs [johnDoe])) = initialRefs [johnDoe]
  /\ fst (stopSimulation None (fst (stopSimulation (Some "done"%string) startedHeatUp)))
     = fst (stopSimulation (Some "done"%string) startedHeatUp).
Proof.
  split; [apply initialRefs_Idle|].
  split.
  - apply (proj1 (stopSimulation_idempotent None None (initialRefs [johnDoe]))).
    apply initialRefs_Idle.
  - apply (proj2 (stopSimulation_idempotent (Some "done"%string) None startedHeatUp)).
Defined.

(** ** Reset *)

(** The case of a subject that resolves: [resetToBaseline] tears the run
    down as [stopSimulation] does and hands exactly one update to
    [onWorkerUpdate],
    addressed to the subject.  Spread over any worker, that update sets
    temperature and humidity to those of the freshly generated profile,
    makes the three risk fields [undefined], and leaves every other field
    as it was.  The baseline snapshot is neither read nor written: another
    snapshot gives the same events, and the snapshot is still there
    afterwards. *)
Lemma resetToBaseline_frame
  (generate : string -> string -> string -> Worker) (r : Refs) (target : Worker) :
  findTargetWorker r = Some target ->
  let fresh := generate "John Doe"%string (id target) "moderate"%string in
  let r' := fst (resetToBaseline generate r) in
  let events := snd (resetToBaseline generate r) in
  r' = fst (stopSimulation (Some "Resetting to baseline"%string) r)
  /\ Idle r'
  /\ (exists u,
        events = snd (stopSimulation (Some "Resetting to baseline"%string) r)
                 ++ [WorkerUpdate (id target) u]
        /\ forall w,
             spread w u
             = {| id := id w; name := name w;
                  temperature := temperature fresh;
                  humidity := humidity fresh;
                  hrv_mean_hr := hrv_mean_hr w; hrv_rmssd := hrv_rmssd w;
                  hrv_sdnn := hrv_sdnn w; hrv_mean_nni := hrv_mean_nni w;
                  hrv_pnni_50 := hrv_pnni_50 w;
                  hrv_total_power := hrv_total_power w;
                  hrv_lf := hrv_lf w; hrv_hf := hrv_hf w;
                  hrv_min_hr := hrv_min_hr w; hrv_max_hr := hrv_max_hr w;
                  hrv_std_hr := hrv_std_hr w;
                  hrv_lf_hf_ratio := hrv_lf_hf_ratio w;
                  hrv_median_nni := hrv_median_nni w;
                  hrv_range_nni := hrv_range_nni w;
                  hrv_cvnni := hrv_cvnni w;
                  riskScore := None; predictedClass := None;
                  confidence := None;
                  other := other w |})
  /\ baselineValuesRef r' = baselineValuesRef r
  /\ (forall b, snd (resetToBaseline generate (withBaseline b r)) = events).
Proof.
  intro Hfind. cbv zeta.
  assert (Hb : forall b, findTargetWorker (withBaseline b r) = Some target)
    by (intro b; exact Hfind).
  unfold resetToBaseline. rewrite Hfind.
  destruct (stopSimulation (Some "Resetting to baseline"%string) r)
    as [r1 ev] eqn:Es.
  cbn [fst snd].
  assert (Hr1 : r1 = fst (stopSimulation (Some "Resetting to baseline"%string) r))
    by now rewrite Es.
  split; [reflexivity|].
  split; [rewrite Hr1; apply stopSimulation_Idle|].
  split.
  - eexists. split; [reflexivity|]. intro w. reflexivity.
  - split.
    + rewrite Hr1, stopSimulation_refs. reflexivity.
    + intro b. rewrite Hb.
      destruct (stopSimulation (Some "Resetting to baseline"%string)
                  (withBaseline b r)) as [r2 ev2] eqn:Es2.
      cbn [snd]. f_equal.
      change ev2 with (snd (r2, ev2)). change ev with (snd (r1, ev)).
      rewrite <- Es, <- Es2. rewrite !stopSimulation_events. reflexivity.
Qed.

Lemma resetToBaseline_absent
  (generate : string -> string -> string -> Worker) (r : Refs) :
  findTargetWorker r = None -> resetToBaseline generate r = (r, []).
Proof. intro H. unfold resetToBaseline. now rewrite H. Qed.

Lemma startedHeatUp_target : findTargetWorker startedHeatUp = Some johnDoe.
Proof. reflexivity. Qed.

(** C8, amended.  When a worker named "John Doe" is in the workers list,
    [resetToBaseline] stops any active run (the loop is idle afterwards),
    and hands [onWorkerUpdate] one update for that worker which makes the
    three risk fields [undefined], replaces temperature and humidity by
    those of a freshly generated baseline profile and leaves every other
    field unchanged; the baseline snapshot of the run is not used.  When no
    such worker is in the list, [resetToBaseline] returns at once: it stops
    nothing and sends nothing. *)
Theorem resetToBaseline_effect
  (generate : string -> string -> string -> Worker) (r : Refs) :
  (forall target,
     findTargetWorker r = Some target ->
     let fresh := generate "John Doe"%string (id target) "moderate"%string in
     let r' := fst (resetToBaseline generate r) in
     let events := snd (resetToBaseline generate r) in
     r' = fst (stopSimulation (Some "Resetting to baseline"%string) r)
     /\ Idle r'
     /\ (exists u,
           events = snd (stopSimulation (Some "Resetting to baseline"%string) r)
                    ++ [WorkerUpdate (id target) u]
           /\ forall w,
                spread w u
                = {| id := id w; name := name w;
                     temperature := temperature fresh;
                     humidity := humidity fresh;
                     hrv_mean_hr := hrv_mean_hr w; hrv_rmssd := hrv_rmssd w;
                     hrv_sdnn := hrv_sdnn w; hrv_mean_nni := hrv_mean_nni w;
                     hrv_pnni_50 := hrv_pnni_50 w;
                     hrv_total_power := hrv_total_power w;
                     hrv_lf := hrv_lf w; hrv_hf := hrv_hf w;
                     hrv_min_hr := hrv_min_hr w; hrv_max_hr := hrv_max_hr w;
                     hrv_std_hr := hrv_std_hr w;
                     hrv_lf_hf_ratio := hrv_lf_hf_ratio w;
                     hrv_median_nni := hrv_median_nni w;
                     hrv_range_nni := hrv_range_nni w;
                     hrv_cvnni := hrv_cvnni w;
                     riskScore := None; predictedClass := None;
                     confidence := None;
                     other := other w |})
     /\ baselineValuesRef r' = baselineValuesRef r
     /\ (forall b, snd (resetToBaseline generate (withBaseline b r)) = events))
  /\ (findTargetWorker r = None ->
      resetToBaseline generate r = (r, [])).
Proof.
  split.
  - intros target Hfind. exact (resetToBaseline_frame generate r target Hfind).
  - apply resetToBaseline_absent.
Qed.

Lemma resetToBaseline_effect_witness :
  findTargetWorker startedHeatUp = Some johnDoe
  /\ Idle (fst (resetToBaseline sampleGenerator startedHeatUp))
  /\ baselineValuesRef (fst (resetToBaseline sampleGenerator startedHeatUp))
     = baselineValuesRef startedHeatUp
  /\ findTargetWorker (render [] startedHeatUp) = None
  /\ resetToBaseline sampleGenerator (render [] startedHeatUp)
     = (render [] startedHeatUp, []).
Proof.
  split; [exact startedHeatUp_target|].
  pose proof (proj1 (resetToBaseline_effect sampleGenerator startedHeatUp)
                johnDoe startedHeatUp_target) as H.
  cbv zeta in H.
  split; [apply H|]. split; [apply H|].
  assert (Hnone : findTargetWorker (render [] startedHeatUp) = None)
    by reflexivity.
  split; [exact Hnone|].
  exact (proj2 (resetToBaseline_effect sampleGenerator (render [] startedHeatUp))
           Hnone).
Defined.

(** C8, as stated, fails when the subject has left the workers list.  A
    heat-up run is started on John Doe and a render then installs an empty
    list: the run goes on from its cached worker.  [resetToBaseline]
    returns at the lookup: the refs are untouched, the loop is still active
    with its timer, nothing is logged or published, and the next tick sends
    its oracle request as before. *)
Lemma reset_without_subject_counterexample :
  let w := actAll sampleProps [DoStartHeatUp 1%positive; DoRender []]
             (mounted [johnDoe]) in
  let out := resetToBaseline sampleGenerator (refs w) in
  Running heatup johnDoe (refs w)
  /\ intervalRef (refs w) = Some 1%positive
  /\ out = (refs w, [])
  /\ isActiveRef (fst out) = true
  /\ intervalRef (fst out) = Some 1%positive
  /\ stopReasons (snd out) = []
  /\ workerUpdates (snd out) = []
  /\ oracleCalls
       (snd (performSimulationStep sampleProps (Fulfilled samplePrediction)
               (fst out)))
     = [advance heatup johnDoe].
Proof. cbv zeta. repeat split. Qed.

(** ** Ticks *)

Section Ticks.

Variable P : Props.

(** A running loop with a cached worker gets as far as the oracle call,
    and touches no ref on the way. *)
Lemma begin_running (mode : SimulationType) (w : Worker) (r : Refs) :
  Running mode w r ->
  performSimulationStep_begin r
  = Awaiting r (mkPending w mode)
      [OracleCall (spread w (calculateNextSimulationValues w mode))].
Proof.
  intros (Ha & Ht & Hc). unfold performSimulationStep_begin.
  now rewrite Ha, Ht, Hc.
Qed.

Lemma step_running (mode : SimulationType) (w : Worker) (o : OracleOutcome)
  (r : Refs) :
  Running mode w r ->
  performSimulationStep P o r
  = (fst (performSimulationStep_resume P (mkPending w mode) o r),
     OracleCall (spread w (calculateNextSimulationValues w mode))
     :: snd (performSimulationStep_resume P (mkPending w mode) o r)).
Proof.
  intro H. unfold performSimulationStep. rewrite (begin_running mode w r H).
  now destruct (performSimulationStep_resume P (mkPending w mode) o r).
Qed.

Lemma stopReasons_app (l l' : list Event) :
  stopReasons (l ++ l') = (stopReasons l ++ stopReasons l')%list.
Proof.
  induction l as [|e l IH]; [reflexivity|].
  destruct e; cbn; now rewrite ?IH.
Qed.

Lemma published_no_stop (message : string) (n : nat) (i : string)
  (u : PartialWorker) (rest : list Event) :
  stopReasons
    (ErrorLogged message n :: WorkerUpdate i u ::
     (if onError P then rest else []))
  = (if onError P then stopReasons rest else []).
Proof. cbn. now destruct (onError P). Qed.

(** The [catch] block, case by case. *)
Lemma resume_rejected (k : Pending) (message : string) (r : Refs) :
  let r1 := afterFailure k r in
  let r' := fst (performSimulationStep_resume P k (Rejected message) r) in
  let ev := snd (performSimulationStep_resume P k (Rejected message) r) in
  ((3 <= consecutiveErrorsRef r + 1)%nat ->
     r' = fst (stopSimulation (Some "Too many consecutive errors"%string) r1)
     /\ stopReasons ev = ["Too many consecutive errors"%string])
  /\ ((consecutiveErrorsRef r + 1 < 3)%nat -> (10 <= errorCountRef r + 1)%nat ->
        r' = fst (stopSimulation (Some "Too many total errors"%string) r1)
        /\ stopReasons ev = ["Too many total errors"%string])
  /\ ((consecutiveErrorsRef r + 1 < 3)%nat -> (errorCountRef r + 1 < 10)%nat ->
        (MAX_SIMULATION_STEPS <= stepCountRef r + 1)%nat ->
        r' = fst (stopSimulation (Some "Maximum steps reached"%string) (bumpStep r1))
        /\ stopReasons ev = ["Maximum steps reached"%string])
  /\ ((consecutiveErrorsRef r + 1 < 3)%nat -> (errorCountRef r + 1 < 10)%nat ->
        (stepCountRef r + 1 < MAX_SIMULATION_STEPS)%nat ->
        r' = bumpStep r1 /\ stopReasons ev = []).
Proof.
  cbv zeta. unfold performSimulationStep_resume.
  cbn [afterFailure consecutiveErrorsRef errorCountRef stepCountRef bumpStep].
  repeat apply conj.
  - intros Hc. apply Nat.leb_le in Hc. rewrite Hc.
    destruct (stopSimulation _ _) as [r2 ev] eqn:Es. cbn [fst snd].
    split; [reflexivity|].
    rewrite stopReasons_app, published_no_stop.
    change ev with (snd (r2, ev)). rewrite <- Es, stopSimulation_stopReasons.
    now destruct (onError P).
  - intros Hc He. apply Nat.leb_gt in Hc. apply Nat.leb_le in He.
    rewrite Hc, He.
    destruct (stopSimulation _ _) as [r2 ev] eqn:Es. cbn [fst snd].
    split; [reflexivity|].
    rewrite stopReasons_app, published_no_stop.
    change ev with (snd (r2, ev)). rewrite <- Es, stopSimulation_stopReasons.
    now destruct (onError P).
  - intros Hc He Hs. apply Nat.leb_gt in Hc, He. apply Nat.leb_le in Hs.
    rewrite Hc, He, Hs.
    destruct (stopSimulation _ _) as [r2 ev] eqn:Es. cbn [fst snd].
    split; [reflexivity|].
    rewrite stopReasons_app, published_no_stop.
    change ev with (snd (r2, ev)). rewrite <- Es, stopSimulation_stopReasons.
    now destruct (onError P).
  - intros Hc He Hs. apply Nat.leb_gt in Hc, He, Hs.
    rewrite Hc, He, Hs. cbn [fst snd].
    split; [reflexivity|].
    rewrite published_no_stop. now destruct (onError P).
Qed.

(** The rest of the [try] block. *)
Lemma resume_fulfilled (k : Pending) (prediction : PredictionResponse)
  (r : Refs) :
  let r1 := afterSuccess k prediction r in
  let candidate :=
    spread (pendingWorker k)
      (calculateNextSimulationValues (pendingWorker k) (pendingType k)) in
  let r' := fst (performSimulationStep_resume P k (Fulfilled prediction) r) in
  let ev := snd (performSimulationStep_resume P k (Fulfilled prediction) r) in
  (shouldContinueSimulation candidate (pendingType k) (stepCountRef r + 1) = true ->
     r' = r1 /\ stopReasons ev = [])
  /\ (shouldContinueSimulation candidate (pendingType k) (stepCountRef r + 1) = false ->
        r' = fst (stopSimulation (Some "Simulation completed successfully"%string) r1)
        /\ stopReasons ev = ["Simulation completed successfully"%string]).
Proof.
  cbv zeta. unfold performSimulationStep_resume.
  cbn [afterSuccess stepCountRef].
  split; intro Hs; rewrite Hs; cbn [negb fst snd].
  - split; reflexivity.
  - destruct (stopSimulation _ _) as [r2 ev] eqn:Es. cbn [fst snd].
    split; [reflexivity|].
    rewrite stopReasons_app. cbn [stopReasons app].
    change ev with (snd (r2, ev)). rewrite <- Es, stopSimulation_stopReasons.
    reflexivity.
Qed.

End Ticks.

Section Budget.

Variable P : Props.

(** A failed tick inside both budgets and below the step ceiling leaves a
    running loop, one step and one error further. *)
Lemma step_rejected_continues (mode : SimulationType) (w : Worker)
  (message : string) (r : Refs) :
  Running mode w r ->
  (consecutiveErrorsRef r + 1 < 3)%nat ->
  (errorCountRef r + 1 < 10)%nat ->
  (stepCountRef r + 1 < MAX_SIMULATION_STEPS)%nat ->
  let r' := fst (performSimulationStep P (Rejected message) r) in
  r' = bumpStep (afterFailure (mkPending w mode) r)
  /\ Running mode (spread w (calculateNextSimulationValues w mode)) r'
  /\ stepCountRef r' = (stepCountRef r + 1)%nat
  /\ errorCountRef r' = (errorCountRef r + 1)%nat
  /\ consecutiveErrorsRef r' = (consecutiveErrorsRef r + 1)%nat
  /\ intervalRef r' = intervalRef r
  /\ stopReasons (snd (performSimulationStep P (Rejected message) r)) = [].
Proof.
  intros Hrun Hc He Hs. cbv zeta.
  rewrite (step_running P mode w _ r Hrun). cbn [fst snd stopReasons].
  destruct (resume_rejected P (mkPending w mode) message r)
    as (_ & _ & _ & Hcont).
  destruct (Hcont Hc He Hs) as [Hr' Hev]. rewrite Hr', Hev.
  destruct Hrun as (Ha & Ht & _).
  repeat apply conj; try reflexivity; cbn; assumption.
Qed.

(** A failed tick that exhausts a budget, or reaches the ceiling, stops
    the loop with the matching reason. *)
Lemma step_rejected_stops (mode : SimulationType) (w : Worker)
  (message : string) (r : Refs) :
  Running mode w r ->
  let out := performSimulationStep P (Rejected message) r in
  ((3 <= consecutiveErrorsRef r + 1)%nat ->
     Idle (fst out)
     /\ stopReasons (snd out) = ["Too many consecutive errors"%string])
  /\ ((consecutiveErrorsRef r + 1 < 3)%nat -> (10 <= errorCountRef r + 1)%nat ->
        Idle (fst out)
        /\ stopReasons (snd out) = ["Too many total errors"%string])
  /\ ((consecutiveErrorsRef r + 1 < 3)%nat -> (errorCountRef r + 1 < 10)%nat ->
        (MAX_SIMULATION_STEPS <= stepCountRef r + 1)%nat ->
        Idle (fst out)
        /\ stopReasons (snd out) = ["Maximum steps reached"%string]).
Proof.
  intros Hrun. cbv zeta.
  rewrite (step_running P mode w _ r Hrun). cbn [fst snd stopReasons].
  destruct (resume_rejected P (mkPending w mode) message r)
    as (H1 & H2 & H3 & _).
  repeat apply conj.
  - intro Hc. destruct (H1 Hc) as [-> ->].
    split; [apply stopSimulation_Idle | reflexivity].
  - intros Hc He. destruct (H2 Hc He) as [-> ->].
    split; [apply stopSimulation_Idle | reflexivity].
  - intros Hc He Hs. destruct (H3 Hc He Hs) as [-> ->].
    split; [apply stopSimulation_Idle | reflexivity].
Qed.

(** A successful tick. *)
Lemma step_fulfilled (mode : SimulationType) (w : Worker)
  (prediction : PredictionResponse) (r : Refs) :
  Running mode w r ->
  let out := performSimulationStep P (Fulfilled prediction) r in
  consecutiveErrorsRef (fst out) = 0%nat
  /\ ((stopReasons (snd out) = []
       /\ fst out = afterSuccess (mkPending w mode) prediction r
       /\ errorCountRef (fst out) = errorCountRef r)
      \/ (stopReasons (snd out) = ["Simulation completed successfully"%string]
          /\ Idle (fst out))).
Proof.
  intros Hrun. cbv zeta.
  rewrite (step_running P mode w _ r Hrun). cbn [fst snd stopReasons].
  destruct (resume_fulfilled P (mkPending w mode) prediction r) as [Hgo Hend].
  cbn [pendingWorker pendingType] in Hgo, Hend.
  destruct (shouldContinueSimulation
              (spread w (calculateNextSimulationValues w mode)) mode
              (stepCountRef r + 1)).
  - destruct (Hgo eq_refl) as [-> ->].
    split; [reflexivity|]. left. repeat split.
  - destruct (Hend eq_refl) as [-> ->].
    split; [now rewrite stopSimulation_refs|].
    right. split; [reflexivity | apply stopSimulation_Idle].
Qed.

(** C2, amended.  A failed tick that stays inside both error budgets does
    not consult the Termination Policy.  It advances the cached state to
    the candidate, adds one to the step counter and to both error
    counters, and then tests the step ceiling only: below the ceiling the
    run stays active with its timer, whatever temperature and humidity
    are; at the ceiling it stops with the reason "Maximum steps reached". *)
Theorem failed_tick_tests_ceiling_only (mode : SimulationType) (w : Worker)
  (message : string) (r : Refs) :
  Running mode w r ->
  (consecutiveErrorsRef r + 1 < 3)%nat ->
  (errorCountRef r + 1 < 10)%nat ->
  let candidate := spread w (calculateNextSimulationValues w mode) in
  let out := performSimulationStep P (Rejected message) r in
  ((stepCountRef r + 1 < MAX_SIMULATION_STEPS)%nat ->
     Running mode candidate (fst out)
     /\ stepCountRef (fst out) = (stepCountRef r + 1)%nat
     /\ errorCountRef (fst out) = (errorCountRef r + 1)%nat
     /\ consecutiveErrorsRef (fst out) = (consecutiveErrorsRef r + 1)%nat
     /\ intervalRef (fst out) = intervalRef r
     /\ stopReasons (snd out) = [])
  /\ ((MAX_SIMULATION_STEPS <= stepCountRef r + 1)%nat ->
        Idle (fst out)
        /\ stopReasons (snd out) = ["Maximum steps reached"%string]).
Proof.
  intros Hrun Hc He. cbv zeta. split.
  - intro Hs.
    destruct (step_rejected_continues mode w message r Hrun Hc He Hs)
      as (_ & H). exact H.
  - intro Hs.
    destruct (step_rejected_stops mode w message r Hrun) as (_ & _ & H).
    exact (H Hc He Hs).
Qed.

End Budget.

Lemma nearSaturation_running : Running heatup nearlySaturatedDoe startedNearSaturation.
Proof. repeat split. Qed.

Lemma startedHeatUp_running : Running heatup johnDoe startedHeatUp.
Proof. repeat split. Qed.

(** C2, as stated, fails: a heat-up run stands at 33 degrees and 88 %, and
    the oracle call of its next tick is rejected.  The tick stays inside
    both budgets, its candidate is saturated (34 degrees, 90 %), the
    Termination Policy answers [false] on it, and yet the run is still
    active with its timer and no stop has been logged. *)
Lemma failed_tick_skips_policy_counterexample :
  let out := performSimulationStep sampleProps
               (Rejected "oracle unavailable"%string) startedNearSaturation in
  (consecutiveErrorsRef (fst out) < 3)%nat
  /\ (errorCountRef (fst out) < 10)%nat
  /\ (exists candidate,
        currentWorkerValuesRef (fst out) = Some candidate
        /\ shouldContinueSimulation candidate heatup (stepCountRef (fst out)) = false)
  /\ isActiveRef (fst out) = true
  /\ simulationTypeRef (fst out) = Some heatup
  /\ intervalRef (fst out) = Some 1%positive
  /\ stopReasons (snd out) = [].
Proof.
  cbv zeta. repeat apply conj; try (vm_compute; reflexivity).
  - vm_compute. lia.
  - vm_compute. lia.
  - eexists. split; vm_compute; reflexivity.
Qed.

Lemma failed_tick_tests_ceiling_only_witness :
  Running heatup nearlySaturatedDoe startedNearSaturation
  /\ isActiveRef (fst (performSimulationStep sampleProps
                         (Rejected "oracle unavailable"%string) startedNearSaturation))
     = true
  /\ stopReasons (snd (performSimulationStep sampleProps
                         (Rejected "oracle unavailable"%string) startedNearSaturation))
     = [].
Proof.
  split; [exact nearSaturation_running|].
  assert (Hc : (consecutiveErrorsRef startedNearSaturation + 1 < 3)%nat)
    by (vm_compute; lia).
  assert (He : (errorCountRef startedNearSaturation + 1 < 10)%nat)
    by (vm_compute; lia).
  assert (Hs : (stepCountRef startedNearSaturation + 1 < MAX_SIMULATION_STEPS)%nat)
    by (vm_compute; lia).
  pose proof (proj1 (failed_tick_tests_ceiling_only sampleProps heatup nearlySaturatedDoe
                "oracle unavailable"%string startedNearSaturation
                nearSaturation_running Hc He) Hs) as H.
  split; apply H.
Defined.

(** ** The error budget *)

(** C4.  For a running loop:
    - three oracle failures in a row, starting from a consecutive count of
      zero, stop the run on the third with the consecutive-error reason,
      although the total stays below ten;
    - whatever the total, the failure that brings the consecutive count to
      three stops the run with the consecutive-error reason;
    - the failure that brings the total to ten, the consecutive count
      staying below three (successes came in between), stops the run with
      the total-error reason;
    - a failure inside both budgets and below the step ceiling adds one to
      both counters and leaves the run active;
    - a successful tick sets the consecutive count to zero and does not
      touch the total: the run either goes on with the total it had, or the
      tick completes it and teardown clears every counter. *)
Theorem error_budget (P : Props) (mode : SimulationType) (w : Worker) (r : Refs)
  (m1 m2 m3 : string) (prediction : PredictionResponse) :
  Running mode w r ->
  (consecutiveErrorsRef r = 0%nat ->
     (errorCountRef r + 3 < 10)%nat ->
     (stepCountRef r + 2 < MAX_SIMULATION_STEPS)%nat ->
     let out := runTicks P [Rejected m1; Rejected m2; Rejected m3] r in
     Idle (fst out)
     /\ stopReasons (snd out) = ["Too many consecutive errors"%string])
  /\ ((3 <= consecutiveErrorsRef r + 1)%nat ->
        let out := performSimulationStep P (Rejected m1) r in
        Idle (fst out)
        /\ stopReasons (snd out) = ["Too many consecutive errors"%string])
  /\ ((consecutiveErrorsRef r + 1 < 3)%nat ->
        (10 <= errorCountRef r + 1)%nat ->
        let out := performSimulationStep P (Rejected m1) r in
        Idle (fst out)
        /\ stopReasons (snd out) = ["Too many total errors"%string])
  /\ ((consecutiveErrorsRef r + 1 < 3)%nat ->
        (errorCountRef r + 1 < 10)%nat ->
        (stepCountRef r + 1 < MAX_SIMULATION_STEPS)%nat ->
        let out := performSimulationStep P (Rejected m1) r in
        isActiveRef (fst out) = true
        /\ errorCountRef (fst out) = (errorCountRef r + 1)%nat
        /\ consecutiveErrorsRef (fst out) = (consecutiveErrorsRef r + 1)%nat
        /\ stopReasons (snd out) = [])
  /\ (let out := performSimulationStep P (Fulfilled prediction) r in
      consecutiveErrorsRef (fst out) = 0%nat
      /\ errorCountRef (afterSuccess (mkPending w mode) prediction r)
         = errorCountRef r
      /\ ((stopReasons (snd out) = []
           /\ isActiveRef (fst out) = true
           /\ errorCountRef (fst out) = errorCountRef r)
          \/ (stopReasons (snd out) = ["Simulation completed successfully"%string]
              /\ Idle (fst out)))).
Proof.
  intro Hrun. repeat apply conj.
  - intros Hz He Hs. cbv zeta.
    destruct (step_rejected_continues P mode w m1 r Hrun)
      as (_ & Hrun1 & Hs1 & He1 & Hc1 & _ & Hev1); try lia.
    set (w1 := spread w (calculateNextSimulationValues w mode)) in *.
    remember (performSimulationStep P (Rejected m1) r) as o1 eqn:E1.
    destruct o1 as [r1 ev1]. cbn [fst snd] in *.
    destruct (step_rejected_continues P mode w1 m2 r1 Hrun1)
      as (_ & Hrun2 & Hs2 & He2 & Hc2 & _ & Hev2); try lia.
    set (w2 := spread w1 (calculateNextSimulationValues w1 mode)) in *.
    remember (performSimulationStep P (Rejected m2) r1) as o2 eqn:E2.
    destruct o2 as [r2 ev2]. cbn [fst snd] in *.
    destruct (step_rejected_stops P mode w2 m3 r2 Hrun2) as (Hstop & _).
    destruct Hstop as [Hidle Hev3]; [lia|].
    cbn [runTicks]. rewrite <- E1, <- E2.
    destruct (performSimulationStep P (Rejected m3) r2) as [r3 ev3].
    cbn [fst snd] in *.
    split; [assumption|].
    rewrite !stopReasons_app, Hev1, Hev2, Hev3. reflexivity.
  - intro Hc. apply (step_rejected_stops P mode w m1 r Hrun). exact Hc.
  - intros Hc He. apply (step_rejected_stops P mode w m1 r Hrun); assumption.
  - intros Hc He Hs. cbv zeta.
    destruct (step_rejected_continues P mode w m1 r Hrun Hc He Hs)
      as (_ & (Ha & _) & _ & He1 & Hc1 & _ & Hev1).
    repeat split; assumption.
  - cbv zeta. apply (step_fulfilled P mode w prediction r Hrun).
  - reflexivity.
  - destruct (step_fulfilled P mode w prediction r Hrun) as (_ & [H | H]).
    + left. destruct H as (Hev & Hr & He). repeat split; try assumption.
      cbv zeta in Hr. rewrite Hr. cbn. apply Hrun.
    + right. exact H.
Qed.

Lemma error_budget_witness :
  Running heatup johnDoe startedHeatUp
  /\ stopReasons
       (snd (runTicks sampleProps
               [Rejected "e1"; Rejected "e2"; Rejected "e3"]%string startedHeatUp))
     = ["Too many consecutive errors"%string]
  /\ stopReasons
       (snd (performSimulationStep sampleProps (Rejected "e"%string)
               (withErrors 9 1 startedHeatUp)))
     = ["Too many total errors"%string]
  /\ stopReasons
       (snd (performSimulationStep sampleProps (Rejected "e"%string)
               (withErrors 2 2 startedHeatUp)))
     = ["Too many consecutive errors"%string].
Proof.
  split; [exact startedHeatUp_running|].
  split; [|split].
  - apply (proj1 (error_budget sampleProps heatup johnDoe startedHeatUp
                    "e1" "e2" "e3" samplePrediction startedHeatUp_running)).
    + reflexivity.
    + vm_compute; lia.
    + vm_compute; lia.
  - assert (Hrun : Running heatup johnDoe (withErrors 9 1 startedHeatUp))
      by (repeat split).
    apply (proj1 (proj2 (proj2 (error_budget sampleProps heatup johnDoe
                    (withErrors 9 1 startedHeatUp)
                    "e" "e" "e" samplePrediction Hrun)))).
    + vm_compute; lia.
    + vm_compute; lia.
  - assert (Hrun : Running heatup johnDoe (withErrors 2 2 startedHeatUp))
      by (repeat split).
    apply (proj1 (proj2 (error_budget sampleProps heatup johnDoe
                    (withErrors 2 2 startedHeatUp)
                    "e" "e" "e" samplePrediction Hrun))).
    vm_compute; lia.
Defined.

(** Ten failures with a success after every second one: fourteen ticks, and
    the run stops on the fourteenth with the total-error reason.  The
    environment advances on the failed ticks too. *)
Example ten_failures_interspersed :
  let F := Rejected "oracle unavailable"%string in
  let S := Fulfilled samplePrediction in
  let out := runTicks sampleProps
               [F; F; S; F; F; S; F; F; S; F; F; S; F; F] startedHeatUp in
  stopReasons (snd out) = ["Too many total errors"%string]
  /\ List.length (oracleCalls (snd out)) = 14%nat
  /\ Idle (fst out).
Proof. cbv zeta. vm_compute. repeat split. Qed.

(** ** Timer firings and pending oracle calls *)

(** C5, amended.  Nothing suppresses a timer firing while earlier oracle
    calls are pending.  On a running loop with an armed timer, a firing
    leaves every ref as it is, whatever the number of ticks in flight, and
    starts one more tick from the same cached worker: it issues its own
    oracle request for the same candidate and joins the ticks that wait.
    Ticks overlap unless the oracle answers within the interval. *)
Theorem timer_firing_not_suppressed (P : Props) (mode : SimulationType)
  (w : Worker) (wd : World) :
  Running mode w (refs wd) ->
  intervalRef (refs wd) <> None ->
  react P TimerFires wd
  = {| refs := refs wd;
       inflight := inflight wd ++ [mkPending w mode];
       trace := trace wd
                ++ [OracleCall (spread w (calculateNextSimulationValues w mode))] |}.
Proof.
  intros Hrun Harmed. unfold react.
  destruct (intervalRef (refs wd)) as [h|]; [|congruence].
  now rewrite (begin_running mode w (refs wd) Hrun).
Qed.

(** C5, as stated, fails.  A heat-up run has just started; the timer fires
    (tick 1 awaits the oracle) and fires again before the oracle has
    answered.  The second firing is not a no-op: a second oracle request
    goes out for the same candidate and two ticks are in flight.  When both
    calls fulfil, both ticks publish the same update, the step counter
    stands at 2, and the cached temperature has advanced once (23.2). *)
Lemma second_firing_counterexample :
  let w1 := react sampleProps TimerFires startedWorld in
  let w2 := react sampleProps TimerFires w1 in
  let w4 := reactAll sampleProps
              [OracleSettles 0 (Fulfilled samplePrediction);
               OracleSettles 0 (Fulfilled samplePrediction)] w2 in
  List.length (inflight w1) = 1%nat
  /\ w2 <> w1
  /\ List.length (inflight w2) = 2%nat
  /\ List.length (oracleCalls (trace w1)) = 1%nat
  /\ (exists c, oracleCalls (trace w2) = [c; c])
  /\ stepCountRef (refs w4) = 2%nat
  /\ (exists i u, trace w4 = [OracleCall (spread johnDoe u);
                              OracleCall (spread johnDoe u);
                              WorkerUpdate i (spreadPartial u (riskAnnotation samplePrediction));
                              WorkerUpdate i (spreadPartial u (riskAnnotation samplePrediction))])
  /\ option_map (fun c => Qred (temperature c)) (currentWorkerValuesRef (refs w4))
     = Some (Qred 23.2).
Proof.
  cbv zeta. repeat apply conj; try (vm_compute; reflexivity).
  - intro H. apply (f_equal (fun x => List.length (inflight x))) in H.
    vm_compute in H. discriminate.
  - eexists. vm_compute. reflexivity.
  - exists (id johnDoe), (calculateNextSimulationValues johnDoe heatup).
    vm_compute. reflexivity.
Qed.

Lemma startedWorld_armed : intervalRef (refs startedWorld) <> None.
Proof. vm_compute. discriminate. Qed.

Lemma timer_firing_not_suppressed_witness :
  Running heatup johnDoe (refs (react sampleProps TimerFires startedWorld))
  /\ intervalRef (refs (react sampleProps TimerFires startedWorld)) <> None
  /\ List.length
       (inflight (react sampleProps TimerFires
                    (react sampleProps TimerFires startedWorld))) = 2%nat.
Proof.
  assert (Hrun : Running heatup johnDoe
                   (refs (react sampleProps TimerFires startedWorld)))
    by (repeat split).
  assert (Harmed : intervalRef (refs (react sampleProps TimerFires startedWorld))
                   <> None)
    by (vm_compute; discriminate).
  split; [exact Hrun|]. split; [exact Harmed|].
  rewrite (timer_firing_not_suppressed sampleProps heatup johnDoe
             (react sampleProps TimerFires startedWorld) Hrun Harmed).
  reflexivity.
Defined.

(** ** The model loaders *)

Lemma truthy_nonempty (s : string) : Js.truthy s = true -> s <> ""%string.
Proof. destruct s; [discriminate | intros _; discriminate]. Qed.

(** The Python bridge: every failure ends in the error-shaped object.  Its
    message is empty in one case only: the reply carries a truthy error
    field that is not a string and whose string form is empty. *)
Lemma python_predict_failure (parseJSON : string -> option ModelLoader.Json)
  (inputData : ModelLoader.PredictionInput) (run : ModelLoader.PythonRun) :
  ModelLoader.Fails parseJSON inputData run ->
  exists message,
    ModelLoader.predict parseJSON inputData run
    = Resolves (ModelLoader.JObject
        {| ModelLoader.risk_score := Some 0;
           ModelLoader.predicted_class := Some "error"%string;
           ModelLoader.confidence := Some 0;
           ModelLoader.error := Some (ModelLoader.ErrString message) |})
    /\ (message <> ""%string
        \/ exists outputData errorData o,
             run = ModelLoader.Closed (Some 0%Z) outputData errorData
             /\ parseJSON outputData = Some (ModelLoader.JObject o)
             /\ ModelLoader.error o = Some (ModelLoader.ErrOther true "")).
Proof.
  intro Hf. unfold ModelLoader.predict, ModelLoader.predictBody.
  destruct Hf as [i run Ht | i run Hh | i m | i code out err Hcode
                 | i out err Hparse | i | i out err Hparse
                 | i out err o e Hparse He Htruthy].
  - rewrite Ht. eexists; split; [reflexivity|]. left. discriminate.
  - rewrite Hh. destruct (ModelLoader.Temperature i);
      (eexists; split; [reflexivity|]); left; discriminate.
  - destruct (ModelLoader.Temperature i), (ModelLoader.Humidity i);
      (eexists; split; [reflexivity|]); left; discriminate.
  - assert (Hrej : ModelLoader.callPythonScript parseJSON
                     (ModelLoader.Closed code out err)
                   = Rejects (ErrorObject
                       ("Python script exited with code "
                        ++ ModelLoader.showCode code ++ ": " ++ err)%string)).
    { destruct code as [[|p|p]|]; try reflexivity. now contradiction Hcode. }
    rewrite Hrej.
    destruct (ModelLoader.Temperature i), (ModelLoader.Humidity i);
      (eexists; split; [reflexivity|]); left; discriminate.
  - cbn [ModelLoader.callPythonScript]. rewrite Hparse.
    destruct (ModelLoader.Temperature i), (ModelLoader.Humidity i);
      (eexists; split; [reflexivity|]); left; discriminate.
  - destruct (ModelLoader.Temperature i), (ModelLoader.Humidity i);
      (eexists; split; [reflexivity|]); left; discriminate.
  - cbn [ModelLoader.callPythonScript]. rewrite Hparse.
    destruct (ModelLoader.Temperature i), (ModelLoader.Humidity i);
      (eexists; split; [reflexivity|]); left; discriminate.
  - cbn [ModelLoader.callPythonScript]. rewrite Hparse, He, Htruthy.
    destruct (ModelLoader.Temperature i), (ModelLoader.Humidity i);
      (eexists; split; [reflexivity|]); try (left; discriminate).
    destruct e as [msg | truthy shown]; cbn [ModelLoader.shownField] in *.
    + left. now apply truthy_nonempty.
    + cbn [ModelLoader.truthyField] in Htruthy. subst truthy.
      destruct shown as [|c rest]; [|left; discriminate].
      right. exists out, err, o. auto.
Qed.

(** The Python bridge: a reply whose error field is absent or falsy is not
    a failure; it is handed back as it came. *)
Lemma python_predict_passes (parseJSON : string -> option ModelLoader.Json)
  (inputData : ModelLoader.PredictionInput) (T H : Q)
  (outputData errorData : string) (o : ModelLoader.ResultObject) :
  ModelLoader.Temperature inputData = Some T ->
  ModelLoader.Humidity inputData = Some H ->
  parseJSON outputData = Some (ModelLoader.JObject o) ->
  (ModelLoader.error o = None
   \/ exists e, ModelLoader.error o = Some e
                /\ ModelLoader.truthyField e = false) ->
  ModelLoader.predict parseJSON inputData
    (ModelLoader.Closed (Some 0%Z) outputData errorData)
  = Resolves (ModelLoader.JObject o).
Proof.
  intros HT HH Hparse Herr.
  unfold ModelLoader.predict, ModelLoader.predictBody.
  rewrite HT, HH. cbn [ModelLoader.callPythonScript]. rewrite Hparse.
  destruct Herr as [-> | (e & -> & ->)]; reflexivity.
Qed.

(** The in-process loader: every failure ends in the error-shaped object. *)
Lemma js_predict_failure (readable : JSModelLoader.ModelFile -> bool)
  (components : option JSModelLoader.ModelComponents)
  (inputData : JSModelLoader.PredictionInput) :
  JSModelLoader.Fails readable components inputData ->
  exists message,
    message <> ""%string
    /\ fst (JSModelLoader.predict readable components inputData)
       = Resolves
           {| JSModelLoader.risk_score := 0;
              JSModelLoader.predicted_class := Some "error"%string;
              JSModelLoader.confidence := 0;
              JSModelLoader.error := Some message |}.
Proof.
  intro Hf. unfold JSModelLoader.predict, JSModelLoader.predictBody.
  destruct Hf as [i Hload | c i Ht | c i Hh].
  - rewrite Hload. eexists; split; [|reflexivity]. discriminate.
  - destruct c as [c|]; [|destruct (JSModelLoader.loadModel readable)];
      rewrite ?Ht; (eexists; split; [|reflexivity]); discriminate.
  - destruct c as [c|]; [|destruct (JSModelLoader.loadModel readable)];
      rewrite ?Hh; destruct (JSModelLoader.Temperature i);
      (eexists; split; [|reflexivity]); discriminate.
Qed.

(** C10, amended.  Neither loader's [predict] ever rejects: for every
    input, every way the Python process can end and every state of the
    model files, the promise resolves.  On an internal failure (Temperature
    or Humidity missing, spawn failure, non-zero exit, unparseable output,
    a [null] reply, timeout, a truthy error field in the reply; for the
    in-process loader, model files that do not load) it resolves with risk
    score 0, class "error", confidence 0 and an error field holding the
    message.  The message is non-empty, except when the error field of the
    reply is a truthy value that is not a string and whose string form is
    empty.  A reply whose error field is falsy, the empty string for one,
    is not a failure: [predict] resolves with the reply as it came. *)
Theorem predict_never_rejects :
  (forall parseJSON inputData run,
     (exists v, ModelLoader.predict parseJSON inputData run = Resolves v)
     /\ (ModelLoader.Fails parseJSON inputData run ->
         exists message,
           ModelLoader.predict parseJSON inputData run
           = Resolves (ModelLoader.JObject
               {| ModelLoader.risk_score := Some 0;
                  ModelLoader.predicted_class := Some "error"%string;
                  ModelLoader.confidence := Some 0;
                  ModelLoader.error := Some (ModelLoader.ErrString message) |})
           /\ (message <> ""%string
               \/ exists outputData errorData o,
                    run = ModelLoader.Closed (Some 0%Z) outputData errorData
                    /\ parseJSON outputData = Some (ModelLoader.JObject o)
                    /\ ModelLoader.error o = Some (ModelLoader.ErrOther true "")))
     /\ (forall T H outputData errorData o e,
           ModelLoader.Temperature inputData = Some T ->
           ModelLoader.Humidity inputData = Some H ->
           run = ModelLoader.Closed (Some 0%Z) outputData errorData ->
           parseJSON outputData = Some (ModelLoader.JObject o) ->
           ModelLoader.error o = Some e ->
           ModelLoader.truthyField e = false ->
           ModelLoader.predict parseJSON inputData run
           = Resolves (ModelLoader.JObject o)))
  /\ (forall readable components inputData,
        (exists v, fst (JSModelLoader.predict readable components inputData)
                   = Resolves v)
        /\ (JSModelLoader.Fails readable components inputData ->
            exists message,
              message <> ""%string
              /\ fst (JSModelLoader.predict readable components inputData)
                 = Resolves
                     {| JSModelLoader.risk_score := 0;
                        JSModelLoader.predicted_class := Some "error"%string;
                        JSModelLoader.confidence := 0;
                        JSModelLoader.error := Some message |})).
Proof.
  split.
  - intros parseJSON inputData run. split; [|split].
    + unfold ModelLoader.predict.
      destruct (ModelLoader.predictBody parseJSON inputData run);
        eexists; reflexivity.
    + apply python_predict_failure.
    + intros T H outputData errorData o e HT HH -> Hparse He Hfalsy.
      apply (python_predict_passes parseJSON inputData T H); try assumption.
      right. eauto.
  - intros readable components inputData. split.
    + unfold JSModelLoader.predict.
      destruct (JSModelLoader.predictBody readable components inputData)
        as [[result | e] c]; eexists; reflexivity.
    + apply js_predict_failure.
Qed.

Lemma predict_never_rejects_witness :
  ModelLoader.Fails sampleParse warmInput ModelLoader.TimedOut
  /\ (exists message,
        ModelLoader.predict sampleParse warmInput ModelLoader.TimedOut
        = Resolves (ModelLoader.JObject
            {| ModelLoader.risk_score := Some 0;
               ModelLoader.predicted_class := Some "error"%string;
               ModelLoader.confidence := Some 0;
               ModelLoader.error := Some (ModelLoader.ErrString message) |})
        /\ (message <> ""%string
            \/ exists outputData errorData o,
                 ModelLoader.TimedOut
                 = ModelLoader.Closed (Some 0%Z) outputData errorData
                 /\ sampleParse outputData = Some (ModelLoader.JObject o)
                 /\ ModelLoader.error o = Some (ModelLoader.ErrOther true "")))
  /\ ModelLoader.truthyField (ModelLoader.ErrString "") = false
  /\ (exists o,
        sampleParse "blank" = Some (ModelLoader.JObject o)
        /\ ModelLoader.predict sampleParse warmInput
             (ModelLoader.Closed (Some 0%Z) "blank" "")
           = Resolves (ModelLoader.JObject o))
  /\ JSModelLoader.Fails scalerMissing None hotInput
  /\ (exists message,
        message <> ""%string
        /\ fst (JSModelLoader.predict scalerMissing None hotInput)
           = Resolves
               {| JSModelLoader.risk_score := 0;
                  JSModelLoader.predicted_class := Some "error"%string;
                  JSModelLoader.confidence := 0;
                  JSModelLoader.error := Some message |}).
Proof.
  assert (H1 : ModelLoader.Fails sampleParse warmInput ModelLoader.TimedOut)
    by constructor.
  assert (H2 : JSModelLoader.Fails scalerMissing None hotInput)
    by (constructor; reflexivity).
  assert (H3 : ModelLoader.truthyField (ModelLoader.ErrString "") = false)
    by reflexivity.
  split; [exact H1|]. split.
  - exact (proj1 (proj2 (proj1 predict_never_rejects sampleParse warmInput
                           ModelLoader.TimedOut)) H1).
  - split; [exact H3|]. split.
    + eexists. split; [reflexivity|].
      exact (proj2 (proj2 (proj1 predict_never_rejects sampleParse warmInput
                             (ModelLoader.Closed (Some 0%Z) "blank" "")))
               30.0 60.0 "blank"%string ""%string _ _
               eq_refl eq_refl eq_refl eq_refl eq_refl H3).
    + split; [exact H2|].
      exact (proj2 (proj2 predict_never_rejects scalerMissing None hotInput) H2).
Defined.

(** C10, as stated, fails on an error field that is falsy.  The script
    exits with 0 and prints a reply whose error field is the empty string:
    the reply has an error field, yet [predict] resolves with that reply as
    it came, with no risk score, no class "error" and an empty message.
    And when the error field is the empty array, which is truthy, [predict]
    does resolve with risk score 0 and class "error", but the message it
    carries is empty. *)
Lemma falsy_error_reply_counterexample :
  (exists o,
     sampleParse "blank" = Some (ModelLoader.JObject o)
     /\ ModelLoader.error o = Some (ModelLoader.ErrString "")
     /\ ModelLoader.predict sampleParse warmInput
          (ModelLoader.Closed (Some 0%Z) "blank" "")
        = Resolves (ModelLoader.JObject o)
     /\ ModelLoader.risk_score o <> Some 0
     /\ ModelLoader.predicted_class o <> Some "error"%string)
  /\ (exists o,
        sampleParse "array" = Some (ModelLoader.JObject o)
        /\ ModelLoader.error o = Some (ModelLoader.ErrOther true "")
        /\ ModelLoader.predict sampleParse warmInput
             (ModelLoader.Closed (Some 0%Z) "array" "")
           = Resolves (ModelLoader.JObject
               {| ModelLoader.risk_score := Some 0;
                  ModelLoader.predicted_class := Some "error"%string;
                  ModelLoader.confidence := Some 0;
                  ModelLoader.error := Some (ModelLoader.ErrString "") |})).
Proof.
  split; eexists; repeat split; try reflexivity; cbn; discriminate.
Qed.

(** What the loaders answer on the sample inputs. *)
Example python_predict_samples :
  ModelLoader.predict sampleParse warmInput
    (ModelLoader.Closed (Some 0%Z) "warm" "")
  = Resolves (ModelLoader.JObject warmReply)
  /\ ModelLoader.predict sampleParse warmInput
       (ModelLoader.Closed (Some 0%Z) "failed" "")
     = Resolves (ModelLoader.JObject
                   (ModelLoader.errorResult (ErrorObject "Model not loaded")))
  /\ ModelLoader.predict sampleParse warmInput
       (ModelLoader.Closed (Some 1%Z) "" "Traceback")
     = Resolves (ModelLoader.JObject
                   (ModelLoader.errorResult
                      (ErrorObject "Python script exited with code 1: Traceback")))
  /\ ModelLoader.predict sampleParse noTemperatureInput
       (ModelLoader.Closed (Some 0%Z) "warm" "")
     = Resolves (ModelLoader.JObject
                   (ModelLoader.errorResult
                      (ErrorObject "Temperature and Humidity are required fields"))).
Proof. repeat split. Qed.

(** A reply whose error field is the empty string is falsy in
    [if (result.error)]: it is handed back as it came. *)
Example python_predict_blank_error :
  ModelLoader.predict sampleParse warmInput
    (ModelLoader.Closed (Some 0%Z) "blank" "")
  = Resolves (ModelLoader.JObject
                {| ModelLoader.risk_score := None;
                   ModelLoader.predicted_class := None;
                   ModelLoader.confidence := None;
                   ModelLoader.error := Some (ModelLoader.ErrString "") |}).
Proof. reflexivity. Qed.

Example js_predict_samples :
  (exists result,
     fst (JSModelLoader.predict allReadable None hotInput) = Resolves result
     /\ JSModelLoader.predicted_class result = Some "hot"%string
     /\ JSModelLoader.risk_score result == 0.9585
     /\ JSModelLoader.confidence result == 0.6
     /\ JSModelLoader.error result = None)
  /\ fst (JSModelLoader.predict scalerMissing None hotInput)
     = Resolves (JSModelLoader.errorResult
                   (ErrorObject "Failed to load model components"))
  /\ fst (JSModelLoader.predict allReadable None noHumidityInput)
     = Resolves (JSModelLoader.errorResult
                   (ErrorObject "Temperature and Humidity are required fields")).
Proof.
  split; [|split; reflexivity].
  eexists. split; [reflexivity|]. vm_compute. repeat split.
Qed.

(** * Further properties of the hook *)

(** ** What every reachable state satisfies *)

Lemma liveTimers_app (l l' : list Event) :
  liveTimers (l ++ l') = fold_left liveAfter l' (liveTimers l).
Proof. unfold liveTimers. apply fold_left_app. Qed.

Lemma held_cleared (o : option Timer) :
  fold_left liveAfter
    (match o with Some h => [ClearInterval h] | None => [] end) (held o) = [].
Proof.
  destruct o as [h|]; [|reflexivity].
  cbn. now rewrite Pos.eqb_refl.
Qed.

Lemma consistent_mounted (workers : list Worker) : Consistent (mounted workers).
Proof.
  constructor; cbn; try reflexivity; try discriminate; try congruence;
    unfold MAX_SIMULATION_STEPS; lia.
Qed.

(** A teardown, possibly after events that touch no timer and after changes
    to refs other than the handle, ends in a consistent state. *)
Lemma consistent_after_stop (w : World) (r1 : Refs) (published : list Event)
  (reason : option string) :
  liveTimers (trace w ++ published) = held (intervalRef r1) ->
  Consistent
    (mkWorld (fst (stopSimulation reason r1)) (inflight w)
       (trace w ++ published ++ snd (stopSimulation reason r1))).
Proof.
  intro Hlive.
  rewrite stopSimulation_refs, stopSimulation_events.
  constructor; cbn [refs trace intervalRef isActiveRef simulationTypeRef
    stepCountRef errorCountRef consecutiveErrorsRef currentWorkerValuesRef
    simulationState isActive type currentValues held];
    try reflexivity; try discriminate; try congruence;
    try (unfold MAX_SIMULATION_STEPS; lia).
  rewrite app_assoc, liveTimers_app, Hlive. cbn [fold_left liveAfter].
  apply held_cleared.
Qed.

Lemma consistent_stop (reason : option string) (w : World) :
  Consistent w -> Consistent (perform (stopSimulation reason) w).
Proof.
  intro H. unfold perform.
  destruct (stopSimulation reason (refs w)) as [r ev] eqn:E.
  pose proof (consistent_after_stop w (refs w) [] reason) as C.
  rewrite E in C. cbn [fst snd app] in C. apply C.
  rewrite app_nil_r. apply H.
Qed.

Lemma consistent_start (P : Props) (mode : SimulationType) (h : Timer) (w : World) :
  Consistent w -> Consistent (perform (startSimulation mode P h) w).
Proof.
  intro H. unfold perform, startSimulation.
  destruct (findTargetWorker (refs w)) as [target|].
  - pose proof (stopSimulation_events (Some "Starting new simulation"%string)
                  (refs w)) as Hev.
    destruct (stopSimulation (Some "Starting new simulation"%string) (refs w))
      as [r1 ev]. cbn [snd] in Hev. subst ev.
    constructor; cbn [refs trace intervalRef isActiveRef simulationTypeRef
      stepCountRef errorCountRef consecutiveErrorsRef currentWorkerValuesRef
      simulationState isActive type currentValues held];
      try reflexivity; try (unfold MAX_SIMULATION_STEPS; lia).
    + rewrite liveTimers_app, fold_left_app. cbn [fold_left liveAfter].
      rewrite (timers_held w H), held_cleared. reflexivity.
    + intros _. eauto.
    + congruence.
  - destruct w as [r infl tr]. cbn [refs inflight trace] in *.
    now rewrite app_nil_r.
Qed.

Lemma consistent_reset (generate : string -> string -> string -> Worker)
  (w : World) :
  Consistent w -> Consistent (perform (resetToBaseline generate) w).
Proof.
  intro H. unfold perform, resetToBaseline.
  destruct (findTargetWorker (refs w)) as [target|].
  - pose proof (consistent_stop (Some "Resetting to baseline"%string) w H) as C.
    unfold perform in C.
    destruct (stopSimulation (Some "Resetting to baseline"%string) (refs w))
      as [r1 ev].
    destruct C as [C1 C2 C3 C4 C5 C6 C7 C8 C9 C10].
    constructor; cbn [refs trace] in *; try assumption.
    rewrite app_assoc, liveTimers_app. cbn [fold_left liveAfter]. exact C1.
  - destruct w as [r infl tr]. cbn [refs inflight trace] in *.
    now rewrite app_nil_r.
Qed.

Lemma consistent_render (workers : list Worker) (w : World) :
  Consistent w ->
  Consistent (mkWorld (render workers (refs w)) (inflight w) (trace w)).
Proof. intros [C1 C2 C3 C4 C5 C6 C7 C8 C9 C10]. constructor; assumption. Qed.

Lemma consistent_unmount (w : World) :
  Consistent w -> Consistent (perform unmount w).
Proof.
  intros [C1 C2 C3 C4 C5 C6 C7 C8 C9 C10].
  unfold perform, unmount, clearSimulationInterval.
  destruct (intervalRef (refs w)) as [h|] eqn:Eh.
  - constructor; cbn [refs trace intervalRef isActiveRef simulationTypeRef
      stepCountRef errorCountRef consecutiveErrorsRef currentWorkerValuesRef
      simulationState held]; try assumption; try congruence.
    rewrite liveTimers_app, C1. cbn. now rewrite Pos.eqb_refl.
  - destruct w as [r infl tr]. cbn [refs inflight trace] in *.
    rewrite app_nil_r. constructor; cbn [refs trace]; try assumption;
      rewrite Eh; assumption.
Qed.

Lemma over_overP {A : Type} (x : A) (a b : option A) :
  over x (overP a b) = over (over x a) b.
Proof. now destruct b. Qed.

(** Spreading two objects one after the other is spreading their spread. *)
Lemma spread_spreadPartial (w : Worker) (u v : PartialWorker) :
  spread w (spreadPartial u v) = spread (spread w u) v.
Proof.
  unfold spread, spreadPartial. cbn. now rewrite !over_overP.
Qed.

Lemma shouldContinue_true_below (w : Worker) (mode : SimulationType) (n : nat) :
  shouldContinueSimulation w mode n = true -> (n < MAX_SIMULATION_STEPS)%nat.
Proof.
  unfold shouldContinueSimulation.
  destruct (MAX_SIMULATION_STEPS <=? n)%nat eqn:E; [discriminate|].
  intros _. now apply Nat.leb_gt.
Qed.

Section Reachability.

Variable P : Props.

Lemma consistent_fire (w : World) :
  Consistent w -> Consistent (react P TimerFires w).
Proof.
  intro C. unfold react.
  destruct (intervalRef (refs w)) as [h|] eqn:Eh; [|exact C].
  assert (Ha : isActiveRef (refs w) = true)
    by (apply (armed_active w C); congruence).
  destruct (active_cached w C Ha) as (mode & c & Ht & Hc).
  rewrite (begin_running mode c (refs w)); [|now repeat split].
  destruct C as [C1 C2 C3 C4 C5 C6 C7 C8 C9 C10].
  constructor; cbn [refs trace]; try assumption.
  rewrite liveTimers_app. exact C1.
Qed.

Lemma published_no_timer (live : list Timer) (message : string) (n : nat)
  (i : string) (u : PartialWorker) (e : Event) :
  fold_left liveAfter
    (ErrorLogged message n :: WorkerUpdate i u ::
     (if onError P then [e] else [])) live
  = match e with
    | SetInterval _ _ | ClearInterval _ =>
        fold_left liveAfter (if onError P then [e] else []) live
    | _ => live
    end.
Proof. destruct e, (onError P); reflexivity. Qed.

(** The two blocks after the [await], written out branch by branch. *)
Lemma resume_fulfilled_shape (k : Pending) (prediction : PredictionResponse)
  (r : Refs) :
  let r1 := afterSuccess k prediction r in
  let candidate := advance (pendingType k) (pendingWorker k) in
  let pub :=
    [WorkerUpdate (id (pendingWorker k))
       (spreadPartial
          (calculateNextSimulationValues (pendingWorker k) (pendingType k))
          (riskAnnotation prediction))] in
  performSimulationStep_resume P k (Fulfilled prediction) r
  = if shouldContinueSimulation candidate (pendingType k) (stepCountRef r + 1)
    then (r1, pub)
    else (fst (stopSimulation (Some "Simulation completed successfully"%string) r1),
          pub ++ snd (stopSimulation
                        (Some "Simulation completed successfully"%string) r1)).
Proof.
  cbv zeta. unfold performSimulationStep_resume, advance.
  change (stepCountRef (afterSuccess k prediction r)) with (stepCountRef r + 1)%nat.
  destruct (shouldContinueSimulation _ _ _); cbn [negb]; [reflexivity|].
  now destruct (stopSimulation _ _).
Qed.

Lemma resume_rejected_shape (k : Pending) (message : string) (r : Refs) :
  let r1 := afterFailure k r in
  let pub :=
    ErrorLogged message (stepCountRef r)
    :: WorkerUpdate (id (pendingWorker k))
         (calculateNextSimulationValues (pendingWorker k) (pendingType k))
    :: (if onError P
        then [OnError message (stepCountRef r) (pendingType k)
                (errorCountRef r + 1) (consecutiveErrorsRef r + 1)]
        else []) in
  performSimulationStep_resume P k (Rejected message) r
  = if (3 <=? consecutiveErrorsRef r + 1)%nat then
      (fst (stopSimulation (Some "Too many consecutive errors"%string) r1),
       pub ++ snd (stopSimulation (Some "Too many consecutive errors"%string) r1))
    else if (10 <=? errorCountRef r + 1)%nat then
      (fst (stopSimulation (Some "Too many total errors"%string) r1),
       pub ++ snd (stopSimulation (Some "Too many total errors"%string) r1))
    else if (MAX_SIMULATION_STEPS <=? stepCountRef r + 1)%nat then
      (fst (stopSimulation (Some "Maximum steps reached"%string) (bumpStep r1)),
       pub ++ snd (stopSimulation (Some "Maximum steps reached"%string)
                     (bumpStep r1)))
    else (bumpStep r1, pub).
Proof.
  cbv zeta. unfold performSimulationStep_resume.
  change (consecutiveErrorsRef (afterFailure k r))
    with (consecutiveErrorsRef r + 1)%nat.
  change (errorCountRef (afterFailure k r)) with (errorCountRef r + 1)%nat.
  change (stepCountRef (afterFailure k r)) with (stepCountRef r).
  change (stepCountRef (bumpStep (afterFailure k r)))
    with (stepCountRef r + 1)%nat.
  destruct (3 <=? _)%nat; [now destruct (stopSimulation _ _)|].
  destruct (10 <=? _)%nat; [now destruct (stopSimulation _ _)|].
  destruct (MAX_SIMULATION_STEPS <=? _)%nat; [now destruct (stopSimulation _ _)|].
  reflexivity.
Qed.

Lemma consistent_resume (w : World) (k : Pending) (o : OracleOutcome) :
  Consistent w ->
  Consistent
    (mkWorld (fst (performSimulationStep_resume P k o (refs w))) (inflight w)
       (trace w ++ snd (performSimulationStep_resume P k o (refs w)))).
Proof.
  intro C. pose proof C as [C1 C2 C3 C4 C5 C6 C7 C8 C9 C10].
  destruct o as [prediction | message].
  - rewrite resume_fulfilled_shape.
    destruct (shouldContinueSimulation _ _ _) eqn:Es; cbn [fst snd].
    + constructor; cbn [refs trace afterSuccess intervalRef isActiveRef
        simulationTypeRef stepCountRef errorCountRef consecutiveErrorsRef
        currentWorkerValuesRef simulationState isActive type currentValues];
        try assumption; try lia.
      * rewrite liveTimers_app. exact C1.
      * intro Ha. destruct (C5 Ha) as (mode & c & Ht & _). eauto.
      * intros c Hc. injection Hc as <-. now rewrite spread_spreadPartial.
      * apply shouldContinue_true_below in Es. exact Es.
    + apply consistent_after_stop. rewrite liveTimers_app. exact C1.
  - rewrite resume_rejected_shape.
    set (pub := ErrorLogged message (stepCountRef (refs w)) :: _).
    assert (Hpub : liveTimers (trace w ++ pub) = held (intervalRef (refs w))).
    { rewrite liveTimers_app. subst pub. rewrite published_no_timer. exact C1. }
    destruct (3 <=? _)%nat eqn:E3; cbn [fst snd];
      [now apply consistent_after_stop|].
    destruct (10 <=? _)%nat eqn:E10; cbn [fst snd];
      [now apply consistent_after_stop|].
    destruct (MAX_SIMULATION_STEPS <=? _)%nat eqn:E100; cbn [fst snd];
      [now apply consistent_after_stop|].
    apply Nat.leb_gt in E3, E10, E100.
    constructor; cbn [refs trace bumpStep afterFailure intervalRef isActiveRef
      simulationTypeRef stepCountRef errorCountRef consecutiveErrorsRef
      currentWorkerValuesRef simulationState isActive type currentValues];
      try assumption; try lia.
    + intro Ha. destruct (C5 Ha) as (mode & c & Ht & _). eauto.
    + intros c Hc. injection Hc as <-. reflexivity.
Qed.

Lemma consistent_settle (w : World) (i : nat) (o : OracleOutcome) :
  Consistent w -> Consistent (react P (OracleSettles i o) w).
Proof.
  intro C. unfold react.
  destruct (nth_error (inflight w) i) as [k|]; [|exact C].
  pose proof (consistent_resume w k o C) as R.
  destruct (performSimulationStep_resume P k o (refs w)) as [r ev].
  destruct R as [R1 R2 R3 R4 R5 R6 R7 R8 R9 R10].
  constructor; assumption.
Qed.

Lemma consistent_act (a : Action) (w : World) :
  Consistent w -> Consistent (act P a w).
Proof.
  intro C. destruct a; cbn [act].
  - now apply consistent_start.
  - now apply consistent_start.
  - now apply consistent_stop.
  - now apply consistent_reset.
  - now apply consistent_render.
  - now apply consistent_unmount.
  - now apply consistent_fire.
  - now apply consistent_settle.
Qed.

Lemma consistent_actAll (l : list Action) (w : World) :
  Consistent w -> Consistent (actAll P l w).
Proof.
  unfold actAll. revert w.
  induction l as [|a l IH]; intros w C; [exact C|].
  cbn [fold_left]. apply IH. now apply consistent_act.
Qed.

End Reachability.

(** X1. Whatever is done to a mounted hook (starts, stops, resets, renders,
    unmount, timer firings, oracle answers in any order), the interval
    handles set and not yet cleared are exactly the one handle
    [intervalRef] holds: at most one timer is alive, and none leaks. *)
Theorem one_live_timer (P : Props) (workers : list Worker) (actions : list Action) :
  let w := actAll P actions (mounted workers) in
  liveTimers (trace w) = held (intervalRef (refs w))
  /\ (List.length (liveTimers (trace w)) <= 1)%nat.
Proof.
  cbv zeta.
  pose proof (consistent_actAll P actions _ (consistent_mounted workers)) as C.
  split; [apply C|].
  rewrite (timers_held _ C). destruct (intervalRef _); cbn; lia.
Qed.

(** X2. In every reachable state the step counter is below 100, the
    consecutive-error counter below 3, the total-error counter below 10, and
    the consecutive count never exceeds the total. *)
Theorem counters_stay_bounded (P : Props) (workers : list Worker)
  (actions : list Action) :
  let r := refs (actAll P actions (mounted workers)) in
  (stepCountRef r < MAX_SIMULATION_STEPS)%nat
  /\ (consecutiveErrorsRef r < 3)%nat
  /\ (errorCountRef r < 10)%nat
  /\ (consecutiveErrorsRef r <= errorCountRef r)%nat.
Proof.
  cbv zeta.
  pose proof (consistent_actAll P actions _ (consistent_mounted workers)) as C.
  repeat split; apply C.
Qed.

(** X3. The displayed state never disagrees with the refs: in every
    reachable state [simulationState.isActive] and [simulationState.type]
    equal [isActiveRef] and [simulationTypeRef], and whenever a worker is
    cached, [simulationState.currentValues] is that worker. *)
Theorem display_follows_refs (P : Props) (workers : list Worker)
  (actions : list Action) :
  let r := refs (actAll P actions (mounted workers)) in
  isActive (simulationState r) = isActiveRef r
  /\ type (simulationState r) = simulationTypeRef r
  /\ (forall c, currentWorkerValuesRef r = Some c ->
                currentValues (simulationState r) = Some c).
Proof.
  cbv zeta.
  pose proof (consistent_actAll P actions _ (consistent_mounted workers)) as C.
  repeat split; apply C.
Qed.

(** X4. In a reachable state with an armed timer the two guards at the head
    of [performSimulationStep] never trigger: the loop is active, has a mode
    and a cached worker, so a firing changes no ref, stops nothing, and
    sends exactly one oracle request, for the candidate computed from the
    cached worker. *)
Theorem armed_firing_always_requests (P : Props) (workers : list Worker)
  (actions : list Action) :
  let w := actAll P actions (mounted workers) in
  intervalRef (refs w) <> None ->
  exists mode c,
    Running mode c (refs w)
    /\ act P DoFire w
       = mkWorld (refs w) (inflight w ++ [mkPending c mode])
           (trace w ++ [OracleCall (advance mode c)]).
Proof.
  cbv zeta. intro Harmed.
  pose proof (consistent_actAll P actions _ (consistent_mounted workers)) as C.
  pose proof (armed_active _ C Harmed) as Ha.
  destruct (active_cached _ C Ha) as (mode & c & Ht & Hc).
  exists mode, c.
  assert (Hrun : Running mode c (refs (actAll P actions (mounted workers))))
    by now repeat split.
  split; [exact Hrun|].
  cbn [act]. unfold react.
  destruct (intervalRef _) as [h|]; [|congruence].
  now rewrite (begin_running mode c _ Hrun).
Qed.

Lemma armed_firing_always_requests_witness :
  intervalRef (refs (actAll sampleProps [DoStartHeatUp 1%positive]
                       (mounted [johnDoe]))) <> None
  /\ exists mode c,
       Running mode c
         (refs (actAll sampleProps [DoStartHeatUp 1%positive] (mounted [johnDoe])))
       /\ act sampleProps DoFire
            (actAll sampleProps [DoStartHeatUp 1%positive] (mounted [johnDoe]))
          = mkWorld
              (refs (actAll sampleProps [DoStartHeatUp 1%positive]
                       (mounted [johnDoe])))
              (inflight (actAll sampleProps [DoStartHeatUp 1%positive]
                           (mounted [johnDoe])) ++ [mkPending c mode])
              (trace (actAll sampleProps [DoStartHeatUp 1%positive]
                        (mounted [johnDoe])) ++ [OracleCall (advance mode c)]).
Proof.
  assert (H : intervalRef (refs (actAll sampleProps [DoStartHeatUp 1%positive]
                                   (mounted [johnDoe]))) <> None)
    by (vm_compute; discriminate).
  split; [exact H|].
  exact (armed_firing_always_requests sampleProps [johnDoe]
           [DoStartHeatUp 1%positive] H).
Defined.

(** ** Ticks one after the other *)

Lemma oracleCalls_app (l l' : list Event) :
  oracleCalls (l ++ l') = (oracleCalls l ++ oracleCalls l')%list.
Proof.
  induction l as [|e l IH]; [reflexivity|].
  destruct e; cbn; now rewrite ?IH.
Qed.

Lemma workerUpdates_app (l l' : list Event) :
  workerUpdates (l ++ l') = (workerUpdates l ++ workerUpdates l')%list.
Proof.
  induction l as [|e l IH]; [reflexivity|].
  destruct e; cbn; now rewrite ?IH.
Qed.

Lemma stop_sends_nothing (reason : option string) (r : Refs) :
  oracleCalls (snd (stopSimulation reason r)) = []
  /\ workerUpdates (snd (stopSimulation reason r)) = [].
Proof.
  rewrite stopSimulation_events. destruct (intervalRef r); split; reflexivity.
Qed.

Lemma runTicks_cons (P : Props) (o : OracleOutcome) (rest : list OracleOutcome)
  (r : Refs) :
  runTicks P (o :: rest) r
  = (fst (runTicks P rest (fst (performSimulationStep P o r))),
     snd (performSimulationStep P o r)
     ++ snd (runTicks P rest (fst (performSimulationStep P o r)))).
Proof.
  cbn [runTicks].
  destruct (performSimulationStep P o r) as [r1 ev]. cbn [fst snd].
  now destruct (runTicks P rest r1).
Qed.

Section Sequential.

Variable P : Props.

(** A tick on an idle loop: nothing is requested, nothing is published. *)
Lemma step_idle (o : OracleOutcome) (r : Refs) :
  isActiveRef r = false ->
  let out := performSimulationStep P o r in
  Idle (fst out)
  /\ oracleCalls (snd out) = []
  /\ workerUpdates (snd out) = []
  /\ stopReasons (snd out) = ["Simulation no longer active"%string].
Proof.
  intro Ha. cbv zeta.
  unfold performSimulationStep, performSimulationStep_begin. rewrite Ha.
  pose proof (stopSimulation_Idle (Some "Simulation no longer active"%string) r).
  pose proof (stop_sends_nothing (Some "Simulation no longer active"%string) r)
    as [? ?].
  pose proof (stopSimulation_stopReasons
                (Some "Simulation no longer active"%string) r).
  destruct (stopSimulation (Some "Simulation no longer active"%string) r).
  cbn [fst snd] in *. auto.
Qed.

(** A tick on a running loop sends one oracle request and one worker
    update, and either stops the loop or leaves it running one step
    further on the candidate's environment. *)
Lemma step_running_outcome (mode : SimulationType) (w : Worker)
  (o : OracleOutcome) (r : Refs) :
  Running mode w r ->
  let out := performSimulationStep P o r in
  oracleCalls (snd out) = [advance mode w]
  /\ List.length (workerUpdates (snd out)) = 1%nat
  /\ ((Idle (fst out)
       /\ exists reason,
            stopReasons (snd out) = [reason]
            /\ (forall p, o = Fulfilled p ->
                  reason = "Simulation completed successfully"%string))
      \/ (stopReasons (snd out) = []
          /\ (stepCountRef (fst out) = stepCountRef r + 1)%nat
          /\ (stepCountRef r + 1 < MAX_SIMULATION_STEPS)%nat
          /\ (forall p, o = Fulfilled p ->
                shouldContinueSimulation (advance mode w) mode
                  (stepCountRef r + 1) = true)
          /\ exists w',
               Running mode w' (fst out)
               /\ temperature w' = temperature (advance mode w)
               /\ humidity w' = humidity (advance mode w))).
Proof.
  intro Hrun. cbv zeta. rewrite (step_running P mode w o r Hrun).
  cbn [fst snd oracleCalls workerUpdates stopReasons].
  destruct Hrun as (Ha & Ht & Hc).
  destruct o as [prediction | message].
  - rewrite resume_fulfilled_shape. cbn [pendingWorker pendingType].
    destruct (shouldContinueSimulation _ _ _) eqn:Es; cbn [fst snd].
    + repeat split; try reflexivity. right.
      split; [reflexivity|]. split; [reflexivity|].
      split; [now apply shouldContinue_true_below in Es|].
      split; [intros; reflexivity|].
      eexists. split; [|split].
      * repeat split; cbn; first [exact Ha | exact Ht | reflexivity].
      * now rewrite spread_spreadPartial.
      * now rewrite spread_spreadPartial.
    + destruct (stop_sends_nothing
                  (Some "Simulation completed successfully"%string)
                  (afterSuccess (mkPending w mode) prediction r)) as [Ho Hu].
      rewrite oracleCalls_app, workerUpdates_app, stopReasons_app, Ho, Hu.
      rewrite stopSimulation_stopReasons.
      repeat split; try reflexivity. left.
      split; [apply stopSimulation_Idle|].
      eexists. split; [reflexivity | intros; reflexivity].
  - rewrite resume_rejected_shape. cbn [pendingWorker pendingType].
    set (pub := ErrorLogged message (stepCountRef r) :: _).
    assert (Hpo : oracleCalls pub = []) by (subst pub; now destruct (onError P)).
    assert (Hpu : List.length (workerUpdates pub) = 1%nat)
      by (subst pub; now destruct (onError P)).
    assert (Hps : stopReasons pub = []) by (subst pub; now destruct (onError P)).
    assert (Hstop : forall reason r1,
              oracleCalls (pub ++ snd (stopSimulation (Some reason) r1)) = []
              /\ List.length
                   (workerUpdates (pub ++ snd (stopSimulation (Some reason) r1)))
                 = 1%nat
              /\ stopReasons (pub ++ snd (stopSimulation (Some reason) r1))
                 = [reasonOrDefault (Some reason)]).
    { intros reason r1.
      destruct (stop_sends_nothing (Some reason) r1) as [Ho Hu].
      rewrite oracleCalls_app, workerUpdates_app, stopReasons_app.
      rewrite Ho, Hu, Hpo, Hps, stopSimulation_stopReasons.
      repeat split; rewrite ?app_nil_r; auto. }
    destruct (3 <=? _)%nat eqn:E3; cbn [fst snd].
    { destruct (Hstop "Too many consecutive errors"%string
                  (afterFailure (mkPending w mode) r)) as (-> & -> & ->).
      repeat split; try reflexivity. left.
      split; [apply stopSimulation_Idle|].
      eexists. split; [reflexivity | discriminate]. }
    destruct (10 <=? _)%nat eqn:E10; cbn [fst snd].
    { destruct (Hstop "Too many total errors"%string
                  (afterFailure (mkPending w mode) r)) as (-> & -> & ->).
      repeat split; try reflexivity. left.
      split; [apply stopSimulation_Idle|].
      eexists. split; [reflexivity | discriminate]. }
    destruct (MAX_SIMULATION_STEPS <=? _)%nat eqn:E100; cbn [fst snd].
    { destruct (Hstop "Maximum steps reached"%string
                  (bumpStep (afterFailure (mkPending w mode) r)))
        as (-> & -> & ->).
      repeat split; try reflexivity. left.
      split; [apply stopSimulation_Idle|].
      eexists. split; [reflexivity | discriminate]. }
    rewrite Hpo, Hpu, Hps. apply Nat.leb_gt in E100.
    repeat split; try reflexivity. right.
    split; [reflexivity|]. split; [reflexivity|]. split; [exact E100|].
    split; [discriminate|].
    eexists. split; [|split; reflexivity].
    repeat split; cbn; first [exact Ha | exact Ht | reflexivity].
Qed.

End Sequential.

Lemma run_idle (P : Props) (outcomes : list OracleOutcome) (r : Refs) :
  Idle r ->
  Idle (fst (runTicks P outcomes r))
  /\ oracleCalls (snd (runTicks P outcomes r)) = []
  /\ workerUpdates (snd (runTicks P outcomes r)) = [].
Proof.
  revert r. induction outcomes as [|o rest IH]; intros r Hidle.
  - cbn. auto.
  - rewrite runTicks_cons. cbn [fst snd].
    assert (Ha : isActiveRef r = false) by apply Hidle.
    destruct (step_idle P o r Ha) as (Hi & Ho & Hu & _).
    destruct (IH _ Hi) as (Hi' & Ho' & Hu').
    rewrite oracleCalls_app, workerUpdates_app, Ho, Hu, Ho', Hu'. auto.
Qed.

Lemma run_bounded_aux (P : Props) (outcomes : list OracleOutcome) :
  forall (r : Refs) (mode : SimulationType) (w : Worker),
    Running mode w r ->
    (stepCountRef r < MAX_SIMULATION_STEPS)%nat ->
    (List.length (oracleCalls (snd (runTicks P outcomes r)))
     <= MAX_SIMULATION_STEPS - stepCountRef r)%nat
    /\ ((MAX_SIMULATION_STEPS <= stepCountRef r + List.length outcomes)%nat ->
        Idle (fst (runTicks P outcomes r))).
Proof.
  induction outcomes as [|o rest IH]; intros r mode w Hrun Hstep.
  - cbn. split; lia.
  - rewrite runTicks_cons. cbn [fst snd].
    destruct (step_running_outcome P mode w o r Hrun) as (Ho & _ & Hcase).
    rewrite oracleCalls_app, Ho, length_app. cbn [List.length].
    destruct Hcase as [[Hidle _] | (_ & Hs & Hlt & _ & w' & Hrun' & _)].
    + destruct (run_idle P rest _ Hidle) as (Hi & Hoc & _).
      rewrite Hoc. cbn [List.length]. split; [lia | intros _; exact Hi].
    + destruct (IH _ mode w' Hrun') as [Hcalls Hend]; [lia|].
      rewrite Hs in Hcalls, Hend.
      split; [lia | intro H; apply Hend; lia].
Qed.

(** X5. A run cannot go on for ever, whatever the oracle answers: ticks
    taken one after the other from a running loop stop it once the step
    counter has had the chance to reach 100, and between them they send at
    most [100 - stepCount] oracle requests. *)
Theorem run_is_bounded (P : Props) (mode : SimulationType) (w : Worker)
  (r : Refs) (outcomes : list OracleOutcome) :
  Running mode w r ->
  (stepCountRef r < MAX_SIMULATION_STEPS)%nat ->
  (MAX_SIMULATION_STEPS <= stepCountRef r + List.length outcomes)%nat ->
  Idle (fst (runTicks P outcomes r))
  /\ (List.length (oracleCalls (snd (runTicks P outcomes r)))
      <= MAX_SIMULATION_STEPS - stepCountRef r)%nat.
Proof.
  intros Hrun Hstep Hlen.
  destruct (run_bounded_aux P outcomes r mode w Hrun Hstep) as [Hcalls Hend].
  split; [now apply Hend | exact Hcalls].
Qed.

Lemma run_is_bounded_witness :
  Running heatup johnDoe startedHeatUp
  /\ Idle (fst (runTicks sampleProps
                  (List.repeat (Fulfilled samplePrediction) 100) startedHeatUp)).
Proof.
  split; [exact startedHeatUp_running|].
  apply (run_is_bounded sampleProps heatup johnDoe startedHeatUp
           (List.repeat (Fulfilled samplePrediction) 100)
           startedHeatUp_running).
  - vm_compute; lia.
  - vm_compute; lia.
Defined.

(** ** Convergence of the environment *)

Lemma round_near (x : Q) : x - 0.5 <= Js.round x <= x + 0.5.
Proof.
  unfold Js.round.
  pose proof (Qfloor_le (x + 0.5)) as Hle.
  pose proof (Qlt_floor (x + 0.5)) as Hlt.
  rewrite inject_Z_plus in Hlt. change (inject_Z 1) with 1 in Hlt.
  split; lra.
Qed.

Lemma round_ge (a : Z) (x : Q) : inject_Z a <= x -> inject_Z a <= Js.round x.
Proof.
  intro Ha. unfold Js.round. rewrite <- Zle_Qle. rewrite <- (Qfloor_Z a).
  apply Qfloor_resp_le. lra.
Qed.

(** One capped step, rounded to tenths: never above the cap, and at least
    the unrounded step less 0.05, or the cap. *)
Lemma capped_tenths (cap : Z) (c x : Q) :
  c * 10 == inject_Z cap ->
  Js.round (Js.min c x * 10) / 10 <= c
  /\ Qmin c (x - 0.05) <= Js.round (Js.min c x * 10) / 10.
Proof.
  intro Hc.
  pose proof (min_cases c x) as Hm.
  remember (Js.min c x) as m eqn:Em. clear Em.
  assert (Hup : Js.round (m * 10) <= c * 10).
  { rewrite Hc. apply round_le. rewrite <- Hc. destruct Hm as [[? ?] | [? ?]]; lra. }
  pose proof (round_near (m * 10)) as [Hlo _].
  split.
  - apply Qle_shift_div_r; [reflexivity | lra].
  - apply Qle_shift_div_l; [reflexivity|].
    destruct (Q.min_spec c (x - 0.05)) as [[? ->] | [? ->]];
      destruct Hm as [[? Hm] | [? Hm]]; try lra;
      assert (Hfix : c * 10 <= Js.round (m * 10))
        by (rewrite Hc; apply round_ge; rewrite <- Hc; lra);
      lra.
Qed.

(** One floored step, rounded to tenths: never below the floor, and at most
    the unrounded step plus 0.05, or the floor. *)
Lemma floored_tenths (floor : Z) (c x : Q) :
  c * 10 == inject_Z floor ->
  c <= Js.round (Js.max c x * 10) / 10
  /\ Js.round (Js.max c x * 10) / 10 <= Qmax c (x + 0.05).
Proof.
  intro Hc.
  pose proof (max_cases c x) as Hm.
  remember (Js.max c x) as m eqn:Em. clear Em.
  assert (Hdown : c * 10 <= Js.round (m * 10)).
  { rewrite Hc. apply round_ge. rewrite <- Hc. destruct Hm as [[? ?] | [? ?]]; lra. }
  pose proof (round_near (m * 10)) as [_ Hhi].
  split.
  - apply Qle_shift_div_l; [reflexivity | lra].
  - apply Qle_shift_div_r; [reflexivity|].
    destruct (Q.max_spec c (x + 0.05)) as [[? ->] | [? ->]];
      destruct Hm as [[? Hm] | [? Hm]]; try lra;
      assert (Hfix : Js.round (m * 10) <= c * 10)
        by (rewrite Hc; apply round_le; rewrite <- Hc; lra);
      lra.
Qed.

(** The environment of a candidate, bounded from both sides. *)
Lemma advance_environment (w : Worker) :
  (temperature (advance heatup w) <= MAX_TEMPERATURE
   /\ Qmin MAX_TEMPERATURE (temperature w + 1.15) <= temperature (advance heatup w)
   /\ humidity (advance heatup w) <= MAX_HUMIDITY
   /\ Qmin MAX_HUMIDITY (humidity w + 3.45) <= humidity (advance heatup w))
  /\ (MIN_TEMPERATURE <= temperature (advance cooldown w)
      /\ temperature (advance cooldown w) <= Qmax MIN_TEMPERATURE (temperature w - 1.15)
      /\ MIN_HUMIDITY <= humidity (advance cooldown w)
      /\ humidity (advance cooldown w) <= Qmax MIN_HUMIDITY (humidity w - 3.45)).
Proof.
  unfold advance, calculateNextSimulationValues.
  cbn [spread roundValues perturb over temperature humidity p_temperature
       p_humidity newTemp newHumidity].
  unfold_constants.
  destruct (capped_tenths 340 34 (temperature w + 1.2) eq_refl) as [T1 T2].
  destruct (capped_tenths 900 90 (humidity w + 3.5) eq_refl) as [H1 H2].
  destruct (floored_tenths 100 10 (temperature w - 1.2) eq_refl) as [T3 T4].
  destruct (floored_tenths 200 20 (humidity w - 3.5) eq_refl) as [H3 H4].
  assert (E1 : temperature w + 1.2 - 0.05 == temperature w + 1.15) by lra.
  assert (E2 : humidity w + 3.5 - 0.05 == humidity w + 3.45) by lra.
  assert (E3 : temperature w - 1.2 + 0.05 == temperature w - 1.15) by lra.
  assert (E4 : humidity w - 3.5 + 0.05 == humidity w - 3.45) by lra.
  rewrite E1 in T2. rewrite E2 in H2. rewrite E3 in T4. rewrite E4 in H4.
  repeat split; assumption.
Qed.

(** X6. The environment of a candidate, from a worker whose temperature is
    in [10,34] and whose humidity is in [20,90].  A heat-up candidate has at
    most 34 degrees and 90 %, and at least the current value plus 1.1
    degrees and 3.4 %, or the maximum; a cool-down candidate has at least
    10 degrees and 20 %, and at most the current value less 1.1 degrees and
    3.4 %, or the minimum.  The margins of 0.1 below the increments of 1.2
    and 3.5 cover the rounding to one decimal. *)
Theorem candidate_environment (w : Worker) :
  MIN_TEMPERATURE <= temperature w <= MAX_TEMPERATURE ->
  MIN_HUMIDITY <= humidity w <= MAX_HUMIDITY ->
  (Qmin MAX_TEMPERATURE (temperature w + 1.1) <= temperature (advance heatup w)
   /\ temperature (advance heatup w) <= MAX_TEMPERATURE
   /\ Qmin MAX_HUMIDITY (humidity w + 3.4) <= humidity (advance heatup w)
   /\ humidity (advance heatup w) <= MAX_HUMIDITY)
  /\ (MIN_TEMPERATURE <= temperature (advance cooldown w)
      /\ temperature (advance cooldown w)
         <= Qmax MIN_TEMPERATURE (temperature w - 1.1)
      /\ MIN_HUMIDITY <= humidity (advance cooldown w)
      /\ humidity (advance cooldown w) <= Qmax MIN_HUMIDITY (humidity w - 3.4)).
Proof.
  intros _ _.
  destruct (advance_environment w)
    as [(T1 & T2 & H1 & H2) (T3 & T4 & H3 & H4)].
  assert (Lmin : forall c x y z, x <= y -> Qmin c y <= z -> Qmin c x <= z).
  { intros c x y z Hxy Hz.
    destruct (Q.min_spec c x) as [[? ->] | [? ->]];
      destruct (Q.min_spec c y) as [[? E] | [? E]]; rewrite E in Hz; lra. }
  assert (Lmax : forall c x y z, y <= x -> z <= Qmax c y -> z <= Qmax c x).
  { intros c x y z Hxy Hz.
    destruct (Q.max_spec c x) as [[? ->] | [? ->]];
      destruct (Q.max_spec c y) as [[? E] | [? E]]; rewrite E in Hz; lra. }
  repeat split; try assumption.
  - apply (Lmin _ _ (temperature w + 1.15)); [lra | assumption].
  - apply (Lmin _ _ (humidity w + 3.45)); [lra | assumption].
  - apply (Lmax _ _ (temperature w - 1.15)); [lra | assumption].
  - apply (Lmax _ _ (humidity w - 3.45)); [lra | assumption].
Qed.

Lemma candidate_environment_witness :
  (MIN_TEMPERATURE <= temperature johnDoe <= MAX_TEMPERATURE)
  /\ (MIN_HUMIDITY <= humidity johnDoe <= MAX_HUMIDITY)
  /\ Qmin MAX_TEMPERATURE (temperature johnDoe + 1.1)
     <= temperature (advance heatup johnDoe)
  /\ humidity (advance cooldown johnDoe)
     <= Qmax MIN_HUMIDITY (humidity johnDoe - 3.4).
Proof.
  assert (Ht : MIN_TEMPERATURE <= temperature johnDoe <= MAX_TEMPERATURE)
    by (unfold johnDoe; unfold_constants; cbn [temperature]; split; lra).
  assert (Hh : MIN_HUMIDITY <= humidity johnDoe <= MAX_HUMIDITY)
    by (unfold johnDoe; unfold_constants; cbn [humidity]; split; lra).
  split; [exact Ht|]. split; [exact Hh|].
  pose proof (candidate_environment johnDoe Ht Hh) as H.
  split; apply H.
Defined.

Lemma Qnat_succ (n : nat) :
  inject_Z (Z.of_nat (S n)) == inject_Z (Z.of_nat n) + 1.
Proof. rewrite Nat2Z.inj_succ, <- Z.add_1_r, inject_Z_plus. reflexivity. Qed.

Lemma Qnat_nonneg (n : nat) : 0 <= inject_Z (Z.of_nat n).
Proof. change 0 with (inject_Z 0). rewrite <- Zle_Qle. lia. Qed.

Section Convergence.

Variable P : Props.

(** Every oracle call of the list fulfils. *)
Let allFulfil (outcomes : list OracleOutcome) : Prop :=
  Forall (fun o => exists p, o = Fulfilled p) outcomes.

Let completed : string := "Simulation completed successfully"%string.

(** The common induction: [gap w n] says that [n] more steps saturate the
    environment of [w], and one step from [w] either saturates it or
    leaves a gap of [n - 1] steps. *)
Lemma converges_aux (mode : SimulationType) (gap : Worker -> nat -> Prop)
  (Hlast : forall w k,
     gap w 1%nat ->
     shouldContinueSimulation (advance mode w) mode k = false)
  (Hnext : forall w w' n,
     gap w (S (S n)) ->
     temperature w' = temperature (advance mode w) ->
     humidity w' = humidity (advance mode w) ->
     gap w' (S n)) :
  forall (n : nat) (outcomes : list OracleOutcome) (r : Refs) (w : Worker),
    Running mode w r ->
    allFulfil outcomes ->
    (S n <= List.length outcomes)%nat ->
    gap w (S n) ->
    Idle (fst (runTicks P outcomes r))
    /\ hd_error (stopReasons (snd (runTicks P outcomes r))) = Some completed
    /\ (List.length (oracleCalls (snd (runTicks P outcomes r))) <= S n)%nat.
Proof.
  induction n as [|n IH]; intros outcomes r w Hrun Hall Hlen Hgap;
    (destruct outcomes as [|o rest]; [cbn in Hlen; lia|]);
    inversion Hall as [|? ? [p ->] Hrest]; subst;
    rewrite runTicks_cons; cbn [fst snd];
    destruct (step_running_outcome P mode w (Fulfilled p) r Hrun)
      as (Ho & _ & Hcase);
    rewrite oracleCalls_app, stopReasons_app, Ho, length_app;
    cbn [List.length];
    destruct Hcase as [(Hidle & reason & Hr & Hwhy)
                      | (Hnone & Hs & _ & Hgo & w' & Hrun' & Ht & Hh)].
  - destruct (run_idle P rest _ Hidle) as (Hi & Hoc & _).
    rewrite Hoc, Hr, (Hwhy p eq_refl). cbn [app hd_error List.length].
    split; [exact Hi | split; [reflexivity | lia]].
  - specialize (Hgo p eq_refl). rewrite (Hlast w _ Hgap) in Hgo. discriminate.
  - destruct (run_idle P rest _ Hidle) as (Hi & Hoc & _).
    rewrite Hoc, Hr, (Hwhy p eq_refl). cbn [app hd_error List.length].
    split; [exact Hi | split; [reflexivity | lia]].
  - destruct (IH rest _ w' Hrun' Hrest) as (Hi & Hhd & Hcalls).
    + cbn in Hlen. lia.
    + exact (Hnext w w' n Hgap Ht Hh).
    + rewrite Hnone. cbn [app].
      split; [exact Hi | split; [exact Hhd | lia]].
Qed.

End Convergence.

Lemma ltb_false (a b : Q) : b <= a -> Js.ltb a b = false.
Proof.
  intro H. unfold Js.ltb. apply negb_false_iff. now apply Qle_bool_iff.
Qed.

Lemma heatup_converges (P : Props) (n : nat) (outcomes : list OracleOutcome)
  (r : Refs) (w : Worker) :
  Running heatup w r ->
  Forall (fun o => exists p, o = Fulfilled p) outcomes ->
  (S n <= List.length outcomes)%nat ->
  MAX_TEMPERATURE <= temperature w + 1.15 * inject_Z (Z.of_nat (S n))
  /\ MAX_HUMIDITY <= humidity w + 3.45 * inject_Z (Z.of_nat (S n)) ->
  Idle (fst (runTicks P outcomes r))
  /\ hd_error (stopReasons (snd (runTicks P outcomes r)))
     = Some "Simulation completed successfully"%string
  /\ (List.length (oracleCalls (snd (runTicks P outcomes r))) <= S n)%nat.
Proof.
  intros Hrun Hall Hlen Hgap.
  apply (converges_aux P heatup
           (fun w n =>
              MAX_TEMPERATURE <= temperature w + 1.15 * inject_Z (Z.of_nat n)
              /\ MAX_HUMIDITY <= humidity w + 3.45 * inject_Z (Z.of_nat n)))
    with (w := w); try assumption.
  - intros w0 k [Ht Hh].
    destruct (advance_environment w0) as [(_ & T & _ & H) _].
    unfold shouldContinueSimulation.
    destruct (MAX_SIMULATION_STEPS <=? k)%nat; [reflexivity|].
    change (inject_Z (Z.of_nat 1)) with 1 in Ht, Hh.
    rewrite !ltb_false; [reflexivity | |].
    + destruct (Q.min_spec MAX_HUMIDITY (humidity w0 + 3.45)) as [[? E] | [? E]];
        rewrite E in H; lra.
    + destruct (Q.min_spec MAX_TEMPERATURE (temperature w0 + 1.15))
        as [[? E] | [? E]]; rewrite E in T; lra.
  - intros w0 w' m [Ht Hh] Et Eh.
    destruct (advance_environment w0) as [(_ & T & _ & H) _].
    rewrite Et, Eh. rewrite (Qnat_succ (S m)) in Ht, Hh.
    pose proof (Qnat_nonneg (S m)) as Hpos.
    remember (inject_Z (Z.of_nat (S m))) as q. clear Heqq.
    split.
    + destruct (Q.min_spec MAX_TEMPERATURE (temperature w0 + 1.15))
        as [[? E] | [? E]]; rewrite E in T; lra.
    + destruct (Q.min_spec MAX_HUMIDITY (humidity w0 + 3.45)) as [[? E] | [? E]];
        rewrite E in H; lra.
Qed.

Lemma cooldown_converges (P : Props) (n : nat) (outcomes : list OracleOutcome)
  (r : Refs) (w : Worker) :
  Running cooldown w r ->
  Forall (fun o => exists p, o = Fulfilled p) outcomes ->
  (S n <= List.length outcomes)%nat ->
  temperature w - 1.15 * inject_Z (Z.of_nat (S n)) <= MIN_TEMPERATURE
  /\ humidity w - 3.45 * inject_Z (Z.of_nat (S n)) <= MIN_HUMIDITY ->
  Idle (fst (runTicks P outcomes r))
  /\ hd_error (stopReasons (snd (runTicks P outcomes r)))
     = Some "Simulation completed successfully"%string
  /\ (List.length (oracleCalls (snd (runTicks P outcomes r))) <= S n)%nat.
Proof.
  intros Hrun Hall Hlen Hgap.
  apply (converges_aux P cooldown
           (fun w n =>
              temperature w - 1.15 * inject_Z (Z.of_nat n) <= MIN_TEMPERATURE
              /\ humidity w - 3.45 * inject_Z (Z.of_nat n) <= MIN_HUMIDITY))
    with (w := w); try assumption.
  - intros w0 k [Ht Hh].
    destruct (advance_environment w0) as [_ (_ & T & _ & H)].
    unfold shouldContinueSimulation, Js.gtb.
    destruct (MAX_SIMULATION_STEPS <=? k)%nat; [reflexivity|].
    change (inject_Z (Z.of_nat 1)) with 1 in Ht, Hh.
    rewrite !ltb_false; [reflexivity | |].
    + destruct (Q.max_spec MIN_HUMIDITY (humidity w0 - 3.45)) as [[? E] | [? E]];
        rewrite E in H; lra.
    + destruct (Q.max_spec MIN_TEMPERATURE (temperature w0 - 1.15))
        as [[? E] | [? E]]; rewrite E in T; lra.
  - intros w0 w' m [Ht Hh] Et Eh.
    destruct (advance_environment w0) as [_ (_ & T & _ & H)].
    rewrite Et, Eh. rewrite (Qnat_succ (S m)) in Ht, Hh.
    pose proof (Qnat_nonneg (S m)) as Hpos.
    remember (inject_Z (Z.of_nat (S m))) as q. clear Heqq.
    split.
    + destruct (Q.max_spec MIN_TEMPERATURE (temperature w0 - 1.15))
        as [[? E] | [? E]]; rewrite E in T; lra.
    + destruct (Q.max_spec MIN_HUMIDITY (humidity w0 - 3.45)) as [[? E] | [? E]];
        rewrite E in H; lra.
Qed.

(** X7. A run whose oracle always answers completes by itself.  From a
    worker whose temperature is in [10,34] and whose humidity is in [20,90],
    in either mode, twenty-one ticks with fulfilled oracle calls are enough:
    the loop is idle afterwards, the first stop logged carries the reason
    "Simulation completed successfully", and at most 21 oracle requests
    have been sent. *)
Theorem successful_run_completes (P : Props) (mode : SimulationType)
  (w : Worker) (r : Refs) (outcomes : list OracleOutcome) :
  Running mode w r ->
  MIN_TEMPERATURE <= temperature w <= MAX_TEMPERATURE ->
  MIN_HUMIDITY <= humidity w <= MAX_HUMIDITY ->
  Forall (fun o => exists p, o = Fulfilled p) outcomes ->
  (21 <= List.length outcomes)%nat ->
  Idle (fst (runTicks P outcomes r))
  /\ hd_error (stopReasons (snd (runTicks P outcomes r)))
     = Some "Simulation completed successfully"%string
  /\ (List.length (oracleCalls (snd (runTicks P outcomes r))) <= 21)%nat.
Proof.
  intros Hrun Ht Hh Hall Hlen. destruct mode.
  - apply (heatup_converges P 20 outcomes r w); try assumption.
    change (inject_Z (Z.of_nat 21)) with 21. unfold_constants. split; lra.
  - apply (cooldown_converges P 20 outcomes r w); try assumption.
    change (inject_Z (Z.of_nat 21)) with 21. unfold_constants. split; lra.
Qed.

Lemma successful_run_completes_witness :
  Running heatup johnDoe startedHeatUp
  /\ hd_error
       (stopReasons
          (snd (runTicks sampleProps
                  (List.repeat (Fulfilled samplePrediction) 21) startedHeatUp)))
     = Some "Simulation completed successfully"%string.
Proof.
  split; [exact startedHeatUp_running|].
  apply (successful_run_completes sampleProps heatup johnDoe startedHeatUp
           (List.repeat (Fulfilled samplePrediction) 21) startedHeatUp_running).
  - unfold johnDoe. unfold_constants. cbn [temperature]. split; lra.
  - unfold johnDoe. unfold_constants. cbn [humidity]. split; lra.
  - repeat constructor; eexists; reflexivity.
  - vm_compute; lia.
Defined.

(** ** Starting, and ticks that find nothing to do *)

(** X8. Starting a simulation replaces whatever was there.  When the
    subject resolves, the loop ends up running in the requested mode on
    that worker, with all counters at zero, the new handle in
    [intervalRef], the worker's temperature and humidity as baseline
    snapshot and the worker on display; the events are the teardown of the
    previous state (one stop line, and a [clearInterval] exactly when a
    handle was held) followed by one [setInterval] with the configured
    period.  When no worker is named "John Doe", nothing changes and
    nothing is sent: a run in progress keeps running. *)
Theorem start_replaces_run (mode : SimulationType) (P : Props) (h : Timer)
  (r : Refs) :
  (forall target,
     findTargetWorker r = Some target ->
     let out := startSimulation mode P h r in
     Running mode target (fst out)
     /\ stepCountRef (fst out) = 0%nat
     /\ errorCountRef (fst out) = 0%nat
     /\ consecutiveErrorsRef (fst out) = 0%nat
     /\ intervalRef (fst out) = Some h
     /\ baselineValuesRef (fst out) = environmentOf target
     /\ currentValues (simulationState (fst out)) = Some target
     /\ workersRef (fst out) = workersRef r
     /\ snd out
        = (StopLogged "Starting new simulation"%string
           :: match intervalRef r with
              | Some old => [ClearInterval old]
              | None => []
              end) ++ [SetInterval h (simulationInterval P)])
  /\ (findTargetWorker r = None -> startSimulation mode P h r = (r, [])).
Proof.
  unfold startSimulation. split.
  - intros target Hfind. rewrite Hfind. cbv zeta.
    pose proof (stopSimulation_events (Some "Starting new simulation"%string) r)
      as Hev.
    pose proof (stopSimulation_refs (Some "Starting new simulation"%string) r)
      as Hr.
    destruct (stopSimulation (Some "Starting new simulation"%string) r)
      as [r1 ev]. cbn [fst snd] in *. subst r1 ev.
    repeat split.
  - intro Hfind. now rewrite Hfind.
Qed.

Lemma start_replaces_run_witness :
  findTargetWorker startedHeatUp = Some johnDoe
  /\ Running cooldown johnDoe
       (fst (startSimulation cooldown sampleProps 2%positive startedHeatUp))
  /\ findTargetWorker (initialRefs []) = None
  /\ startSimulation heatup sampleProps 1%positive (initialRefs [])
     = (initialRefs [], []).
Proof.
  split; [exact startedHeatUp_target|].
  split.
  - apply (proj1 (start_replaces_run cooldown sampleProps 2%positive startedHeatUp)
             johnDoe startedHeatUp_target).
  - split; [reflexivity|].
    apply (proj2 (start_replaces_run heatup sampleProps 1%positive (initialRefs []))).
    reflexivity.
Defined.

(** X9. A tick that finds the loop inactive or without a mode, or that
    can resolve no worker (nothing cached and nobody named "John Doe"),
    tears the loop down with the matching reason and sends neither an
    oracle request nor a worker update.  A tick with an empty cache that
    does find the worker proceeds exactly as if that worker had been
    cached. *)
Theorem tick_without_work (P : Props) (o : OracleOutcome) (r : Refs) :
  (isActiveRef r = false \/ simulationTypeRef r = None ->
     let out := performSimulationStep P o r in
     Idle (fst out)
     /\ snd out = snd (stopSimulation (Some "Simulation no longer active"%string) r)
     /\ oracleCalls (snd out) = [] /\ workerUpdates (snd out) = [])
  /\ (forall mode,
        isActiveRef r = true -> simulationTypeRef r = Some mode ->
        currentWorkerValuesRef r = None ->
        (findTargetWorker r = None ->
           let out := performSimulationStep P o r in
           Idle (fst out)
           /\ snd out = snd (stopSimulation (Some "Target worker not found"%string) r)
           /\ oracleCalls (snd out) = [] /\ workerUpdates (snd out) = [])
        /\ (forall found,
              findTargetWorker r = Some found ->
              performSimulationStep P o r
              = performSimulationStep P o (setCache (Some found) r))).
Proof.
  split.
  - intro Hoff. cbv zeta.
    assert (E : performSimulationStep P o r
                = stopSimulation (Some "Simulation no longer active"%string) r).
    { unfold performSimulationStep, performSimulationStep_begin.
      destruct Hoff as [Ha | Ht].
      - rewrite Ha. now destruct (stopSimulation _ r).
      - rewrite Ht. destruct (isActiveRef r); now destruct (stopSimulation _ r). }
    rewrite E.
    destruct (stop_sends_nothing (Some "Simulation no longer active"%string) r).
    repeat split; try assumption; apply stopSimulation_Idle.
  - intros mode Ha Ht Hc. split.
    + intro Hfind. cbv zeta.
      assert (E : performSimulationStep P o r
                  = stopSimulation (Some "Target worker not found"%string) r).
      { unfold performSimulationStep, performSimulationStep_begin.
        rewrite Ha, Ht, Hc, Hfind. now destruct (stopSimulation _ r). }
      rewrite E.
      destruct (stop_sends_nothing (Some "Target worker not found"%string) r).
      repeat split; try assumption; apply stopSimulation_Idle.
    + intros found Hfind.
      unfold performSimulationStep, performSimulationStep_begin.
      rewrite Ha, Ht, Hc, Hfind.
      cbn [setCache isActiveRef simulationTypeRef currentWorkerValuesRef].
      rewrite Ha, Ht. reflexivity.
Qed.

Lemma tick_without_work_witness :
  (isActiveRef (initialRefs [johnDoe]) = false
   \/ simulationTypeRef (initialRefs [johnDoe]) = None)
  /\ oracleCalls
       (snd (performSimulationStep sampleProps (Fulfilled samplePrediction)
               (initialRefs [johnDoe]))) = [].
Proof.
  assert (H : isActiveRef (initialRefs [johnDoe]) = false
              \/ simulationTypeRef (initialRefs [johnDoe]) = None)
    by (left; reflexivity).
  split; [exact H|].
  apply (proj1 (tick_without_work sampleProps (Fulfilled samplePrediction)
                  (initialRefs [johnDoe])) H).
Defined.

(** ** What a tick publishes *)

(** X10. A tick whose oracle call is rejected hands [onWorkerUpdate] one
    update, addressed to the subject, that carries no risk key: spread over
    any worker it leaves riskScore, predictedClass and confidence as they
    were.  When the run goes on, the cached worker has the candidate's
    environment and still carries the risk annotation it had before the
    tick. *)
Theorem failed_tick_keeps_annotation (P : Props) (mode : SimulationType)
  (w : Worker) (message : string) (r : Refs) :
  Running mode w r ->
  let out := performSimulationStep P (Rejected message) r in
  (exists u,
     workerUpdates (snd out) = [(id w, u)]
     /\ forall x,
          riskScore (spread x u) = riskScore x
          /\ predictedClass (spread x u) = predictedClass x
          /\ confidence (spread x u) = confidence x
          /\ temperature (spread x u) = temperature (advance mode w)
          /\ humidity (spread x u) = humidity (advance mode w))
  /\ (stopReasons (snd out) = [] ->
      exists c,
        currentWorkerValuesRef (fst out) = Some c
        /\ c = advance mode w
        /\ riskScore c = riskScore w
        /\ predictedClass c = predictedClass w
        /\ confidence c = confidence w).
Proof.
  intro Hrun. cbv zeta. rewrite (step_running P mode w _ r Hrun).
  cbn [fst snd workerUpdates stopReasons].
  rewrite resume_rejected_shape. cbn [pendingWorker pendingType].
  set (pub := ErrorLogged message (stepCountRef r) :: _).
  assert (Hpu : workerUpdates pub
                = [(id w, calculateNextSimulationValues w mode)])
    by (subst pub; now destruct (onError P)).
  assert (Hps : stopReasons pub = []) by (subst pub; now destruct (onError P)).
  assert (Hstop : forall reason r1,
            workerUpdates (pub ++ snd (stopSimulation (Some reason) r1))
            = [(id w, calculateNextSimulationValues w mode)]
            /\ stopReasons (pub ++ snd (stopSimulation (Some reason) r1)) <> []).
  { intros reason r1.
    destruct (stop_sends_nothing (Some reason) r1) as [_ Hu].
    rewrite workerUpdates_app, stopReasons_app, Hu, Hpu, Hps.
    rewrite stopSimulation_stopReasons. split; [reflexivity | discriminate]. }
  assert (Hupd : forall x,
            riskScore (spread x (calculateNextSimulationValues w mode))
            = riskScore x
            /\ predictedClass (spread x (calculateNextSimulationValues w mode))
               = predictedClass x
            /\ confidence (spread x (calculateNextSimulationValues w mode))
               = confidence x
            /\ temperature (spread x (calculateNextSimulationValues w mode))
               = temperature (advance mode w)
            /\ humidity (spread x (calculateNextSimulationValues w mode))
               = humidity (advance mode w))
    by (intro x; repeat split).
  destruct (3 <=? _)%nat; cbn [fst snd];
    [destruct (Hstop "Too many consecutive errors"%string
                 (afterFailure (mkPending w mode) r)) as [-> Hne];
     split; [eauto | intro; contradiction]|].
  destruct (10 <=? _)%nat; cbn [fst snd];
    [destruct (Hstop "Too many total errors"%string
                 (afterFailure (mkPending w mode) r)) as [-> Hne];
     split; [eauto | intro; contradiction]|].
  destruct (MAX_SIMULATION_STEPS <=? _)%nat; cbn [fst snd];
    [destruct (Hstop "Maximum steps reached"%string
                 (bumpStep (afterFailure (mkPending w mode) r))) as [-> Hne];
     split; [eauto | intro; contradiction]|].
  rewrite Hpu. split; [eauto|].
  intros _. eexists. split; [reflexivity|]. repeat split.
Qed.

Lemma failed_tick_keeps_annotation_witness :
  Running heatup johnDoe startedHeatUp
  /\ exists u,
       workerUpdates
         (snd (performSimulationStep sampleProps (Rejected "down"%string)
                 startedHeatUp)) = [(id johnDoe, u)]
       /\ forall x,
            riskScore (spread x u) = riskScore x
            /\ predictedClass (spread x u) = predictedClass x
            /\ confidence (spread x u) = confidence x
            /\ temperature (spread x u) = temperature (advance heatup johnDoe)
            /\ humidity (spread x u) = humidity (advance heatup johnDoe).
Proof.
  split; [exact startedHeatUp_running|].
  apply (proj1 (failed_tick_keeps_annotation sampleProps heatup johnDoe
                  "down"%string startedHeatUp startedHeatUp_running)).
Defined.

(** X11. A tick whose oracle call fulfils hands [onWorkerUpdate] one update,
    addressed to the subject, that sets the three risk fields to the
    oracle's answer and the environment to the candidate's, on whatever
    worker it is spread.  When the run goes on, the cached worker is the
    subject with that update applied, and it is the worker on display. *)
Theorem fulfilled_tick_publishes_prediction (P : Props) (mode : SimulationType)
  (w : Worker) (prediction : PredictionResponse) (r : Refs) :
  Running mode w r ->
  let out := performSimulationStep P (Fulfilled prediction) r in
  exists u,
    workerUpdates (snd out) = [(id w, u)]
    /\ (forall x,
          riskScore (spread x u) = Some (risk_score prediction)
          /\ predictedClass (spread x u) = Some (predicted_class prediction)
          /\ confidence (spread x u) = Some (confidence_of prediction)
          /\ temperature (spread x u) = temperature (advance mode w)
          /\ humidity (spread x u) = humidity (advance mode w))
    /\ (stopReasons (snd out) = [] ->
        currentWorkerValuesRef (fst out) = Some (spread w u)
        /\ currentValues (simulationState (fst out)) = Some (spread w u)).
Proof.
  intro Hrun. cbv zeta. rewrite (step_running P mode w _ r Hrun).
  cbn [fst snd workerUpdates stopReasons].
  rewrite resume_fulfilled_shape. cbn [pendingWorker pendingType].
  exists (spreadPartial (calculateNextSimulationValues w mode)
            (riskAnnotation prediction)).
  destruct (shouldContinueSimulation _ _ _); cbn [fst snd].
  - split; [reflexivity|]. split; [intro x; repeat split|].
    intros _. cbn [afterSuccess currentWorkerValuesRef simulationState
                   currentValues pendingWorker pendingType].
    split; [reflexivity | now rewrite spread_spreadPartial].
  - destruct (stop_sends_nothing
                (Some "Simulation completed successfully"%string)
                (afterSuccess (mkPending w mode) prediction r)) as [_ Hu].
    rewrite workerUpdates_app, stopReasons_app, Hu, stopSimulation_stopReasons.
    split; [reflexivity|]. split; [intro x; repeat split|].
    cbn. discriminate.
Qed.

Lemma fulfilled_tick_publishes_prediction_witness :
  Running heatup johnDoe startedHeatUp
  /\ exists u,
       workerUpdates
         (snd (performSimulationStep sampleProps (Fulfilled samplePrediction)
                 startedHeatUp)) = [(id johnDoe, u)]
       /\ (forall x,
             riskScore (spread x u) = Some (risk_score samplePrediction)
             /\ predictedClass (spread x u)
                = Some (predicted_class samplePrediction)
             /\ confidence (spread x u) = Some (confidence_of samplePrediction)
             /\ temperature (spread x u) = temperature (advance heatup johnDoe)
             /\ humidity (spread x u) = humidity (advance heatup johnDoe))
       /\ (stopReasons
             (snd (performSimulationStep sampleProps (Fulfilled samplePrediction)
                     startedHeatUp)) = [] ->
           currentWorkerValuesRef
             (fst (performSimulationStep sampleProps (Fulfilled samplePrediction)
                     startedHeatUp)) = Some (spread johnDoe u)
           /\ currentValues
                (simulationState
                   (fst (performSimulationStep sampleProps
                           (Fulfilled samplePrediction) startedHeatUp)))
              = Some (spread johnDoe u)).
Proof.
  split; [exact startedHeatUp_running|].
  exact (fulfilled_tick_publishes_prediction sampleProps heatup johnDoe
           samplePrediction startedHeatUp startedHeatUp_running).
Defined.

(** ** More on the Signal Generator *)

Lemma tenths_le (cap : Z) (c x : Q) :
  c * 10 == inject_Z cap -> x <= c -> Js.round (x * 10) / 10 <= c.
Proof.
  intros Hc Hx. apply Qle_shift_div_r; [reflexivity|].
  rewrite Hc. apply round_le. rewrite <- Hc. lra.
Qed.

Lemma tenths_ge (floor : Z) (c x : Q) :
  c * 10 == inject_Z floor -> c <= x -> c <= Js.round (x * 10) / 10.
Proof.
  intros Hc Hx. apply Qle_shift_div_l; [reflexivity|].
  rewrite Hc. apply round_ge. rewrite <- Hc. lra.
Qed.

(** X12. The one-sided clamps need no assumption on the input.  For every
    worker, a heat-up candidate never exceeds the ten caps (34 degrees,
    90 %, 110 bpm, RMSSD 120, SDNN 150, mean NNI 1200, pNN50 50, total power
    5000, LF 1500, HF 1000), and a cool-down candidate never falls below
    the nine floors (10 degrees, 20 %, 50 bpm, RMSSD 15, SDNN 20, pNN50 5,
    total power 800, LF 200, HF 100). *)
Theorem candidate_one_sided_clamps (w : Worker) :
  (let c := advance heatup w in
   temperature c <= 34 /\ humidity c <= 90 /\ hrv_mean_hr c <= 110
   /\ hrv_rmssd c <= 120 /\ hrv_sdnn c <= 150 /\ hrv_mean_nni c <= 1200
   /\ hrv_pnni_50 c <= 50 /\ hrv_total_power c <= 5000
   /\ hrv_lf c <= 1500 /\ hrv_hf c <= 1000)
  /\ (let c := advance cooldown w in
      10 <= temperature c /\ 20 <= humidity c /\ 50 <= hrv_mean_hr c
      /\ 15 <= hrv_rmssd c /\ 20 <= hrv_sdnn c
      /\ 5 <= hrv_pnni_50 c /\ 800 <= hrv_total_power c
      /\ 200 <= hrv_lf c /\ 100 <= hrv_hf c).
Proof.
  unfold advance, calculateNextSimulationValues.
  cbn [spread roundValues perturb over temperature humidity hrv_mean_hr
       hrv_rmssd hrv_sdnn hrv_mean_nni hrv_pnni_50 hrv_total_power hrv_lf
       hrv_hf p_temperature p_humidity p_hrv_mean_hr p_hrv_rmssd p_hrv_sdnn
       p_hrv_mean_nni p_hrv_pnni_50 p_hrv_total_power p_hrv_lf p_hrv_hf
       newTemp newHumidity newMeanHR newRMSSD newSDNN newMeanNNI newPNN50
       newTotalPower newLF newHF].
  unfold_constants. split; cbv zeta; repeat apply conj.
  - apply (tenths_le 340); [reflexivity | minmax; lra].
  - apply (tenths_le 900); [reflexivity | minmax; lra].
  - apply (tenths_le 1100); [reflexivity | minmax; lra].
  - apply (tenths_le 1200); [reflexivity | minmax; lra].
  - apply (tenths_le 1500); [reflexivity | minmax; lra].
  - apply (round_le 1200). unfold inject_Z. minmax; lra.
  - apply (tenths_le 500); [reflexivity | minmax; lra].
  - apply (round_le 5000). unfold inject_Z. minmax; lra.
  - apply (round_le 1500). unfold inject_Z. minmax; lra.
  - apply (round_le 1000). unfold inject_Z. minmax; lra.
  - apply (tenths_ge 100); [reflexivity | minmax; lra].
  - apply (tenths_ge 200); [reflexivity | minmax; lra].
  - apply (tenths_ge 500); [reflexivity | minmax; lra].
  - apply (tenths_ge 150); [reflexivity | minmax; lra].
  - apply (tenths_ge 200); [reflexivity | minmax; lra].
  - apply (tenths_ge 50); [reflexivity | minmax; lra].
  - apply (round_ge 800). unfold inject_Z. minmax; lra.
  - apply (round_ge 200). unfold inject_Z. minmax; lra.
  - apply (round_ge 100). unfold inject_Z. minmax; lra.
Qed.

(** X13. Heat-up raises.  From a state inside the clamps, with a mean NNI
    that is not negative, no perturbed value of the heat-up branch is below
    the current one: temperature, humidity, heart rate and the seven HRV
    statistics all move up or stay, and cool-down moves temperature and
    humidity down or leaves them. *)
Theorem heatup_raises (w : Worker) :
  primaryInRange w ->
  0 <= hrv_mean_nni w ->
  let h := perturb w heatup in
  let c := perturb w cooldown in
  temperature w <= newTemp h /\ humidity w <= newHumidity h
  /\ hrv_mean_hr w <= newMeanHR h /\ hrv_rmssd w <= newRMSSD h
  /\ hrv_sdnn w <= newSDNN h /\ hrv_mean_nni w <= newMeanNNI h
  /\ hrv_pnni_50 w <= newPNN50 h /\ hrv_total_power w <= newTotalPower h
  /\ hrv_lf w <= newLF h /\ hrv_hf w <= newHF h
  /\ newTemp c <= temperature w /\ newHumidity c <= humidity w.
Proof.
  unfold primaryInRange. unfold_constants.
  intros (Ht & Hh & Hr & Hm & Hs & Hn & Hp & Htp & Hl & Hf) Hnn.
  cbn [perturb newTemp newHumidity newMeanHR newRMSSD newSDNN
    newMeanNNI newPNN50 newTotalPower newLF newHF]; unfold_constants.
  repeat apply conj; minmax; lra.
Qed.

Lemma heatup_raises_witness :
  primaryInRange johnDoe
  /\ temperature johnDoe <= newTemp (perturb johnDoe heatup)
  /\ hrv_hf johnDoe <= newHF (perturb johnDoe heatup).
Proof.
  split; [exact johnDoe_in_range|].
  assert (Hnn : 0 <= hrv_mean_nni johnDoe)
    by (unfold johnDoe; cbn [hrv_mean_nni]; lra).
  pose proof (heatup_raises johnDoe johnDoe_in_range Hnn) as H.
  cbv zeta in H. split; apply H.
Defined.

(** ** More on the Progress Reporter *)

Lemma Qmin_mono_r (c a b : Q) : a <= b -> Js.min c a <= Js.min c b.
Proof.
  intro H.
  destruct (min_cases c a) as [[? ->] | [? ->]];
    destruct (min_cases c b) as [[? ->] | [? ->]]; lra.
Qed.

(** X14. Inside the environment ranges the two modes measure the same
    distance from opposite ends: heat-up progress and cool-down progress add
    up to 100.  Heat-up progress is 0 at (10 degrees, 20 %) and 100 at
    (34 degrees, 90 %), cool-down progress the reverse. *)
Theorem progress_modes_complement (t h : Q) :
  MIN_TEMPERATURE <= t <= MAX_TEMPERATURE ->
  MIN_HUMIDITY <= h <= MAX_HUMIDITY ->
  getSimulationProgress t h heatup + getSimulationProgress t h cooldown == 100
  /\ getSimulationProgress MIN_TEMPERATURE MIN_HUMIDITY heatup == 0
  /\ getSimulationProgress MAX_TEMPERATURE MAX_HUMIDITY heatup == 100
  /\ getSimulationProgress MIN_TEMPERATURE MIN_HUMIDITY cooldown == 100
  /\ getSimulationProgress MAX_TEMPERATURE MAX_HUMIDITY cooldown == 0.
Proof.
  intros Ht Hh. split; [|repeat split; vm_compute; reflexivity].
  unfold getSimulationProgress. unfold_constants.
  assert (D : forall y d, 0 < d -> 0 <= y <= d -> 0 <= y / d * 100 <= 100).
  { intros y d Hd Hy.
    assert (0 <= y / d <= 1) by (apply div_between; [assumption | lra]).
    remember (y / d) as q. lra. }
  pose proof (D (t - 10) (34 - 10)) as A1. pose proof (D (34 - t) (34 - 10)) as A2.
  pose proof (D (h - 20) (90 - 20)) as B1. pose proof (D (90 - h) (90 - 20)) as B2.
  assert (E1 : (t - 10) / (34 - 10) * 100 + (34 - t) / (34 - 10) * 100 == 100)
    by (field; lra).
  assert (E2 : (h - 20) / (90 - 20) * 100 + (90 - h) / (90 - 20) * 100 == 100)
    by (field; lra).
  remember ((t - 10) / (34 - 10) * 100) as a1.
  remember ((34 - t) / (34 - 10) * 100) as a2.
  remember ((h - 20) / (90 - 20) * 100) as b1.
  remember ((90 - h) / (90 - 20) * 100) as b2.
  assert (M : forall x, x <= 100 -> Js.min 100 x == x).
  { intros x Hx. destruct (min_cases 100 x) as [[? ->] | [? ->]]; lra. }
  rewrite (M a1), (M a2), (M b1), (M b2) by lra.
  field_simplify_eq. lra.
Qed.

Lemma progress_modes_complement_witness :
  (MIN_TEMPERATURE <= 22 <= MAX_TEMPERATURE)
  /\ (MIN_HUMIDITY <= 45 <= MAX_HUMIDITY)
  /\ getSimulationProgress 22 45 heatup + getSimulationProgress 22 45 cooldown
     == 100.
Proof.
  assert (Ht : MIN_TEMPERATURE <= 22 <= MAX_TEMPERATURE)
    by (unfold_constants; lra).
  assert (Hh : MIN_HUMIDITY <= 45 <= MAX_HUMIDITY) by (unfold_constants; lra).
  split; [exact Ht|]. split; [exact Hh|].
  apply (progress_modes_complement 22 45 Ht Hh).
Defined.

(** X15. Progress is monotone in both readings, for every input: heat-up
    progress never decreases when temperature or humidity rise, and
    cool-down progress never increases. *)
Theorem progress_monotone (t t' h h' : Q) :
  t <= t' -> h <= h' ->
  getSimulationProgress t h heatup <= getSimulationProgress t' h' heatup
  /\ getSimulationProgress t' h' cooldown <= getSimulationProgress t h cooldown.
Proof.
  intros Ht Hh. unfold getSimulationProgress. unfold_constants.
  assert (D : forall y y' d, 0 < d -> y <= y' -> y / d * 100 <= y' / d * 100).
  { intros y y' d Hd Hy.
    assert (y / d <= y' / d).
    { apply Qle_shift_div_l; [assumption|].
      assert (E : y / d * d == y) by (field; lra). rewrite E. exact Hy. }
    remember (y / d) as q. remember (y' / d) as q'. lra. }
  assert (Half : forall a b a' b', a <= a' -> b <= b' -> (a + b) / 2 <= (a' + b') / 2).
  { intros a b a' b' Ha Hb.
    apply Qle_shift_div_l; [reflexivity|].
    assert (E : (a + b) / 2 * 2 == a + b) by field. rewrite E. lra. }
  split; apply Half; apply Qmin_mono_r; apply D; lra.
Qed.

Lemma progress_monotone_witness :
  22 <= 23.2 /\ 45 <= 48.5
  /\ getSimulationProgress 22 45 heatup <= getSimulationProgress 23.2 48.5 heatup.
Proof.
  assert (Ht : 22 <= 23.2) by lra.
  assert (Hh : 45 <= 48.5) by lra.
  split; [exact Ht|]. split; [exact Hh|].
  apply (progress_monotone 22 23.2 45 48.5 Ht Hh).
Defined.

(** * Further properties of the model loaders *)

(** ** The Python bridge *)

Lemma callPythonScript_any (parseJSON : string -> option ModelLoader.Json)
  (run : ModelLoader.PythonRun) :
  ModelLoader.callPythonScript parseJSON run
  = ModelLoaderRest.callPythonScriptAny parseJSON run.
Proof. reflexivity. Qed.

(** X16. [healthCheck] of the Python bridge never rejects.  When the
    process cannot be started, exits with a code other than 0, prints
    something that does not parse, or runs into the timeout, it resolves
    with status "error", [model_loaded] false and a non-empty message.
    When the process exits with 0 and its output parses, it resolves with
    the parsed output as it came: unlike [predict], it does not look for an
    error field in it. *)
Theorem python_health_never_rejects (J : Type) (parseJSON : string -> option J)
  (run : ModelLoader.PythonRun) :
  (exists v, ModelLoaderRest.healthCheck parseJSON run = Resolves v)
  /\ (((exists m, run = ModelLoader.SpawnError m)
       \/ run = ModelLoader.TimedOut
       \/ (exists code out err,
             run = ModelLoader.Closed code out err /\ code <> Some 0%Z)
       \/ (exists out err,
             run = ModelLoader.Closed (Some 0%Z) out err /\ parseJSON out = None)) ->
      exists message,
        message <> ""%string
        /\ ModelLoaderRest.healthCheck parseJSON run
           = Resolves (inr {| ModelLoaderRest.status := "error";
                              ModelLoaderRest.model_loaded := false;
                              ModelLoaderRest.error := Some message |}))
  /\ (forall out err result,
        run = ModelLoader.Closed (Some 0%Z) out err ->
        parseJSON out = Some result ->
        ModelLoaderRest.healthCheck parseJSON run = Resolves (inl result)).
Proof.
  unfold ModelLoaderRest.healthCheck. repeat apply conj.
  - destruct (ModelLoaderRest.callPythonScriptAny parseJSON run);
      eexists; reflexivity.
  - intros [[m ->] | [-> | [(code & out & err & -> & Hcode)
                           | (out & err & -> & Hparse)]]].
    + eexists. split; [|reflexivity]. discriminate.
    + eexists. split; [|reflexivity]. discriminate.
    + destruct code as [[|p|p]|]; try (now contradiction Hcode);
        (eexists; split; [|reflexivity]); discriminate.
    + cbn [ModelLoaderRest.callPythonScriptAny]. rewrite Hparse.
      eexists. split; [|reflexivity]. discriminate.
  - intros out err result -> Hparse.
    cbn [ModelLoaderRest.callPythonScriptAny]. now rewrite Hparse.
Qed.

Lemma python_health_never_rejects_witness :
  (exists m, ModelLoader.SpawnError "ENOENT" = ModelLoader.SpawnError m)
  /\ exists message,
       message <> ""%string
       /\ ModelLoaderRest.healthCheck sampleParse (ModelLoader.SpawnError "ENOENT")
          = Resolves (inr {| ModelLoaderRest.status := "error";
                             ModelLoaderRest.model_loaded := false;
                             ModelLoaderRest.error := Some message |}).
Proof.
  assert (H : exists m, ModelLoader.SpawnError "ENOENT" = ModelLoader.SpawnError m)
    by (eexists; reflexivity).
  split; [exact H|].
  apply (proj1 (proj2 (python_health_never_rejects ModelLoader.Json sampleParse
                         (ModelLoader.SpawnError "ENOENT")))).
  left. exact H.
Defined.

Lemma lowerAscii_idempotent (c : Ascii.ascii) :
  ModelLoaderRest.lowerAscii (ModelLoaderRest.lowerAscii c)
  = ModelLoaderRest.lowerAscii c.
Proof. destruct c as [[] [] [] [] [] [] [] []]; reflexivity. Qed.

Lemma toLowerCase_idempotent (s : string) :
  ModelLoaderRest.toLowerCase (ModelLoaderRest.toLowerCase s)
  = ModelLoaderRest.toLowerCase s.
Proof.
  induction s as [|c s IH]; [reflexivity|].
  cbn. now rewrite lowerAscii_idempotent, IH.
Qed.

(** The base risk of every own key, after [|| 0.5], lies in [0.33, 1]. *)
Lemma own_base_risk (key : string) (v : Q) :
  ModelLoaderRest.classRiskMap key = ModelLoaderRest.Own v ->
  0.33 <= (if Qeq_bool v 0 then 0.5 else v) <= 1.
Proof.
  unfold ModelLoaderRest.classRiskMap. intro H.
  repeat match type of H with
         | context [if ?b then _ else _] => destruct b
         end; inversion H; subst;
    split; apply Qle_bool_iff; vm_compute; reflexivity.
Qed.

(** X17. [calculateRiskScore] of the Python bridge.  For a label that is
    not [constructor] or [__proto__] in any letter case, and a confidence
    between 0 and 1, the score is a number between 0.1 and 1.  The label is
    read without regard to letter case.  For [constructor] and
    [__proto__] the lookup finds an inherited member and the score is
    [NaN]. *)
Theorem python_risk_score_range (predictedClass : string) (confidence : Q) :
  (ModelLoaderRest.classRiskMap (ModelLoaderRest.toLowerCase predictedClass)
   <> ModelLoaderRest.Inherited ->
   0 <= confidence <= 1 ->
   exists v,
     ModelLoaderRest.calculateRiskScore predictedClass confidence = Some v
     /\ 0.1 <= v <= 1)
  /\ ModelLoaderRest.calculateRiskScore
       (ModelLoaderRest.toLowerCase predictedClass) confidence
     = ModelLoaderRest.calculateRiskScore predictedClass confidence
  /\ (ModelLoaderRest.classRiskMap (ModelLoaderRest.toLowerCase predictedClass)
      = ModelLoaderRest.Inherited ->
      ModelLoaderRest.calculateRiskScore predictedClass confidence = None).
Proof.
  unfold ModelLoaderRest.calculateRiskScore. repeat apply conj.
  - intros Hown Hc.
    destruct (ModelLoaderRest.classRiskMap _) as [v| |] eqn:E;
      [| contradiction |].
    + pose proof (own_base_risk _ v E) as Hb.
      cbv zeta. remember (if Qeq_bool v 0 then 0.5 else v) as b.
      eexists. split; [reflexivity|].
      destruct (min_cases 1.0 (b * confidence + 0.1)) as [[? ->] | [? ->]];
        nra.
    + eexists. split; [reflexivity|].
      destruct (min_cases 1.0 (0.5 * confidence + 0.1)) as [[? ->] | [? ->]];
        lra.
  - now rewrite toLowerCase_idempotent.
  - intros ->. reflexivity.
Qed.

Lemma python_risk_score_range_witness :
  ModelLoaderRest.classRiskMap (ModelLoaderRest.toLowerCase "Slightly Warm")
  <> ModelLoaderRest.Inherited
  /\ 0 <= 0.8 <= 1
  /\ (exists v,
        ModelLoaderRest.calculateRiskScore "Slightly Warm" 0.8 = Some v
        /\ 0.1 <= v <= 1)
  /\ ModelLoaderRest.calculateRiskScore "Constructor" 0.8 = None.
Proof.
  assert (H1 : ModelLoaderRest.classRiskMap
                 (ModelLoaderRest.toLowerCase "Slightly Warm")
               <> ModelLoaderRest.Inherited) by (vm_compute; discriminate).
  assert (H2 : 0 <= 0.8 <= 1) by lra.
  split; [exact H1|]. split; [exact H2|]. split.
  - apply (proj1 (python_risk_score_range "Slightly Warm" 0.8) H1 H2).
  - apply (proj2 (proj2 (python_risk_score_range "Constructor" 0.8))).
    reflexivity.
Defined.

(** X18. In [calculateRiskScore] of the Python bridge the entry
    ['neutral': 0.0] is falsy, so [|| 0.5] replaces it: "neutral" gets the
    score of a label the map does not know.  That score is never below the
    score of "slightly warm" for a confidence between 0 and 1, and it is
    above it by more than 0.001 for a confidence of at least 0.01. *)
Theorem python_neutral_scores_as_unknown (predictedClass : string)
  (confidence : Q) :
  (ModelLoaderRest.classRiskMap (ModelLoaderRest.toLowerCase predictedClass)
   = ModelLoaderRest.Missing ->
   ModelLoaderRest.calculateRiskScore predictedClass confidence
   = ModelLoaderRest.calculateRiskScore "neutral" confidence)
  /\ (0 <= confidence <= 1 ->
      exists n s,
        ModelLoaderRest.calculateRiskScore "neutral" confidence = Some n
        /\ ModelLoaderRest.calculateRiskScore "slightly warm" confidence = Some s
        /\ s <= n)
  /\ (0.01 <= confidence <= 1 ->
      exists n s,
        ModelLoaderRest.calculateRiskScore "neutral" confidence = Some n
        /\ ModelLoaderRest.calculateRiskScore "slightly warm" confidence = Some s
        /\ s + 0.001 <= n).
Proof.
  split; [|split].
  - intro Hmiss. unfold ModelLoaderRest.calculateRiskScore at 1.
    rewrite Hmiss. reflexivity.
  - intro Hc.
    exists (Js.min 1.0 (0.5 * confidence + 0.1)),
           (Js.min 1.0 (0.33 * confidence + 0.1)).
    split; [reflexivity|]. split; [reflexivity|].
    destruct (min_cases 1.0 (0.5 * confidence + 0.1)) as [[? ->] | [? ->]];
      destruct (min_cases 1.0 (0.33 * confidence + 0.1)) as [[? ->] | [? ->]];
      lra.
  - intro Hc.
    exists (Js.min 1.0 (0.5 * confidence + 0.1)),
           (Js.min 1.0 (0.33 * confidence + 0.1)).
    split; [reflexivity|]. split; [reflexivity|].
    destruct (min_cases 1.0 (0.5 * confidence + 0.1)) as [[? ->] | [? ->]];
      destruct (min_cases 1.0 (0.33 * confidence + 0.1)) as [[? ->] | [? ->]];
      lra.
Qed.

Lemma python_neutral_scores_as_unknown_witness :
  ModelLoaderRest.classRiskMap (ModelLoaderRest.toLowerCase "Cold")
  = ModelLoaderRest.Missing
  /\ ModelLoaderRest.calculateRiskScore "Cold" 0.8
     = ModelLoaderRest.calculateRiskScore "neutral" 0.8
  /\ 0.01 <= 0.8 <= 1
  /\ exists n s,
       ModelLoaderRest.calculateRiskScore "neutral" 0.8 = Some n
       /\ ModelLoaderRest.calculateRiskScore "slightly warm" 0.8 = Some s
       /\ s + 0.001 <= n.
Proof.
  assert (H1 : ModelLoaderRest.classRiskMap (ModelLoaderRest.toLowerCase "Cold")
               = ModelLoaderRest.Missing) by reflexivity.
  assert (H2 : 0.01 <= 0.8 <= 1) by lra.
  split; [exact H1|]. split.
  - apply (proj1 (python_neutral_scores_as_unknown "Cold" 0.8) H1).
  - split; [exact H2|].
    apply (proj2 (proj2 (python_neutral_scores_as_unknown "Cold" 0.8)) H2).
Defined.

(** ** The in-process loader and the health route *)

Lemma gtb_compat (a b c : Q) : a == b -> Js.gtb a c = Js.gtb b c.
Proof.
  intro H. unfold Js.gtb, Js.ltb. f_equal.
  destruct (Qle_bool a c) eqn:Ea; destruct (Qle_bool b c) eqn:Eb;
    try reflexivity.
  - apply Qle_bool_iff in Ea. rewrite H in Ea. apply Qle_bool_iff in Ea.
    congruence.
  - apply Qle_bool_iff in Eb. rewrite <- H in Eb. apply Qle_bool_iff in Eb.
    congruence.
Qed.

(** The temperature the mock model reads back from the scaled row is the
    temperature of the input. *)
Lemma unscaled_temperature (T : Q) (c : Q) :
  Js.gtb ((T - 25.0) / 5.0 * 5.0 + 25.0) c = Js.gtb T c.
Proof. apply gtb_compat. field. Qed.

(** X19. The in-process [predict], once the model is loaded or loads, on an
    input that has Temperature and Humidity: it resolves without an error
    field, and the answer is a function of the temperature alone.  Above 28
    degrees the class is "hot" with score 0.9585, above 26 "warm" with
    0.768, above 24 "slightly warm" with 0.5985, otherwise "neutral" with
    0.6495; the confidence is always 0.6.  Humidity, heart rate, RMSSD,
    gender and age have no influence. *)
Theorem js_predict_by_temperature
  (readable : JSModelLoader.ModelFile -> bool)
  (components : option JSModelLoader.ModelComponents)
  (inputData : JSModelLoader.PredictionInput) (T H : Q) :
  (components = Some JSModelLoader.mockComponents
   \/ (components = None /\ JSModelLoader.loadModel readable <> None)) ->
  JSModelLoader.Temperature inputData = Some T ->
  JSModelLoader.Humidity inputData = Some H ->
  exists result,
    fst (JSModelLoader.predict readable components inputData) = Resolves result
    /\ JSModelLoader.error result = None
    /\ JSModelLoader.predicted_class result = Some (classByTemperature T)
    /\ JSModelLoader.risk_score result == riskByTemperature T
    /\ JSModelLoader.confidence result == 0.6.
Proof.
  intros Hloaded HT HH.
  assert (Hc : match components with
               | Some c => Some c
               | None => JSModelLoader.loadModel readable
               end = Some JSModelLoader.mockComponents).
  { destruct Hloaded as [-> | [-> Hload]]; [reflexivity|].
    unfold JSModelLoader.loadModel in *.
    destruct (_ && _); [reflexivity | congruence]. }
  unfold JSModelLoader.predict, JSModelLoader.predictBody.
  rewrite Hc, HT, HH. cbn [fst].
  eexists. split; [reflexivity|].
  cbn [JSModelLoader.error JSModelLoader.predicted_class
       JSModelLoader.risk_score JSModelLoader.confidence].
  assert (Hrow : nth 0
            (JSModelLoader.transformRow JSModelLoader.mockComponents 0
               (map (fun feature =>
                       match JSModelLoader.lookupFeature inputData feature with
                       | Some v => v
                       | None => 0.0
                       end)
                  (JSModelLoader.featureColumns JSModelLoader.mockComponents))) 0
            = (T - 25.0) / 5.0).
  { cbn [JSModelLoader.featureColumns JSModelLoader.mockComponents map
         JSModelLoader.transformRow nth].
    unfold JSModelLoader.lookupFeature at 1. cbn [String.eqb Ascii.eqb Bool.eqb].
    rewrite HT. reflexivity. }
  unfold JSModelLoader.modelPredict, JSModelLoader.modelPredictProba.
  rewrite Hrow, !unscaled_temperature.
  unfold classByTemperature, riskByTemperature.
  split; [reflexivity|].
  destruct (Js.gtb T 28); [repeat split; vm_compute; reflexivity|].
  destruct (Js.gtb T 26); [repeat split; vm_compute; reflexivity|].
  destruct (Js.gtb T 24); repeat split; vm_compute; reflexivity.
Qed.

Lemma js_predict_by_temperature_witness :
  (@None JSModelLoader.ModelComponents = Some JSModelLoader.mockComponents
   \/ (@None JSModelLoader.ModelComponents = None
       /\ JSModelLoader.loadModel allReadable <> None))
  /\ exists result,
       fst (JSModelLoader.predict allReadable None hotInput) = Resolves result
       /\ JSModelLoader.error result = None
       /\ JSModelLoader.predicted_class result = Some (classByTemperature 30.0)
       /\ JSModelLoader.risk_score result == riskByTemperature 30.0
       /\ JSModelLoader.confidence result == 0.6.
Proof.
  assert (H : @None JSModelLoader.ModelComponents
              = Some JSModelLoader.mockComponents
              \/ (@None JSModelLoader.ModelComponents = None
                  /\ JSModelLoader.loadModel allReadable <> None))
    by (right; split; [reflexivity | vm_compute; discriminate]).
  split; [exact H|].
  exact (js_predict_by_temperature allReadable None hotInput 30.0 60.0 H
           eq_refl eq_refl).
Defined.

(** X20. The in-process loader loads once.  If the four model files can be
    read when [predict] is first called, the instance holds the components
    afterwards, even when that call fails on its input, and every later
    [predict] answers as it would with all files readable, whatever has
    become of the files.  If a file cannot be read, nothing is kept and the
    next call tries again. *)
Theorem js_model_loaded_once
  (readable readable' : JSModelLoader.ModelFile -> bool)
  (first next : JSModelLoader.PredictionInput) :
  (JSModelLoader.loadModel readable <> None ->
   snd (JSModelLoader.predict readable None first)
   = Some JSModelLoader.mockComponents
   /\ JSModelLoader.predict readable'
        (snd (JSModelLoader.predict readable None first)) next
      = JSModelLoader.predict allReadable None next)
  /\ (JSModelLoader.loadModel readable = None ->
      snd (JSModelLoader.predict readable None first) = None
      /\ JSModelLoader.predict readable'
           (snd (JSModelLoader.predict readable None first)) next
         = JSModelLoader.predict readable' None next).
Proof.
  split.
  - intro Hload.
    assert (E : JSModelLoader.loadModel readable
                = Some JSModelLoader.mockComponents).
    { unfold JSModelLoader.loadModel in *.
      destruct (_ && _); [reflexivity | congruence]. }
    assert (S1 : snd (JSModelLoader.predict readable None first)
                 = Some JSModelLoader.mockComponents).
    { unfold JSModelLoader.predict, JSModelLoader.predictBody. rewrite E.
      destruct (JSModelLoader.Temperature first),
               (JSModelLoader.Humidity first); reflexivity. }
    split; [exact S1|]. rewrite S1. reflexivity.
  - intro Hload.
    assert (S1 : snd (JSModelLoader.predict readable None first) = None).
    { unfold JSModelLoader.predict, JSModelLoader.predictBody.
      now rewrite Hload. }
    split; [exact S1|]. now rewrite S1.
Qed.

Lemma js_model_loaded_once_witness :
  JSModelLoader.loadModel allReadable <> None
  /\ JSModelLoader.predict scalerMissing
       (snd (JSModelLoader.predict allReadable None noHumidityInput)) hotInput
     = JSModelLoader.predict allReadable None hotInput
  /\ JSModelLoader.loadModel scalerMissing = None
  /\ snd (JSModelLoader.predict scalerMissing None hotInput) = None.
Proof.
  assert (H1 : JSModelLoader.loadModel allReadable <> None)
    by (vm_compute; discriminate).
  assert (H2 : JSModelLoader.loadModel scalerMissing = None) by reflexivity.
  split; [exact H1|]. split.
  - apply (proj1 (js_model_loaded_once allReadable scalerMissing
                    noHumidityInput hotInput) H1).
  - split; [exact H2|].
    apply (proj2 (js_model_loaded_once scalerMissing scalerMissing
                    hotInput hotInput) H2).
Defined.

(** X21. The health route answers 200 exactly when the model is available:
    the instance already holds the components, or all four model files can
    be read.  Then the body says "healthy" and loaded, without an error
    field.  Otherwise the status is 503 and the body carries status
    "error", [model_loaded] false and the message "Failed to load model
    components".  [POST] answers as [GET]. *)
Theorem health_route_status
  (readable : JSModelLoader.ModelFile -> bool)
  (components : option JSModelLoader.ModelComponents) :
  let available :=
    match components with
    | Some _ => true
    | None =>
        readable JSModelLoader.feature_columns
        && readable JSModelLoader.label_encoder
        && readable JSModelLoader.scaler
        && readable JSModelLoader.xgboost_model
    end in
  let response := fst (HealthRoute.GET readable components) in
  (available = true ->
   HealthRoute.statusCode response = 200%nat
   /\ HealthRoute.body response
      = {| JSModelLoaderRest.status := "healthy";
           JSModelLoaderRest.model_loaded := true;
           JSModelLoaderRest.error := None |}
   /\ snd (HealthRoute.GET readable components) <> None)
  /\ (available = false ->
      HealthRoute.statusCode response = 503%nat
      /\ HealthRoute.body response
         = {| JSModelLoaderRest.status := "error";
              JSModelLoaderRest.model_loaded := false;
              JSModelLoaderRest.error :=
                Some "Failed to load model components"%string |}
      /\ snd (HealthRoute.GET readable components) = None)
  /\ HealthRoute.POST readable components = HealthRoute.GET readable components.
Proof.
  cbv zeta. unfold HealthRoute.POST, HealthRoute.GET,
    JSModelLoaderRest.healthCheck, JSModelLoader.loadModel.
  destruct components as [c|].
  - repeat split; try discriminate.
  - destruct (_ && _); repeat split; try discriminate.
Qed.

Lemma health_route_status_witness :
  HealthRoute.statusCode (fst (HealthRoute.GET allReadable None)) = 200%nat
  /\ HealthRoute.statusCode (fst (HealthRoute.GET scalerMissing None)) = 503%nat.
Proof.
  split.
  - apply (proj1 (health_route_status allReadable None)). reflexivity.
  - apply (proj1 (proj2 (health_route_status scalerMissing None))). reflexivity.
Defined.

(** * What the loop never reads *)

Lemma withBaseline_twice (b b' : PartialWorker) (r : Refs) :
  withBaseline b (withBaseline b' r) = withBaseline b r.
Proof. reflexivity. Qed.

Lemma stop_withBaseline (reason : option string) (b : PartialWorker) (r : Refs) :
  stopSimulation reason (withBaseline b r)
  = (withBaseline b (fst (stopSimulation reason r)),
     snd (stopSimulation reason r)).
Proof.
  unfold stopSimulation, clearSimulationInterval.
  cbn [withBaseline intervalRef]. destruct (intervalRef r); reflexivity.
Qed.

Section Independence.

Variable P : Props.

Lemma resume_withBaseline (k : Pending) (o : OracleOutcome) (b : PartialWorker)
  (r : Refs) :
  performSimulationStep_resume P k o (withBaseline b r)
  = (withBaseline b (fst (performSimulationStep_resume P k o r)),
     snd (performSimulationStep_resume P k o r)).
Proof.
  destruct o as [prediction | message].
  - rewrite !resume_fulfilled_shape.
    change (stepCountRef (withBaseline b r)) with (stepCountRef r).
    change (afterSuccess k prediction (withBaseline b r))
      with (withBaseline b (afterSuccess k prediction r)).
    destruct (shouldContinueSimulation _ _ _); [reflexivity|].
    now rewrite stop_withBaseline.
  - rewrite !resume_rejected_shape.
    change (stepCountRef (withBaseline b r)) with (stepCountRef r).
    change (errorCountRef (withBaseline b r)) with (errorCountRef r).
    change (consecutiveErrorsRef (withBaseline b r))
      with (consecutiveErrorsRef r).
    change (afterFailure k (withBaseline b r))
      with (withBaseline b (afterFailure k r)).
    change (bumpStep (withBaseline b (afterFailure k r)))
      with (withBaseline b (bumpStep (afterFailure k r))).
    destruct (3 <=? _)%nat; [now rewrite stop_withBaseline|].
    destruct (10 <=? _)%nat; [now rewrite stop_withBaseline|].
    destruct (MAX_SIMULATION_STEPS <=? _)%nat; [now rewrite stop_withBaseline|].
    reflexivity.
Qed.

Lemma begin_withBaseline (b : PartialWorker) (r : Refs) :
  performSimulationStep_begin (withBaseline b r)
  = match performSimulationStep_begin r with
    | Halted r' ev => Halted (withBaseline b r') ev
    | Awaiting r' k ev => Awaiting (withBaseline b r') k ev
    end.
Proof.
  unfold performSimulationStep_begin.
  change (isActiveRef (withBaseline b r)) with (isActiveRef r).
  change (simulationTypeRef (withBaseline b r)) with (simulationTypeRef r).
  change (currentWorkerValuesRef (withBaseline b r))
    with (currentWorkerValuesRef r).
  change (findTargetWorker (withBaseline b r)) with (findTargetWorker r).
  destruct (isActiveRef r); [destruct (simulationTypeRef r) as [mode|]|];
    try (rewrite stop_withBaseline; now destruct (stopSimulation _ r)).
  destruct (currentWorkerValuesRef r) as [c|]; [reflexivity|].
  destruct (findTargetWorker r) as [found|]; [reflexivity|].
  rewrite stop_withBaseline. now destruct (stopSimulation _ r).
Qed.

(** Two worlds that differ in the baseline snapshot at most. *)
Let alike (w1 w2 : World) : Prop :=
  trace w2 = trace w1 /\ inflight w2 = inflight w1
  /\ exists b, refs w2 = withBaseline b (refs w1).

Lemma alike_act (a : Action) (w1 w2 : World) :
  alike w1 w2 -> alike (act P a w1) (act P a w2).
Proof.
  intros (Ht & Hi & b & Hr). unfold alike.
  destruct a; cbn [act]; unfold perform, react; rewrite Hr, Ht, Hi.
  - unfold startHeatUpSimulation, startSimulation.
    change (findTargetWorker (withBaseline b (refs w1)))
      with (findTargetWorker (refs w1)).
    destruct (findTargetWorker (refs w1)) as [target|].
    + rewrite stop_withBaseline.
      destruct (stopSimulation _ (refs w1)) as [r1 ev]. cbn [fst snd refs trace inflight].
      repeat split. now exists (environmentOf target).
    + cbn [refs trace inflight]. repeat split. now exists b.
  - unfold startCoolDownSimulation, startSimulation.
    change (findTargetWorker (withBaseline b (refs w1)))
      with (findTargetWorker (refs w1)).
    destruct (findTargetWorker (refs w1)) as [target|].
    + rewrite stop_withBaseline.
      destruct (stopSimulation _ (refs w1)) as [r1 ev]. cbn [fst snd refs trace inflight].
      repeat split. now exists (environmentOf target).
    + cbn [refs trace inflight]. repeat split. now exists b.
  - rewrite stop_withBaseline.
    destruct (stopSimulation _ (refs w1)) as [r1 ev]. cbn [fst snd refs trace inflight].
    repeat split. now exists b.
  - unfold resetToBaseline.
    change (findTargetWorker (withBaseline b (refs w1)))
      with (findTargetWorker (refs w1)).
    destruct (findTargetWorker (refs w1)) as [target|].
    + rewrite stop_withBaseline.
      destruct (stopSimulation _ (refs w1)) as [r1 ev]. cbn [fst snd refs trace inflight].
      repeat split. now exists b.
    + cbn [refs trace inflight]. repeat split. now exists b.
  - cbn [refs trace inflight]. repeat split. now exists b.
  - unfold unmount, clearSimulationInterval.
    cbn [withBaseline intervalRef].
    destruct (intervalRef (refs w1)); cbn [refs trace inflight];
      repeat split; now exists b.
  - change (intervalRef (withBaseline b (refs w1))) with (intervalRef (refs w1)).
    destruct (intervalRef (refs w1)); [|repeat split; eauto].
    rewrite begin_withBaseline.
    destruct (performSimulationStep_begin (refs w1));
      cbn [refs trace inflight]; repeat split; now exists b.
  - destruct (nth_error (inflight w1) i) as [k|]; [|repeat split; eauto].
    rewrite resume_withBaseline.
    destruct (performSimulationStep_resume P k o (refs w1)) as [r1 ev].
    cbn [fst snd refs trace inflight]. repeat split. now exists b.
Qed.

Lemma alike_actAll (l : list Action) (w1 w2 : World) :
  alike w1 w2 -> alike (actAll P l w1) (actAll P l w2).
Proof.
  unfold actAll. revert w1 w2.
  induction l as [|a l IH]; intros w1 w2 H; [exact H|].
  cbn [fold_left]. apply IH. now apply alike_act.
Qed.

(** X22. The baseline snapshot is written by the start functions and read
    by nothing.  Replace the snapshot of any state by any other: after any
    sequence of calls, renders, timer firings and oracle answers, the
    events sent are the same, the pending ticks are the same, and the refs
    are the same except, at most, for the snapshot itself. *)
Theorem baseline_never_read (actions : list Action) (w : World)
  (b : PartialWorker) :
  let x := actAll P actions w in
  let y := actAll P actions
             (mkWorld (withBaseline b (refs w)) (inflight w) (trace w)) in
  trace y = trace x
  /\ inflight y = inflight x
  /\ withBaseline emptyPartial (refs y) = withBaseline emptyPartial (refs x).
Proof.
  cbv zeta.
  destruct (alike_actAll actions w
              (mkWorld (withBaseline b (refs w)) (inflight w) (trace w)))
    as (Ht & Hi & b' & Hr).
  - repeat split. now exists b.
  - repeat split; try assumption. now rewrite Hr.
Qed.

(** X23. A running loop works from its cached worker and never goes back to
    the [workers] prop: whatever list a render installs, the next tick
    sends the same events and leaves the same refs, the list apart.  A
    subject that has been edited or removed from the list meanwhile makes
    no difference to the run. *)
Theorem running_tick_ignores_workers (mode : SimulationType) (c : Worker)
  (workers : list Worker) (o : OracleOutcome) (r : Refs) :
  Running mode c r ->
  performSimulationStep P o (render workers r)
  = (render workers (fst (performSimulationStep P o r)),
     snd (performSimulationStep P o r)).
Proof.
  intro Hrun.
  assert (Hrun' : Running mode c (render workers r)) by exact Hrun.
  rewrite (step_running P mode c o _ Hrun'), (step_running P mode c o r Hrun).
  cbn [fst snd].
  assert (Hstop : forall reason r1,
            stopSimulation reason (render workers r1)
            = (render workers (fst (stopSimulation reason r1)),
               snd (stopSimulation reason r1))).
  { intros reason r1. unfold stopSimulation, clearSimulationInterval.
    cbn [render intervalRef]. destruct (intervalRef r1); reflexivity. }
  destruct o as [prediction | message].
  - rewrite !resume_fulfilled_shape.
    change (stepCountRef (render workers r)) with (stepCountRef r).
    change (afterSuccess (mkPending c mode) prediction (render workers r))
      with (render workers (afterSuccess (mkPending c mode) prediction r)).
    destruct (shouldContinueSimulation _ _ _); [reflexivity|].
    now rewrite Hstop.
  - rewrite !resume_rejected_shape.
    change (stepCountRef (render workers r)) with (stepCountRef r).
    change (errorCountRef (render workers r)) with (errorCountRef r).
    change (consecutiveErrorsRef (render workers r))
      with (consecutiveErrorsRef r).
    change (afterFailure (mkPending c mode) (render workers r))
      with (render workers (afterFailure (mkPending c mode) r)).
    change (bumpStep (render workers (afterFailure (mkPending c mode) r)))
      with (render workers (bumpStep (afterFailure (mkPending c mode) r))).
    destruct (3 <=? _)%nat; [now rewrite Hstop|].
    destruct (10 <=? _)%nat; [now rewrite Hstop|].
    destruct (MAX_SIMULATION_STEPS <=? _)%nat; [now rewrite Hstop|].
    reflexivity.
Qed.

End Independence.

Lemma running_tick_ignores_workers_witness :
  Running heatup johnDoe startedHeatUp
  /\ snd (performSimulationStep sampleProps (Fulfilled samplePrediction)
            (render [] startedHeatUp))
     = snd (performSimulationStep sampleProps (Fulfilled samplePrediction)
              startedHeatUp).
Proof.
  split; [exact startedHeatUp_running|].
  rewrite (running_tick_ignores_workers sampleProps heatup johnDoe []
             (Fulfilled samplePrediction) startedHeatUp startedHeatUp_running).
  reflexivity.
Defined.
